(** * pytest-html: the report builder of [src/pytest_html/basereport.py]

    A shallow embedding of [BaseReport] and of the module-level helpers
    [_format_duration], [_is_error], [_process_logs], [_process_outcome],
    [_process_links] and [_fix_py], followed by the properties of the
    report builder that the specification states, and by the edge cases
    and invariants that the code shows besides.

    Conventions of the embedding:
    - a Python [str] is the list of its code points ([list N]);
    - a Python [float] is an IEEE 754 binary64 number, given by the
      bit-level specification [spec_float] of the standard library at
      precision 53 and maximal exponent 1024;
    - a Python [int] is a [Z];
    - a call that can raise returns a [result];
    - the collaborators of the report builder that live outside the file
      (hooks, template, data-model insertion policy, codecs of the Python
      library) are the methods of type classes, which a report builder
      without plugins instantiates at the end of the definitions. *)

From Stdlib Require Import ZArith Lia Ascii String SpecFloat Decimal DecimalZ.
From stdpp Require Import base option list gmap.

Local Open Scope Z_scope.

(** ** Exceptions and results *)

Inductive exn : Type :=
  | ValueError
  | OverflowError
  | ZeroDivisionError
  | UnicodeDecodeError
  | TypeError.

Inductive result (A : Type) : Type :=
  | Ok (a : A)
  | Raise (e : exn).

Arguments Ok {A} a.
Arguments Raise {A} e.

#[global] Instance result_ret : MRet result := fun _ a => Ok a.

#[global] Instance result_bind : MBind result := fun _ _ f m =>
  match m with
  | Ok a => f a
  | Raise e => Raise e
  end.

Definition is_ok {A : Type} (r : result A) : bool :=
  match r with
  | Ok _ => true
  | Raise _ => false
  end.

(** ** Strings *)

Abbreviation pystr := (list N) (only parsing).

(** The string literal of the source, as code points. *)
Definition py (s : string) : pystr :=
  (fun a => N_of_ascii a) <$> list_ascii_of_string s.

(** [str(n)] and ["{}".format(n)] for an [int]. *)
Fixpoint uint_chars (d : Decimal.uint) : pystr :=
  match d with
  | Decimal.Nil => []
  | Decimal.D0 d => 48%N :: uint_chars d
  | Decimal.D1 d => 49%N :: uint_chars d
  | Decimal.D2 d => 50%N :: uint_chars d
  | Decimal.D3 d => 51%N :: uint_chars d
  | Decimal.D4 d => 52%N :: uint_chars d
  | Decimal.D5 d => 53%N :: uint_chars d
  | Decimal.D6 d => 54%N :: uint_chars d
  | Decimal.D7 d => 55%N :: uint_chars d
  | Decimal.D8 d => 56%N :: uint_chars d
  | Decimal.D9 d => 57%N :: uint_chars d
  end.

Definition str_of_int (z : Z) : pystr :=
  match Z.to_int z with
  | Decimal.Pos d => uint_chars d
  | Decimal.Neg d => 45%N :: uint_chars d
  end.

(** [s.rjust(width, fill)]: pad on the left up to [width] characters. *)
Definition rjust (width : nat) (fill : N) (s : pystr) : pystr :=
  replicate (width - length s)%nat fill ++ s.

(** The format specification [:02d]: sign first, then zeros up to a total
    width of two characters. *)
Definition format_02d (z : Z) : pystr :=
  if z <? 0
  then 45%N :: rjust 1 48%N (str_of_int (- z))
  else rjust 2 48%N (str_of_int z).

(** ** Floats *)

Module Float.

Definition prec : Z := 53.
Definition emax : Z := 1024.

Abbreviation float := spec_float (only parsing).

(** An [int] operand of a float operation is converted first. *)
Definition of_int (z : Z) : float := binary_normalize prec emax z 0 false.

(** The float denoted by the decimal literal [n/d] (both below [2^53]):
    the double nearest to the quotient. *)
Definition of_ratio (n d : Z) : float :=
  SFdiv prec emax (of_int n) (of_int d).

Definition add : float -> float -> float := SFadd prec emax.
Definition mul : float -> float -> float := SFmul prec emax.
Definition div : float -> float -> float := SFdiv prec emax.
Definition ltb : float -> float -> bool := SFltb.
Definition leb : float -> float -> bool := SFleb.

Definition valid (x : float) : bool := valid_binary prec emax x.

Definition is_finite (x : float) : bool :=
  match x with
  | S754_zero _ | S754_finite _ _ _ => true
  | _ => false
  end.

Definition is_zero (x : float) : bool :=
  match x with
  | S754_zero _ => true
  | _ => false
  end.

Definition sign (x : float) : bool :=
  match x with
  | S754_zero s | S754_infinity s | S754_finite s _ _ => s
  | S754_nan => false
  end.

(** C's [fmod]: the exact remainder of the truncated quotient, with the
    sign of the dividend. Both operands are brought to the smaller of
    the two exponents, where the remainder is a remainder of integers. *)
Definition fmod (x y : float) : float :=
  match x, y with
  | S754_nan, _ | _, S754_nan => S754_nan
  | S754_infinity _, _ => S754_nan
  | _, S754_zero _ => S754_nan
  | S754_zero _, _ => x
  | S754_finite _ _ _, S754_infinity _ => x
  | S754_finite sx mx ex, S754_finite _ my ey =>
      let e := Z.min ex ey in
      let r := (Zpos mx * 2 ^ (ex - e)) mod (Zpos my * 2 ^ (ey - e)) in
      binary_normalize prec emax (cond_Zopp sx r) e sx
  end.

(** [v % w] of two floats ([float_rem] of CPython): [fmod], moved to the
    sign of the divisor. *)
Definition rem (v w : float) : result float :=
  if is_zero w then Raise ZeroDivisionError
  else
    let m := fmod v w in
    if is_zero m then Ok (S754_zero (sign w))
    else if xorb (ltb w (S754_zero false)) (ltb m (S754_zero false))
         then Ok (add m w)
         else Ok m.

(** The largest integer not above a finite [x] (0 otherwise). *)
Definition int_floor (x : float) : Z :=
  match x with
  | S754_finite s m e => Z.shiftl (cond_Zopp s (Zpos m)) e
  | _ => 0
  end.

(** [math.floor]: fails on infinities and NaN. *)
Definition floor (x : float) : result Z :=
  match x with
  | S754_nan => Raise ValueError
  | S754_infinity _ => Raise OverflowError
  | _ => Ok (int_floor x)
  end.

(** Nearest integer of [m * 2^e] for [m >= 0], ties to the even one. *)
Definition round_half_even (m e : Z) : Z :=
  if 0 <=? e then m * 2 ^ e
  else
    let q := m / 2 ^ (- e) in
    let r := m mod 2 ^ (- e) in
    match 2 * r ?= 2 ^ (- e) with
    | Lt => q
    | Gt => q + 1
    | Eq => if Z.even q then q else q + 1
    end.

(** The integer nearest to a finite [x], ties to even (0 otherwise). *)
Definition nearest (x : float) : Z :=
  match x with
  | S754_finite s m e => cond_Zopp s (round_half_even (Zpos m) e)
  | _ => 0
  end.

(** [round(x)] with one argument: fails on infinities and NaN. *)
Definition round (x : float) : result Z :=
  match x with
  | S754_nan => Raise ValueError
  | S754_infinity _ => Raise OverflowError
  | _ => Ok (nearest x)
  end.

(** [0 <= x], as Python compares floats. *)
Definition nonneg (x : float) : bool := leb (S754_zero false) x.

(** What [binary_round_aux] returns for the mantissa and exponent left
    by its second normalisation step. *)
Definition round_result (sx : bool) (m e : Z) : float :=
  match m with
  | 0 => S754_zero sx
  | Zpos p => if e <=? emax - prec then S754_finite sx p e else S754_infinity sx
  | Zneg _ => S754_nan
  end.

End Float.

(** ** The duration formatter *)

Definition _format_duration (duration : spec_float) : result pystr :=
  if Float.ltb duration (Float.of_int 1) then
    n ← Float.round (Float.mul duration (Float.of_int 1000));
    Ok (str_of_int n ++ py " ms")
  else
    hours ← Float.floor (Float.div duration (Float.of_int 3600));
    remaining_seconds ← Float.rem duration (Float.of_int 3600);
    minutes ← Float.floor (Float.div remaining_seconds (Float.of_int 60));
    remaining_seconds ← Float.rem remaining_seconds (Float.of_int 60);
    seconds ← Float.round remaining_seconds;
    Ok (format_02d hours ++ py ":" ++ format_02d minutes ++ py ":"
          ++ format_02d seconds).

(** The duration text of the specification: below one second the rounded
    number of milliseconds; from one second on the hours, minutes and
    seconds of the floor and remainder decomposition, each padded with
    zeros to two digits. *)
Definition zero_padded (z : Z) : pystr := rjust 2 48%N (str_of_int z).

Definition spec_format_duration (d : spec_float) : pystr :=
  if Float.ltb d (Float.of_int 1) then
    str_of_int (Float.nearest (Float.mul d (Float.of_int 1000))) ++ py " ms"
  else
    let hours := Float.int_floor (Float.div d (Float.of_int 3600)) in
    let rest := Float.fmod d (Float.of_int 3600) in
    let minutes := Float.int_floor (Float.div rest (Float.of_int 60)) in
    let seconds := Float.nearest (Float.fmod rest (Float.of_int 60)) in
    zero_padded hours ++ py ":" ++ zero_padded minutes ++ py ":"
      ++ zero_padded seconds.

(** ** More strings *)

Definition str_eqb (a b : pystr) : bool := bool_decide (a = b).

(** The double quote and the newline, which the literals below cannot
    contain. *)
Definition dq : pystr := [34%N].
Definition nl : pystr := [10%N].

(** Case mapping of the ASCII letters. Code points above 127 are left as
    they are: the Unicode tables are outside this embedding. *)
Definition ascii_upper (c : N) : N :=
  if ((97 <=? c) && (c <=? 122))%N then (c - 32)%N else c.

Definition ascii_lower (c : N) : N :=
  if ((65 <=? c) && (c <=? 90))%N then (c + 32)%N else c.

(** [s.capitalize()]: first character upper-cased, the others lower-cased. *)
Definition capitalize (s : pystr) : pystr :=
  match s with
  | [] => []
  | c :: rest => ascii_upper c :: (ascii_lower <$> rest)
  end.

(** [s.startswith(prefix)]. *)
Fixpoint startswith (prefix s : pystr) : bool :=
  match prefix, s with
  | [], _ => true
  | _ :: _, [] => false
  | p :: prefix', c :: s' => (p =? c)%N && startswith prefix' s'
  end.

(** [sub in s]. *)
Fixpoint contains (sub s : pystr) : bool :=
  startswith sub s
  || match s with
     | [] => false
     | _ :: s' => contains sub s'
     end.

(** [s.replace(old, new)] for a non-empty [old]: occurrences are taken
    from the left and do not overlap; [skip] counts the characters of the
    occurrence just replaced that are still to be dropped. *)
Fixpoint replace_from (old new : pystr) (skip : nat) (s : pystr) : pystr :=
  match s with
  | [] => []
  | c :: s' =>
      match skip with
      | S k => replace_from old new k s'
      | O =>
          if startswith old s
          then new ++ replace_from old new (length old - 1) s'
          else c :: replace_from old new 0 s'
      end
  end.

Definition replace (old new s : pystr) : pystr :=
  match old with
  | [] => new ++ flat_map (fun c => c :: new) s
  | _ :: _ => replace_from old new 0 s
  end.

(** The format specification [:-^80] and its kin: centre [s] in [width]
    columns; the odd column of padding goes to the right. *)
Definition format_center (fill : N) (width : nat) (s : pystr) : pystr :=
  let padding := (width - length s)%nat in
  let left := (padding / 2)%nat in
  replicate left fill ++ s ++ replicate (padding - left) fill.

(** [format] of an optional string: [None] prints as its name. *)
Definition format_opt (o : option (list N)) : pystr :=
  match o with
  | Some s => s
  | None => py "None"
  end.

(** [s[start:]]. *)
Definition slice_from (start : Z) (s : pystr) : pystr :=
  let n := Z.of_nat (length s) in
  let i := if start <? 0 then Z.max 0 (start + n) else Z.min start n in
  drop (Z.to_nat i) s.

(** ** Extras

    Modelled from the spec: the attachment records and the format types
    of [pytest_html/extras.py], which is not part of the sources at hand. *)

Inductive Content : Type :=
  | CStr (s : list N)
  | CBytes (b : list N)
  | CObj (text : list N)
  | CNone.

Module Extra.
Record t : Type := mk {
  content : Content;
  extension : option (list N);
  format_type : list N;
  mime_type : option (list N);
  name : option (list N);
}.

Definition set_content (c : Content) (e : t) : t :=
  mk c (extension e) (format_type e) (mime_type e) (name e).
End Extra.

Module extras.
Definition FORMAT_HTML : pystr := py "html".
Definition FORMAT_IMAGE : pystr := py "image".
Definition FORMAT_JSON : pystr := py "json".
Definition FORMAT_TEXT : pystr := py "text".
Definition FORMAT_URL : pystr := py "url".
Definition FORMAT_VIDEO : pystr := py "video".
End extras.

(** ** Test reports

    The attributes of the runner's report object that the report builder
    reads. An attribute read through [hasattr] or [getattr] is optional. *)

Module Report.
Record t : Type := mk {
  nodeid : list N;
  when : list N;
  outcome : list N;
  duration : spec_float;
  longreprtext : list N;
  sections : list (list N * list N);
  wasxfail : option (list N);
  rerun : option Z;
  extras : option (list Extra.t);
  duration_formatter : option unit;
}.

Definition set_extras (x : list Extra.t) (r : t) : t :=
  mk (nodeid r) (when r) (outcome r) (duration r) (longreprtext r)
     (sections r) (wasxfail r) (rerun r) (Some x) (duration_formatter r).
End Report.

(** ** The outcome classifier *)

Definition _is_error (report : Report.t) : bool :=
  (str_eqb (Report.when report) (py "setup")
   || str_eqb (Report.when report) (py "teardown"))
  && str_eqb (Report.outcome report) (py "failed").

Definition _process_outcome (report : Report.t) : pystr :=
  if _is_error report then py "Error"
  else
    let xfail_label :=
      if bool_decide (is_Some (Report.wasxfail report)) then
        if str_eqb (Report.outcome report) (py "passed")
           || str_eqb (Report.outcome report) (py "failed")
        then Some (py "XPassed")
        else if str_eqb (Report.outcome report) (py "skipped")
             then Some (py "XFailed")
             else None
      else None in
    match xfail_label with
    | Some label => label
    | None => capitalize (Report.outcome report)
    end.

(** The classifier as the specification words it: the fallback is the
    outcome with its first letter capitalized, the other letters as they
    are. *)
Definition first_letter_capitalized (s : pystr) : pystr :=
  match s with
  | [] => []
  | c :: rest => ascii_upper c :: rest
  end.

Definition outcome_rules (fallback : list N -> list N) (report : Report.t)
    : pystr :=
  if bool_decide ((Report.when report = py "setup"
                   \/ Report.when report = py "teardown")
                  /\ Report.outcome report = py "failed")
  then py "Error"
  else if bool_decide (is_Some (Report.wasxfail report)
                       /\ (Report.outcome report = py "passed"
                           \/ Report.outcome report = py "failed"))
  then py "XPassed"
  else if bool_decide (is_Some (Report.wasxfail report)
                       /\ Report.outcome report = py "skipped")
  then py "XFailed"
  else fallback (Report.outcome report).

(** As stated. *)
Definition spec_process_outcome : Report.t -> pystr :=
  outcome_rules first_letter_capitalized.

(** As the code has it: the fallback is [str.capitalize]. *)
Definition amended_process_outcome : Report.t -> pystr :=
  outcome_rules capitalize.

(** ** The log processor *)

Definition section_entries (section : list N * list N) : list (list N) :=
  let '(header, content) := section in
  [format_center 45%N 80 (py " " ++ header ++ py " ") ++ nl ++ content]
    ++ (if contains (py "log") header
        then [] :: (if contains (py "call") header then [[]] else [])
        else []).

Definition _process_logs (report : Report.t) : list (list N) :=
  let log := [] in
  let log :=
    if bool_decide (Report.longreprtext report <> [])
    then log ++ [replace (py ">") (py "&gt;")
                   (replace (py "<") (py "&lt;") (Report.longreprtext report))
                 ++ nl]
    else log in
  let log :=
    if negb (str_eqb (Report.outcome report) (py "rerun"))
    then foldl (fun log section => log ++ section_entries section)
           log (Report.sections report)
    else log in
  if bool_decide (log = []) then log ++ [py "No log output captured."] else log.

(** The log entries as the specification words them. [html_escaped]
    replaces each angle bracket by its entity, character by character. *)
Definition html_escaped (s : pystr) : pystr :=
  flat_map (fun c => if (c =? 60)%N then py "&lt;"
                     else if (c =? 62)%N then py "&gt;" else [c]) s.

Definition log_entries (traceback_entry : list N -> list N)
    (report : Report.t) : list (list N) :=
  let entries :=
    (if bool_decide (Report.longreprtext report <> [])
     then [traceback_entry (html_escaped (Report.longreprtext report))]
     else [])
    ++ (if str_eqb (Report.outcome report) (py "rerun") then []
        else flat_map section_entries (Report.sections report)) in
  match entries with
  | [] => [py "No log output captured."]
  | _ :: _ => entries
  end.

(** As stated: the escaped traceback is the first entry. *)
Definition spec_process_logs : Report.t -> list (list N) :=
  log_entries (fun t => t).

(** As the code has it: the escaped traceback and a newline. *)
Definition amended_process_logs : Report.t -> list (list N) :=
  log_entries (fun t => t ++ nl).

(** ** Regular expressions

    The compiled patterns of the [re] module, for the regular core of the
    pattern language. [re_match r s] is [re.match(r, s) is not None]: some
    prefix of [s] is matched by [r]. The matcher walks [s] along the
    derivatives of [r]. *)

Inductive regex : Type :=
  | Void
  | Eps
  | Chr (c : N)
  | Dot
  | Alt (r1 r2 : regex)
  | Seq (r1 r2 : regex)
  | Star (r : regex).

Fixpoint nullable (r : regex) : bool :=
  match r with
  | Void | Chr _ | Dot => false
  | Eps | Star _ => true
  | Alt r1 r2 => nullable r1 || nullable r2
  | Seq r1 r2 => nullable r1 && nullable r2
  end.

Fixpoint deriv (c : N) (r : regex) : regex :=
  match r with
  | Void | Eps => Void
  | Chr c' => if (c =? c')%N then Eps else Void
  | Dot => if (c =? 10)%N then Void else Eps
  | Alt r1 r2 => Alt (deriv c r1) (deriv c r2)
  | Seq r1 r2 =>
      if nullable r1
      then Alt (Seq (deriv c r1) r2) (deriv c r2)
      else Seq (deriv c r1) r2
  | Star r1 => Seq (deriv c r1) (Star r1)
  end.

Fixpoint re_match (r : regex) (s : list N) : bool :=
  nullable r
  || match s with
     | [] => false
     | c :: s' => re_match (deriv c r) s'
     end.

(** The strings a pattern denotes. *)
Inductive matches : regex -> list N -> Prop :=
  | matches_eps : matches Eps []
  | matches_chr c : matches (Chr c) [c]
  | matches_dot c : c <> 10%N -> matches Dot [c]
  | matches_alt_l r1 r2 s : matches r1 s -> matches (Alt r1 r2) s
  | matches_alt_r r1 r2 s : matches r2 s -> matches (Alt r1 r2) s
  | matches_seq r1 r2 s1 s2 :
      matches r1 s1 -> matches r2 s2 -> matches (Seq r1 r2) (s1 ++ s2)
  | matches_star_nil r : matches (Star r) []
  | matches_star_cons r s1 s2 :
      matches r s1 -> matches (Star r) s2 -> matches (Star r) (s1 ++ s2).

(** The pattern of a literal string. *)
Fixpoint literal (s : list N) : regex :=
  match s with
  | [] => Eps
  | c :: s' => Seq (Chr c) (literal s')
  end.

(** [r] matches anchored at the start of [s]. *)
Definition matches_at_start (r : regex) (s : list N) : Prop :=
  exists p q, s = p ++ q /\ matches r p.

(** ** Configuration and environment *)

(** A metadata value: a string, or another object given by its [str]. *)
Inductive value : Type :=
  | VStr (s : list N)
  | VObj (text : list N).

Definition py_str (v : value) : pystr :=
  match v with
  | VStr s => s
  | VObj text => text
  end.

Record Config : Type := mkConfig {
  max_asset_filename_length : Z;
  environment_table_redact_list : list regex;
  stash_metadata : gmap (list N) value;
}.

Fixpoint any_match (redactable_regexes : list regex) (v : list N) : bool :=
  match redactable_regexes with
  | [] => false
  | redactable_regex :: rest =>
      if re_match redactable_regex v then true else any_match rest v
  end.

Definition _is_redactable_environment_variable (config : Config)
    (environment_variable : list N) : bool :=
  any_match (environment_table_redact_list config) environment_variable.

Definition black_box_ascii_value : N := 9619.

Definition _generate_environment (config : Config) : gmap (list N) value :=
  foldl
    (fun metadata key =>
       match metadata !! key with
       | Some value =>
           if _is_redactable_environment_variable config key
           then <[key := VStr ((fun _ => black_box_ascii_value) <$> py_str value)]>
                  metadata
           else metadata
       | None => metadata
       end)
    (stash_metadata config)
    ((map_to_list (stash_metadata config)).*1).

(** The masked form of a value: one glyph per character of its [str]. *)
Definition masked (v : value) : value :=
  VStr (replicate (length (py_str v)) black_box_ascii_value).

(** ** Collaborators

    What the report builder calls and does not define: functions of the
    Python library, the content sinks that the subclasses of [BaseReport]
    override, the hooks of the plugin manager, the template, and the
    insertion policy of the report data. *)

Class PyLib : Type := {
  (** [json.dumps] *)
  json_dumps : Content -> result (list N);
  (** [bytes.decode("utf-8")] *)
  utf8_decode : list N -> result (list N);
  (** [s.encode("utf-8").decode("unicode_escape")] *)
  unicode_escape : list N -> result (list N);
  (** whether the pattern [\w] matches a code point above 127 *)
  is_unicode_word : N -> bool;
  (** [format] of a content object inside a format string *)
  format_content : Content -> list N;
  (** [strftime] of the generation time, for a format *)
  strftime : list N -> Z -> list N;
}.

Class Sinks : Type := {
  _data_content : Content -> list N -> option (list N) -> Content;
  _media_content : Content -> list N -> option (list N) -> Content;
  css : option (list N);
}.

(** The sinks of [BaseReport] itself do nothing and return [None]. *)
Definition base_sinks : Sinks := {|
  _data_content := fun _ _ _ => CNone;
  _media_content := fun _ _ _ => CNone;
  css := None;
|}.

(** A cell of a table row: a string, or a legacy object given by its
    [__module__] and its [str]. *)
Inductive cell : Type :=
  | CellStr (html : list N)
  | CellObj (module_name : list N) (text : list N).

Class Hooks : Type := {
  pytest_html_report_title : list N -> list N;
  pytest_html_results_table_header : list cell -> list cell;
  pytest_html_results_table_row : Report.t -> list cell -> list cell;
  pytest_html_results_table_html : Report.t -> list (list N) -> list (list N);
  pytest_html_results_summary :
    list (list N) -> list (list N) -> list (list N)
    -> list (list N) * list (list N) * list (list N);
}.

(** ** The asset file name *)

Definition is_word `{PyLib} (c : N) : bool :=
  if (c <? 128)%N
  then ((48 <=? c) && (c <=? 57) || (65 <=? c) && (c <=? 90)
        || (97 <=? c) && (c <=? 122) || (c =? 95))%N
  else is_unicode_word c.

(** [re.sub(r"[^\w.]", "_", test_id)] *)
Definition sanitize `{PyLib} (test_id : list N) : list N :=
  (fun c => if is_word c || (c =? 46)%N then c else 95%N) <$> test_id.

Definition _asset_filename `{PyLib} (config : Config) (test_id : list N)
    (extra_index test_index : Z) (file_extension : option (list N)) : list N :=
  slice_from (- max_asset_filename_length config)
    (sanitize test_id ++ py "_" ++ str_of_int extra_index ++ py "_"
       ++ str_of_int test_index ++ py "." ++ format_opt file_extension).

(** The name as the specification words it: only the trailing [n]
    characters of the full name are kept. *)
Definition trailing (n : Z) (s : list N) : list N :=
  drop (length s - Z.to_nat n)%nat s.

Definition spec_asset_filename `{PyLib} (config : Config) (test_id : list N)
    (extra_index test_index : Z) (file_extension : list N) : list N :=
  trailing (max_asset_filename_length config)
    (sanitize test_id ++ py "_" ++ str_of_int extra_index ++ py "_"
       ++ str_of_int test_index ++ py "." ++ file_extension).

(** What follows the sanitized test id in the full name: the two
    indices and the extension. *)
Definition asset_suffix (extra_index test_index : Z)
    (file_extension : option (list N)) : list N :=
  py "_" ++ str_of_int extra_index ++ py "_" ++ str_of_int test_index
    ++ py "." ++ format_opt file_extension.

(** ** The extras processor *)

(** [hasattr(report, "rerun") and report.rerun + 1 or 0] *)
Definition test_index (report : Report.t) : Z :=
  match Report.rerun report with
  | None => 0
  | Some rerun => if rerun + 1 =? 0 then 0 else rerun + 1
  end.

Section Extras.
Context `{PyLib} `{Sinks}.

(** The body of the loop of [_process_extras], for one extra. *)
Definition process_extra (config : Config) (test_id : list N)
    (test_index : Z) (extra_index : Z) (extra : Extra.t) : result Extra.t :=
  let content := Extra.content extra in
  decoded_id ← unicode_escape test_id;
  let asset_name :=
    _asset_filename config decoded_id extra_index test_index
      (Extra.extension extra) in
  '(content, extra) ←
    (if str_eqb (Extra.format_type extra) extras.FORMAT_JSON then
       dumped ← json_dumps content;
       let content := CStr dumped in
       Ok (content,
           Extra.set_content
             (_data_content content asset_name (Extra.mime_type extra)) extra)
     else Ok (content, extra));
  '(content, extra) ←
    (if str_eqb (Extra.format_type extra) extras.FORMAT_TEXT then
       content ← match content with
                 | CBytes b => text ← utf8_decode b; Ok (CStr text)
                 | _ => Ok content
                 end;
       Ok (content,
           Extra.set_content
             (_data_content content asset_name (Extra.mime_type extra)) extra)
     else Ok (content, extra));
  if str_eqb (Extra.format_type extra) extras.FORMAT_IMAGE
     || str_eqb (Extra.format_type extra) extras.FORMAT_VIDEO
  then Ok (Extra.set_content
             (_media_content content asset_name (Extra.mime_type extra)) extra)
  else Ok extra.

Fixpoint process_extras_from (config : Config) (test_id : list N)
    (test_index : Z) (extra_index : Z) (report_extras : list Extra.t)
    : result (list Extra.t) :=
  match report_extras with
  | [] => Ok []
  | extra :: rest =>
      extra' ← process_extra config test_id test_index extra_index extra;
      rest' ← process_extras_from config test_id test_index
                (extra_index + 1) rest;
      Ok (extra' :: rest')
  end.

Definition _process_extras (config : Config) (report : Report.t)
    (test_id : list N) : result (list Extra.t) :=
  let test_index := test_index report in
  let report_extras := default [] (Report.extras report) in
  process_extras_from config test_id test_index 0 report_extras.

End Extras.

(** ** The report data

    Modelled from the spec: [ReportData] of [pytest_html/report_data.py]
    is not part of the sources at hand. It holds the title, the redacted
    environment, the header cells, the summary fragments, the running
    total of the durations with its text, the running state, the number
    of collected items and the rows of the results table, and starts in
    the state [NotStarted] with a total of zero. [add_test] is its
    insertion policy: it receives a row, the report and the log, may
    change the sequence of rows only, and tells whether the addition is
    to be reported. *)

Inductive RunningState : Type :=
  | NotStarted
  | Started
  | Finished.

Module RowData.
Record t : Type := mk {
  result : list N;
  duration : list N;
  testId : list N;
  extras : list Extra.t;
  resultsTableRow : list (list N);
}.
End RowData.

Record TestRow : Type := mkTestRow {
  row_data : RowData.t;
  row_log : list (list N);
}.

Record ReportData : Type := mkData {
  title : list N;
  environment : gmap (list N) value;
  resultsTableHeader : list (list N);
  additionalSummary_prefix : list (list N);
  additionalSummary_summary : list (list N);
  additionalSummary_postfix : list (list N);
  totalDuration_total : spec_float;
  totalDuration_formatted : list N;
  runningState : RunningState;
  collectedItems : Z;
  tests : list TestRow;
}.

Definition initial_data (table_header : list (list N)) : ReportData :=
  mkData [] ∅ table_header [] [] [] (S754_zero false) [] NotStarted 0 [].

Definition set_title (x : list N) (d : ReportData) : ReportData :=
  mkData x (environment d) (resultsTableHeader d)
    (additionalSummary_prefix d) (additionalSummary_summary d)
    (additionalSummary_postfix d) (totalDuration_total d)
    (totalDuration_formatted d) (runningState d) (collectedItems d) (tests d).

Definition set_environment (x : gmap (list N) value) (d : ReportData)
    : ReportData :=
  mkData (title d) x (resultsTableHeader d)
    (additionalSummary_prefix d) (additionalSummary_summary d)
    (additionalSummary_postfix d) (totalDuration_total d)
    (totalDuration_formatted d) (runningState d) (collectedItems d) (tests d).

Definition set_resultsTableHeader (x : list (list N)) (d : ReportData)
    : ReportData :=
  mkData (title d) (environment d) x
    (additionalSummary_prefix d) (additionalSummary_summary d)
    (additionalSummary_postfix d) (totalDuration_total d)
    (totalDuration_formatted d) (runningState d) (collectedItems d) (tests d).

Definition set_additionalSummary
    (x : list (list N) * list (list N) * list (list N)) (d : ReportData)
    : ReportData :=
  mkData (title d) (environment d) (resultsTableHeader d)
    x.1.1 x.1.2 x.2 (totalDuration_total d)
    (totalDuration_formatted d) (runningState d) (collectedItems d) (tests d).

Definition set_totalDuration_total (x : spec_float) (d : ReportData)
    : ReportData :=
  mkData (title d) (environment d) (resultsTableHeader d)
    (additionalSummary_prefix d) (additionalSummary_summary d)
    (additionalSummary_postfix d) x
    (totalDuration_formatted d) (runningState d) (collectedItems d) (tests d).

Definition set_totalDuration_formatted (x : list N) (d : ReportData)
    : ReportData :=
  mkData (title d) (environment d) (resultsTableHeader d)
    (additionalSummary_prefix d) (additionalSummary_summary d)
    (additionalSummary_postfix d) (totalDuration_total d)
    x (runningState d) (collectedItems d) (tests d).

Definition set_runningState (x : RunningState) (d : ReportData) : ReportData :=
  mkData (title d) (environment d) (resultsTableHeader d)
    (additionalSummary_prefix d) (additionalSummary_summary d)
    (additionalSummary_postfix d) (totalDuration_total d)
    (totalDuration_formatted d) x (collectedItems d) (tests d).

Definition set_collectedItems (x : Z) (d : ReportData) : ReportData :=
  mkData (title d) (environment d) (resultsTableHeader d)
    (additionalSummary_prefix d) (additionalSummary_summary d)
    (additionalSummary_postfix d) (totalDuration_total d)
    (totalDuration_formatted d) (runningState d) x (tests d).

Definition set_tests (x : list TestRow) (d : ReportData) : ReportData :=
  mkData (title d) (environment d) (resultsTableHeader d)
    (additionalSummary_prefix d) (additionalSummary_summary d)
    (additionalSummary_postfix d) (totalDuration_total d)
    (totalDuration_formatted d) (runningState d) (collectedItems d) x.

Class DataModel : Type := {
  add_test :
    RowData.t -> Report.t -> list (list N) -> list TestRow -> bool * list TestRow;
}.

Class Template : Type := {
  __version__ : list N;
  (** [json.dumps(cleanup_unserializable(data))] *)
  dump_test_data : ReportData -> list N;
  (** [template.render] with its keyword arguments, in the order of
      [_render_html] *)
  template_render :
    list N -> list N -> list N -> option (list N) -> bool -> list N
    -> list (list N) -> list (list N) -> list (list N) -> list (list N)
    -> list N;
}.

(** ** The report builder and its effects *)

Inductive Effect : Type :=
  | Warned (message : list N)
  | Rendered (html : list N)
  | Written (html : list N)
  | TestAdded (reportable : bool)
  | SeparatorWritten (text : list N).

(** The state a handler of [BaseReport] works on: the configuration with
    its stash, the report data, the report file, the wall clock, and the
    effects so far. *)
Record World : Type := mkWorld {
  config : Config;
  report_path : list N;
  data : ReportData;
  report_file : option (list N);
  clock : Z;
  trace : list Effect;
}.

Definition with_config (x : Config) (w : World) : World :=
  mkWorld x (report_path w) (data w) (report_file w) (clock w) (trace w).

Definition with_data (x : ReportData) (w : World) : World :=
  mkWorld (config w) (report_path w) x (report_file w) (clock w) (trace w).

Definition with_report_file (x : option (list N)) (w : World) : World :=
  mkWorld (config w) (report_path w) (data w) x (clock w) (trace w).

Definition with_clock (x : Z) (w : World) : World :=
  mkWorld (config w) (report_path w) (data w) (report_file w) x (trace w).

Definition with_trace (x : list Effect) (w : World) : World :=
  mkWorld (config w) (report_path w) (data w) (report_file w) (clock w) x.

(** [BaseReport.__init__]: the report takes the name of its file as
    title; nothing is written yet. *)
Definition __init__ (report_path report_name : list N) (config : Config)
    (report_data : ReportData) (now : Z) : World :=
  mkWorld config report_path (set_title report_name report_data) None now [].

(** A handler: it may raise, and what it did before raising stays done. *)
Definition M (A : Type) : Type := World -> result A * World.

#[global] Instance M_ret : MRet M := fun _ a w => (Ok a, w).

#[global] Instance M_bind : MBind M := fun _ _ k m w =>
  match m w with
  | (Ok a, w') => k a w'
  | (Raise e, w') => (Raise e, w')
  end.

Definition lift {A : Type} (r : result A) : M A := fun w => (r, w).

Definition get_config : M Config := fun w => (Ok (config w), w).

Definition get_data : M ReportData := fun w => (Ok (data w), w).

Definition update_data (f : ReportData -> ReportData) : M unit :=
  fun w => (Ok tt, with_data (f (data w)) w).

Definition emit (e : Effect) : M unit :=
  fun w => (Ok tt, with_trace (trace w ++ [e]) w).

(** [warnings.warn] *)
Definition warn (message : list N) : M unit := emit (Warned message).

(** [datetime.datetime.now()] *)
Definition datetime_now : M Z := fun w => (Ok (clock w), w).

Definition _fix_py_cell (html : cell) : M (list N) :=
  match html with
  | CellStr html => mret html
  | CellObj module_name text =>
      _ ← (if startswith (py "py.") module_name
           then warn (py "The 'py' module is deprecated and support will be removed in a future release.")
           else mret tt);
      mret (replace (py "col=") (py "data-column-type=") text)
  end.

Fixpoint _fix_py (cells : list cell) : M (list (list N)) :=
  match cells with
  | [] => mret []
  | html :: rest =>
      html' ← _fix_py_cell html;
      rest' ← _fix_py rest;
      mret (html' :: rest')
  end.

Section Links.
Context `{PyLib}.

Definition a_tag (link : Extra.t) : list N :=
  py "<a target=" ++ dq ++ py "_blank" ++ dq ++ py " href=" ++ dq
    ++ format_content (Extra.content link) ++ dq ++ py " class=" ++ dq
    ++ py "col-links__extra " ++ Extra.format_type link ++ dq ++ py ">"
    ++ format_opt (Extra.name link) ++ py "</a>".

Definition _process_links (links : list Extra.t) : list N :=
  concat (a_tag <$> links).

End Links.

Section BaseReport.
Context `{PyLib} `{Sinks} `{Hooks} `{DataModel} `{Template}.

Definition _render_html (date time version : list N)
    (styles : option (list N)) (self_contained : bool) (test_data : list N)
    (table_head summary prefix postfix : list (list N)) : list N :=
  template_render date time version styles self_contained test_data
    table_head summary prefix postfix.

Definition _write_report (rendered_report : list N) : M unit :=
  fun w =>
    (Ok tt,
     with_trace (trace w ++ [Written rendered_report])
       (with_report_file (Some rendered_report) w)).

Definition _generate_report (self_contained : bool) : M unit :=
  generated ← datetime_now;
  d ← get_data;
  let rendered_report :=
    _render_html
      (strftime (py "%d-%b-%Y") generated)
      (strftime (py "%H:%M:%S") generated)
      __version__ css self_contained (dump_test_data d)
      (resultsTableHeader d)
      (additionalSummary_summary d) (additionalSummary_prefix d)
      (additionalSummary_postfix d) in
  _ ← emit (Rendered rendered_report);
  _write_report rendered_report.

Definition pytest_sessionstart : M unit :=
  c ← get_config;
  let metadata := _generate_environment c in
  _ ← (fun w =>
         (Ok tt,
          with_config
            (mkConfig (max_asset_filename_length c)
               (environment_table_redact_list c) metadata) w));
  _ ← update_data (set_environment metadata);
  _ ← update_data (fun d => set_title (pytest_html_report_title (title d)) d);
  d ← get_data;
  let headers :=
    pytest_html_results_table_header (CellStr <$> resultsTableHeader d) in
  fixed ← _fix_py headers;
  _ ← update_data (set_resultsTableHeader fixed);
  _ ← update_data (set_runningState Started);
  _generate_report false.

Definition pytest_sessionfinish : M unit :=
  d ← get_data;
  _ ← update_data
        (set_additionalSummary
           (pytest_html_results_summary (additionalSummary_prefix d)
              (additionalSummary_summary d) (additionalSummary_postfix d)));
  _ ← update_data (set_runningState Finished);
  _generate_report false.

Definition pytest_terminal_summary : M unit :=
  fun w =>
    emit (SeparatorWritten (py "Generated html report: file://"
                              ++ report_path w)) w.

Definition pytest_collection_finish (items : Z) : M unit :=
  update_data (set_collectedItems items).

(** [pytest_runtest_logreport] up to the cells it hands to the row
    hook: the report (whose extras are processed in place), the row
    data so far, and the cells. *)
Definition logreport_cells (report : Report.t)
    : M (Report.t * RowData.t * list cell) :=
  _ ← (match Report.duration_formatter report with
       | Some _ =>
           warn (py "'duration_formatter' has been removed and no longer has any effect!")
       | None => mret tt
       end);
  let result := _process_outcome report in
  duration ← lift (_format_duration (Report.duration report));
  _ ← update_data
        (fun d =>
           set_totalDuration_total
             (Float.add (totalDuration_total d) (Report.duration report)) d);
  d ← get_data;
  formatted ← lift (_format_duration (totalDuration_total d));
  _ ← update_data (set_totalDuration_formatted formatted);
  let test_id :=
    if negb (str_eqb (Report.when report) (py "call"))
    then Report.nodeid report ++ py "::" ++ Report.when report
    else Report.nodeid report in
  c ← get_config;
  processed ← lift (_process_extras c report test_id);
  let report :=
    match Report.extras report with
    | Some _ => Report.set_extras processed report
    | None => report
    end in
  let links :=
    filter (fun extra : Extra.t =>
              Extra.format_type extra ∈ [py "json"; py "text"; py "url"])
      processed in
  let cells :=
    [ CellStr (py "<td class=" ++ dq ++ py "col-result" ++ dq ++ py ">"
                 ++ result ++ py "</td>");
      CellStr (py "<td class=" ++ dq ++ py "col-name" ++ dq ++ py ">"
                 ++ test_id ++ py "</td>");
      CellStr (py "<td class=" ++ dq ++ py "col-duration" ++ dq ++ py ">"
                 ++ duration ++ py "</td>");
      CellStr (py "<td class=" ++ dq ++ py "col-links" ++ dq ++ py ">"
                 ++ _process_links links ++ py "</td>") ] in
  mret (report, RowData.mk result duration test_id processed [], cells).

Definition pytest_runtest_logreport (report : Report.t) : M unit :=
  '(report, row, cells) ← logreport_cells report;
  match pytest_html_results_table_row report cells with
  | [] => mret tt
  | cells =>
      cells ← _fix_py cells;
      let row :=
        RowData.mk (RowData.result row) (RowData.duration row)
          (RowData.testId row) (RowData.extras row) cells in
      let processed_logs :=
        pytest_html_results_table_html report (_process_logs report) in
      d ← get_data;
      let added := add_test row report processed_logs (tests d) in
      _ ← update_data (set_tests added.2);
      _ ← emit (TestAdded added.1);
      if added.1 then _generate_report false else mret tt
  end.

(** ** Lifecycle events *)

Inductive Event : Type :=
  | SessionStart
  | CollectionFinish (items : Z)
  | RuntestLogreport (report : Report.t)
  | SessionFinish
  | TerminalSummary.

Definition handle (ev : Event) : M unit :=
  match ev with
  | SessionStart => pytest_sessionstart
  | CollectionFinish items => pytest_collection_finish items
  | RuntestLogreport report => pytest_runtest_logreport report
  | SessionFinish => pytest_sessionfinish
  | TerminalSummary => pytest_terminal_summary
  end.

(** The runner delivers an event at a time of the wall clock; whether
    the handler returns or raises, its changes to the world stay. *)
Definition deliver (now : Z) (ev : Event) (w : World) : World :=
  (handle ev (with_clock now w)).2.

(** The worlds after each event of a run. *)
Fixpoint run (events : list (Z * Event)) (w : World) : list World :=
  match events with
  | [] => []
  | (now, ev) :: rest =>
      let w' := deliver now ev w in
      w' :: run rest w'
  end.

(** The order in which the runner delivers the events of one session. *)
Definition during_tests (ev : Event) : Prop :=
  match ev with
  | CollectionFinish _ | RuntestLogreport _ => True
  | _ => False
  end.

Definition lifecycle (events middle tail : list (Z * Event)) : Prop :=
  exists start finish : Z,
    events = (start, SessionStart) :: middle ++ (finish, SessionFinish) :: tail
    /\ Forall (fun ev => during_tests ev.2) middle
    /\ Forall (fun ev => ev.2 = TerminalSummary) tail.

(** The world after all the events of a run. *)
Definition run_final (events : list (Z * Event)) (w : World) : World :=
  foldl (fun w ev => deliver ev.1 ev.2 w) w events.


End BaseReport.

(** The text that [_generate_report] renders and writes in a world: the
    arguments it hands to [_render_html], read off the clock and the
    report data. *)
Section Rendering.
Context `{PyLib} `{Sinks} `{Template}.

Definition rendered_report (w : World) : list N :=
  _render_html
    (strftime (py "%d-%b-%Y") (clock w))
    (strftime (py "%H:%M:%S") (clock w))
    __version__ css false (dump_test_data (data w))
    (resultsTableHeader (data w))
    (additionalSummary_summary (data w)) (additionalSummary_prefix (data w))
    (additionalSummary_postfix (data w)).

End Rendering.


(** A handler that appends warnings to the trace and changes nothing
    else. *)
Definition warns_only (w w' : World) : Prop :=
  exists messages, w' = with_trace (trace w ++ (Warned <$> messages)) w.

(** What [pytest_runtest_logreport] may have done when it reaches the
    row hook, or raises before it: the total duration and its text may
    have changed and warnings may have been issued; the rest of the
    world is as before. *)
Definition totals_and_warnings (w w1 : World) : Prop :=
  config w1 = config w /\ report_path w1 = report_path w
  /\ report_file w1 = report_file w /\ clock w1 = clock w
  /\ tests (data w1) = tests (data w)
  /\ runningState (data w1) = runningState (data w)
  /\ collectedItems (data w1) = collectedItems (data w)
  /\ exists messages, trace w1 = trace w ++ (Warned <$> messages).

(** ** A report builder without plugins

    A report builder with no hook subscribed, sinks that store an asset
    under its name in a directory beside the report, a data model that
    appends every row and reports it, and a template that prints its
    arguments. The library functions agree with Python's on ASCII input
    without backslashes and refuse any other input. *)

Module Plain.

Definition is_ascii (s : list N) : bool := forallb (fun c => (c <? 128)%N) s.

#[export] Instance pylib : PyLib := {|
  json_dumps := fun c =>
    match c with
    | CStr s => Ok (dq ++ s ++ dq)
    | CObj text => Ok text
    | CNone => Ok (py "null")
    | CBytes _ => Raise TypeError
    end;
  utf8_decode := fun b =>
    if is_ascii b then Ok b else Raise UnicodeDecodeError;
  unicode_escape := fun s =>
    if is_ascii s && negb (bool_decide (92%N ∈ s))
    then Ok s else Raise UnicodeDecodeError;
  is_unicode_word := fun _ => true;
  format_content := fun c =>
    match c with
    | CStr s => s
    | CBytes b => py "b'" ++ b ++ py "'"
    | CObj text => text
    | CNone => py "None"
    end;
  strftime := fun _ t => str_of_int t;
|}.

#[export] Instance sinks : Sinks := {|
  _data_content := fun _ asset_name _ => CStr (py "assets/" ++ asset_name);
  _media_content := fun _ asset_name _ => CStr (py "assets/" ++ asset_name);
  css := Some (py "assets/style.css");
|}.

#[export] Instance hooks : Hooks := {|
  pytest_html_report_title := fun t => t;
  pytest_html_results_table_header := fun cells => cells;
  pytest_html_results_table_row := fun _ cells => cells;
  pytest_html_results_table_html := fun _ logs => logs;
  pytest_html_results_summary := fun p s q => (p, s, q);
|}.

(** A row hook that clears the cells, as a plugin that hides rows does. *)
Definition clearing_hooks : Hooks := {|
  pytest_html_report_title := fun t => t;
  pytest_html_results_table_header := fun cells => cells;
  pytest_html_results_table_row := fun _ _ => [];
  pytest_html_results_table_html := fun _ logs => logs;
  pytest_html_results_summary := fun p s q => (p, s, q);
|}.

#[export] Instance data_model : DataModel := {|
  add_test := fun row _ logs rows => (true, rows ++ [mkTestRow row logs]);
|}.

#[export] Instance template : Template := {|
  __version__ := py "4.0.0";
  dump_test_data := fun d => title d;
  template_render := fun date time version _ _ test_data _ _ _ _ =>
    date ++ py " " ++ time ++ py " " ++ version ++ py " " ++ test_data;
|}.

Definition plain_config : Config := mkConfig 255 [] ∅.

Definition initial_world : World :=
  __init__ (py "/tmp/report.html") (py "report.html") plain_config
    (initial_data []) 0.

Definition call_report (id : list N) (outcome : list N)
    (duration : spec_float) : Report.t :=
  Report.mk id (py "call") outcome duration [] [] None None None None.

Definition phase_report (when outcome : string)
    (wasxfail : option (list N)) : Report.t :=
  Report.mk (py "test_a.py::test_b") (py when) (py outcome)
    (S754_zero false) [] [] wasxfail None None None.

(** An outcome of a plugin's own, with a capital in the middle. *)
Definition not_run_report : Report.t :=
  Report.mk (py "test_a.py::test_b") (py "call") (py "notRun")
    (S754_zero false) [] [] None None None None.

(** A failed test with a traceback and no captured output. *)
Definition traceback_report : Report.t :=
  Report.mk (py "test_a.py::test_b") (py "call") (py "failed")
    (S754_zero false) (py "assert 1 < 0") [] None None None None.

(** The second rerun of a test. *)
Definition rerun_report : Report.t :=
  Report.mk (py "test_a.py::test_b") (py "call") (py "passed")
    (S754_zero false) [] [] None (Some 2) None None.

(** A test that passed in half a second. *)
Definition half_second_report : Report.t :=
  call_report (py "test_a.py::test_b") (py "passed") (Float.of_ratio 5 10).

(** A configuration with a maximum length of zero for asset names. *)
Definition zero_length_config : Config := mkConfig 0 [] ∅.

(** The redaction example of the specification. *)
Definition secret_config : Config :=
  mkConfig 255 [Seq (literal (py "SECRET")) (Star Dot)]
    {[ py "SECRET_KEY" := VStr (py "abc123");
       py "PATH" := VObj (py "/usr/bin") ]}.

(** A session of two tests, one passing in half a second and one
    failing after 65 seconds with a text attached as [log.txt]. *)
Definition two_tests : list (Z * Event) :=
  [ (0, SessionStart);
    (1, CollectionFinish 2);
    (2, RuntestLogreport
          (call_report (py "test_a.py::test_pass") (py "passed")
             (Float.of_ratio 5 10)));
    (3, RuntestLogreport
          (Report.mk (py "test_a.py::test_fail") (py "call") (py "failed")
             (Float.of_int 65) (py "assert False") [] None None
             (Some [Extra.mk (CStr (py "hello")) (Some (py "txt"))
                      extras.FORMAT_TEXT (Some (py "text/plain"))
                      (Some (py "log.txt"))])
             None));
    (4, SessionFinish);
    (5, TerminalSummary) ].

(** A passed test with captured output and a captured log. *)
Definition captured_report : Report.t :=
  Report.mk (py "test_a.py::test_b") (py "call") (py "passed")
    (S754_zero false) []
    [(py "Captured stdout call", py "out"); (py "Captured log call", py "x")]
    None None None None.

(** A test with a text and a link attached. *)
Definition attached_report : Report.t :=
  Report.mk (py "test_a.py::test_b") (py "call") (py "passed")
    (Float.of_ratio 5 10) [] [] None None
    (Some [Extra.mk (CStr (py "hello")) (Some (py "txt"))
             extras.FORMAT_TEXT (Some (py "text/plain"))
             (Some (py "log.txt"));
           Extra.mk (CStr (py "https://example.org")) None
             extras.FORMAT_URL None (Some (py "home"))])
    None.

(** A test with a link and an HTML fragment attached. *)
Definition linked_report : Report.t :=
  Report.mk (py "test_a.py::test_b") (py "call") (py "passed")
    (Float.of_ratio 5 10) [] [] None None
    (Some [Extra.mk (CStr (py "https://example.org")) None
             extras.FORMAT_URL None (Some (py "home"));
           Extra.mk (CStr (py "<p>x</p>")) None
             extras.FORMAT_HTML None (Some (py "page"))])
    None.

(** A parametrized test whose id holds a truncated escape sequence,
    with a link attached. *)
Definition backslash_report : Report.t :=
  Report.mk (py "test_a.py::test_b[\x]") (py "call") (py "passed")
    (Float.of_ratio 5 10) [] [] None None
    (Some [Extra.mk (CStr (py "https://example.org")) None
             extras.FORMAT_URL None (Some (py "home"))])
    None.

(** A configuration that cuts asset names down to twelve characters. *)
Definition short_names_config : Config := mkConfig 12 [] ∅.

(** A configuration that redacts nothing. *)
Definition open_config : Config :=
  mkConfig 255 [] {[ py "PATH" := VObj (py "/usr/bin") ]}.

(** A configuration whose redaction patterns are plain prefixes. *)
Definition prefix_config : Config :=
  mkConfig 255 (literal <$> [py "SECRET"; py "TOKEN"])
    {[ py "SECRET_KEY" := VStr (py "abc123");
       py "MY_SECRET" := VStr (py "xyz") ]}.

End Plain.

(** * Properties *)

(** ** Binary64 arithmetic

    Facts about the rounding of [SpecFloat] at precision 53: what a
    normalisation step does to mantissa and exponent, when rounding
    overflows, and that the sum of non-negative floats is not below its
    operands. *)

Section FloatFacts.
Import Float.

#[local] Abbreviation fexp := (SpecFloat.fexp prec emax).

Lemma fexp_eq e : fexp e = Z.max (e - 53) (-1074).
Proof. reflexivity. Qed.

Lemma digits2_size p : digits2_pos p = Pos.size p.
Proof. induction p; simpl; congruence. Qed.

Lemma Zdigits2_log2 m : 0 < m -> Zdigits2 m = Z.log2 m + 1.
Proof.
  destruct m as [|p|p]; try lia. intros _. simpl. rewrite digits2_size.
  destruct p; simpl; lia.
Qed.

Lemma Zdigits2_nonneg m : 0 <= Zdigits2 m.
Proof. destruct m; simpl; lia. Qed.

Lemma Zdigits2_pos m : 0 < m -> 0 < Zdigits2 m.
Proof. destruct m; simpl; lia. Qed.

Lemma Zdigits2_bounds m :
  0 < m -> 2 ^ (Zdigits2 m - 1) <= m < 2 ^ Zdigits2 m.
Proof.
  intros Hm. rewrite Zdigits2_log2 by done.
  replace (Z.log2 m + 1 - 1) with (Z.log2 m) by lia.
  replace (Z.log2 m + 1) with (Z.succ (Z.log2 m)) by lia.
  by apply Z.log2_spec.
Qed.

Lemma Zdigits2_mono m m' : 0 <= m <= m' -> Zdigits2 m <= Zdigits2 m'.
Proof.
  intros [H0 Hle]. destruct (Z.eq_dec m 0) as [->|].
  - apply Zdigits2_nonneg.
  - rewrite !Zdigits2_log2 by lia.
    pose proof (Z.log2_le_mono m m' Hle). lia.
Qed.

Lemma Zdigits2_lt_pow m k : 0 <= m < 2 ^ k -> 0 <= k -> Zdigits2 m <= k.
Proof.
  intros [H0 Hlt] Hk. destruct (Z.eq_dec m 0) as [->|]; [simpl; lia|].
  rewrite Zdigits2_log2 by lia.
  assert (Z.log2 m < k) by (apply Z.log2_lt_pow2; lia). lia.
Qed.

Lemma Zdigits2_div_pow2 m n :
  0 < m -> 0 <= n -> 0 < m / 2 ^ n -> Zdigits2 (m / 2 ^ n) = Zdigits2 m - n.
Proof.
  intros Hm Hn Hq. rewrite !Zdigits2_log2 by done.
  rewrite <- Z.shiftr_div_pow2 by done.
  rewrite Z.log2_shiftr by done.
  assert (n <= Z.log2 m); [|lia].
  destruct (Z.le_gt_cases n (Z.log2 m)) as [|Hgt]; [done|].
  exfalso. assert (m < 2 ^ n).
  { apply Z.log2_lt_pow2; lia. }
  rewrite Z.div_small in Hq; lia.
Qed.

Lemma Zdigits2_mul_pow2 m n :
  0 < m -> 0 <= n -> Zdigits2 (m * 2 ^ n) = Zdigits2 m + n.
Proof.
  intros Hm Hn. assert (0 < 2 ^ n) by (apply Z.pow_pos_nonneg; lia).
  rewrite !Zdigits2_log2 by nia.
  rewrite Z.log2_mul_pow2 by lia. lia.
Qed.

Lemma Zdigits2_succ m : 0 <= m -> Zdigits2 (m + 1) <= Zdigits2 m + 1.
Proof.
  intros Hm. destruct (Z.eq_dec m 0) as [->|]; [simpl; lia|].
  apply Zdigits2_lt_pow; [|pose proof (Zdigits2_nonneg m); lia].
  pose proof (Zdigits2_bounds m ltac:(lia)) as [_ Hlt].
  pose proof (Zdigits2_nonneg m).
  replace (Zdigits2 m + 1) with (Z.succ (Zdigits2 m)) by lia.
  rewrite Z.pow_succ_r by lia. lia.
Qed.

Lemma shr_1_m mrs : 0 <= shr_m mrs -> shr_m (shr_1 mrs) = shr_m mrs / 2.
Proof.
  destruct mrs as [m r s]. simpl. intros Hm.
  rewrite <- Z.div2_div.
  destruct m as [|[p|p|]|p]; try reflexivity; lia.
Qed.

Lemma iter_shr_1_m p mrs :
  0 <= shr_m mrs -> shr_m (SpecFloat.iter_pos shr_1 p mrs) = shr_m mrs / 2 ^ Zpos p.
Proof.
  revert mrs. induction p as [p IH|p IH|]; intros mrs Hm.
  - change (SpecFloat.iter_pos shr_1 p~1 mrs)
      with (SpecFloat.iter_pos shr_1 p (SpecFloat.iter_pos shr_1 p (shr_1 mrs))).
    assert (0 <= shr_m (shr_1 mrs)) as H1.
    { rewrite shr_1_m by done. apply Z.div_pos; lia. }
    assert (0 <= shr_m (SpecFloat.iter_pos shr_1 p (shr_1 mrs))) as H2.
    { rewrite IH by done. apply Z.div_pos; lia. }
    rewrite IH, IH, shr_1_m by done.
    rewrite !Z.div_div by lia.
    f_equal.
    replace (Z.pos p~1) with (1 + Z.pos p + Z.pos p) by lia.
    rewrite !Z.pow_add_r by lia. lia.
  - change (SpecFloat.iter_pos shr_1 p~0 mrs)
      with (SpecFloat.iter_pos shr_1 p (SpecFloat.iter_pos shr_1 p mrs)).
    assert (0 <= shr_m (SpecFloat.iter_pos shr_1 p mrs)) as H2.
    { rewrite IH by done. apply Z.div_pos; lia. }
    rewrite IH, IH by done.
    rewrite !Z.div_div by lia.
    f_equal.
    replace (Z.pos p~0) with (Z.pos p + Z.pos p) by lia.
    rewrite Z.pow_add_r by lia. reflexivity.
  - change (SpecFloat.iter_pos shr_1 1 mrs) with (shr_1 mrs).
    rewrite shr_1_m by done. reflexivity.
Qed.

Lemma shr_spec mrs e n :
  0 <= shr_m mrs ->
  snd (shr mrs e n) = e + Z.max 0 n
  /\ shr_m (fst (shr mrs e n)) = shr_m mrs / 2 ^ Z.max 0 n.
Proof.
  intros Hm. destruct n as [|p|p]; simpl.
  - split; [lia|]. by rewrite Z.div_1_r.
  - split; [lia|]. by apply iter_shr_1_m.
  - split; [lia|]. by rewrite Z.div_1_r.
Qed.

Lemma shr_record_of_loc_m m l : shr_m (shr_record_of_loc m l) = m.
Proof. by destruct l as [|[]]. Qed.

Lemma loc_of_shr_record_of_loc m l :
  loc_of_shr_record (shr_record_of_loc m l) = l.
Proof. by destruct l as [|[]]. Qed.

(** One normalisation step: the exponent rises to the canonical one and
    the mantissa loses the bits below it. *)
Lemma shr_fexp_spec m e l :
  0 <= m ->
  let e' := Z.max e (fexp (Zdigits2 m + e)) in
  snd (shr_fexp prec emax m e l) = e'
  /\ shr_m (fst (shr_fexp prec emax m e l)) = m / 2 ^ (e' - e).
Proof.
  intros Hm e'. unfold shr_fexp.
  destruct (shr_spec (shr_record_of_loc m l) e (fexp (Zdigits2 m + e) - e))
    as [He Hq]; [by rewrite shr_record_of_loc_m|].
  rewrite He, Hq, shr_record_of_loc_m.
  replace (e + Z.max 0 (fexp (Zdigits2 m + e) - e)) with e' by lia.
  replace (Z.max 0 (fexp (Zdigits2 m + e) - e)) with (e' - e) by lia.
  done.
Qed.

Lemma shr_fexp_exact m e l :
  fexp (Zdigits2 m + e) <= e ->
  shr_fexp prec emax m e l = (shr_record_of_loc m l, e).
Proof.
  intros Hle. unfold shr_fexp, shr.
  destruct (fexp (Zdigits2 m + e) - e) eqn:E; try done. lia.
Qed.

Lemma round_nearest_even_bounds m l :
  m <= round_nearest_even m l <= m + 1.
Proof. destruct l as [|[]]; simpl; try lia. destruct (Z.even m); lia. Qed.

Lemma binary_round_aux_spec sx m e l :
  0 <= m ->
  let e1 := Z.max e (fexp (Zdigits2 m + e)) in
  exists m1,
    m / 2 ^ (e1 - e) <= m1 <= m / 2 ^ (e1 - e) + 1
    /\ (e1 = e -> l = loc_Exact -> m1 = m)
    /\ let e2 := Z.max e1 (fexp (Zdigits2 m1 + e1)) in
       binary_round_aux prec emax sx m e l
       = round_result sx (m1 / 2 ^ (e2 - e1)) e2.
Proof.
  intros Hm e1. unfold binary_round_aux.
  destruct (shr_fexp_spec m e l Hm) as [He Hq]. fold e1 in He, Hq.
  destruct (shr_fexp prec emax m e l) as [mrs' e'] eqn:E1.
  simpl in He, Hq. subst e'.
  set (m1 := round_nearest_even (shr_m mrs') (loc_of_shr_record mrs')).
  exists m1.
  assert (0 <= m / 2 ^ (e1 - e)) as Hq0.
  { apply Z.div_pos; [done|]. apply Z.pow_pos_nonneg; lia. }
  pose proof (round_nearest_even_bounds (shr_m mrs') (loc_of_shr_record mrs'))
    as Hb. fold m1 in Hb. rewrite Hq in Hb.
  split; [done|]. split.
  - intros He1 ->. rewrite shr_fexp_exact in E1 by lia.
    injection E1 as <- _. done.
  - destruct (shr_fexp_spec m1 e1 loc_Exact ltac:(lia)) as [He2 Hq2].
    destruct (shr_fexp prec emax m1 e1 loc_Exact) as [mrs'' e''] eqn:E2.
    simpl in He2, Hq2. subst e''. rewrite Hq2. reflexivity.
Qed.

Lemma fexp_mono a b : a <= b -> fexp a <= fexp b.
Proof. rewrite !fexp_eq. lia. Qed.

Lemma round_result_finite sx m e :
  0 <= m -> e <= emax - prec -> is_finite (round_result sx m e) = true.
Proof.
  intros Hm He. destruct m as [|p|p]; simpl; [done| |lia].
  destruct (Z.leb_spec e (emax - prec)); [done|lia].
Qed.

Lemma round_result_sign sx m e :
  0 <= m -> sign (round_result sx m e) = sx.
Proof.
  intros Hm. destruct m as [|p|p]; simpl; [done| |lia].
  by destruct (e <=? emax - prec).
Qed.

(** The digits of a truncated and rounded mantissa, against those of
    the mantissa it comes from. *)
Lemma digits_rounded_le m n m1 :
  0 <= m -> 0 <= n -> m / 2 ^ n <= m1 <= m / 2 ^ n + 1 ->
  Zdigits2 m1 + n <= Z.max (Zdigits2 m + 1) (n + 1).
Proof.
  intros Hm Hn [Hlo Hhi].
  assert (0 < 2 ^ n) by (apply Z.pow_pos_nonneg; lia).
  assert (0 <= m / 2 ^ n) as Hq by (apply Z.div_pos; lia).
  destruct (Z.eq_dec (m / 2 ^ n) 0) as [Hz|Hnz].
  - assert (Zdigits2 m1 <= 1); [|lia].
    apply Zdigits2_lt_pow; lia.
  - assert (0 < m) by (destruct (Z.eq_dec m 0) as [->|]; [by rewrite Z.div_0_l in Hnz by lia|lia]).
    pose proof (Zdigits2_div_pow2 m n ltac:(lia) Hn ltac:(lia)) as Hd.
    pose proof (Zdigits2_mono m1 (m / 2 ^ n + 1) ltac:(lia)).
    pose proof (Zdigits2_succ (m / 2 ^ n) Hq). lia.
Qed.

Lemma digits_rounded_ge m n m1 :
  0 <= m -> 0 <= n -> m / 2 ^ n <= m1 -> 0 < m1 ->
  Zdigits2 m <= Zdigits2 m1 + n.
Proof.
  intros Hm0 Hn Hlo Hpos.
  destruct (Z.eq_dec m 0) as [->|Hne].
  { pose proof (Zdigits2_pos m1 Hpos). simpl. lia. }
  assert (0 < m) as Hm by lia.
  assert (0 < 2 ^ n) by (apply Z.pow_pos_nonneg; lia).
  assert (0 <= m / 2 ^ n) as Hq by (apply Z.div_pos; lia).
  destruct (Z.eq_dec (m / 2 ^ n) 0) as [Hz|Hnz].
  - apply Z.div_small_iff in Hz; [|lia].
    assert (Zdigits2 m <= n) by (apply Zdigits2_lt_pow; lia).
    pose proof (Zdigits2_pos m1 Hpos). lia.
  - pose proof (Zdigits2_div_pow2 m n Hm Hn ltac:(lia)) as Hd.
    pose proof (Zdigits2_mono (m / 2 ^ n) m1 ltac:(lia)). lia.
Qed.

(** Rounding cannot overflow when the rounded number is below [2^1023]. *)
Lemma binary_round_aux_finite sx m e l :
  0 <= m -> e <= emax - prec -> Zdigits2 m + e < emax ->
  is_finite (binary_round_aux prec emax sx m e l) = true.
Proof.
  intros Hm He Hd.
  destruct (binary_round_aux_spec sx m e l Hm) as (m1 & Hb & _ & ->).
  set (e1 := Z.max e (fexp (Zdigits2 m + e))) in *.
  assert (0 < 2 ^ (e1 - e)) by (apply Z.pow_pos_nonneg; lia).
  assert (0 <= m / 2 ^ (e1 - e)) by (apply Z.div_pos; lia).
  apply round_result_finite.
  - apply Z.div_pos; [lia|]. apply Z.pow_pos_nonneg; lia.
  - pose proof (digits_rounded_le m (e1 - e) m1 Hm ltac:(lia) Hb).
    unfold e1 in *. rewrite !fexp_eq in *. unfold emax, prec in *. lia.
Qed.

Lemma binary_round_aux_sign sx m e l :
  0 <= m -> sign (binary_round_aux prec emax sx m e l) = sx.
Proof.
  intros Hm.
  destruct (binary_round_aux_spec sx m e l Hm) as (m1 & Hb & _ & ->).
  set (e1 := Z.max e (fexp (Zdigits2 m + e))) in *.
  assert (0 < 2 ^ (e1 - e)) by (apply Z.pow_pos_nonneg; lia).
  assert (0 <= m / 2 ^ (e1 - e)) by (apply Z.div_pos; lia).
  apply round_result_sign.
  apply Z.div_pos; [lia|]. apply Z.pow_pos_nonneg; lia.
Qed.

(** Rounding from an exponent not above the canonical one gives a
    canonical float. *)
Lemma binary_round_aux_valid sx m e l :
  0 <= m -> e <= fexp (Zdigits2 m + e) ->
  valid (binary_round_aux prec emax sx m e l) = true.
Proof.
  intros Hm He.
  destruct (binary_round_aux_spec sx m e l Hm) as (m1 & Hb & _ & ->).
  set (e1 := Z.max e (fexp (Zdigits2 m + e))) in *.
  set (e2 := Z.max e1 (fexp (Zdigits2 m1 + e1))).
  assert (0 < 2 ^ (e1 - e)) by (apply Z.pow_pos_nonneg; lia).
  assert (0 <= m / 2 ^ (e1 - e)) by (apply Z.div_pos; lia).
  assert (0 < 2 ^ (e2 - e1)) by (apply Z.pow_pos_nonneg; lia).
  destruct (m1 / 2 ^ (e2 - e1)) as [|p|p] eqn:Ep; simpl; try done.
  destruct (Z.leb_spec e2 (emax - prec)) as [Hle|]; [|done].
  unfold valid, valid_binary, bounded, canonical_mantissa.
  apply andb_true_intro. split; [|by apply Z.leb_le].
  apply Z.eqb_eq.
  assert (0 < m1).
  { destruct (Z.eq_dec m1 0) as [->|]; [|lia]. by rewrite Z.div_0_l in Ep by lia. }
  change (Z.pos (digits2_pos p)) with (Zdigits2 (Z.pos p)).
  rewrite <- Ep.
  rewrite Zdigits2_div_pow2 by lia.
  pose proof (digits_rounded_ge m (e1 - e) m1 ltac:(lia) ltac:(lia)
                ltac:(lia) ltac:(lia)) as Hge.
  assert (fexp (Zdigits2 m + e) <= fexp (Zdigits2 m1 + e1)).
  { apply fexp_mono. lia. }
  replace (Zdigits2 m1 - (e2 - e1) + e2) with (Zdigits2 m1 + e1) by lia.
  unfold e2, e1 in *. lia.
Qed.

(** Rounding a number that is representable at its exponent returns it. *)
Lemma binary_round_aux_exact sx p e :
  fexp (Zdigits2 (Zpos p) + e) <= e -> e <= emax - prec ->
  binary_round_aux prec emax sx (Zpos p) e loc_Exact = S754_finite sx p e.
Proof.
  intros Hf He.
  destruct (binary_round_aux_spec sx (Zpos p) e loc_Exact ltac:(lia))
    as (m1 & Hb & Hex & ->).
  assert (m1 = Z.pos p) as -> by (apply Hex; [lia|done]).
  replace (Z.max e (fexp (Zdigits2 (Z.pos p) + e))) with e by lia.
  replace (Z.max e (fexp (Zdigits2 (Z.pos p) + e))) with e by lia.
  rewrite Z.sub_diag, Z.div_1_r. simpl.
  destruct (Z.leb_spec e (emax - prec)); [done|lia].
Qed.

Lemma iter_xO_pow2 d p : Zpos (Pos.iter xO p d) = Zpos p * 2 ^ Zpos d.
Proof.
  induction d as [|d IH] using Pos.peano_ind.
  - simpl. lia.
  - rewrite Pos.iter_succ, Pos2Z.inj_xO, IH, Pos2Z.inj_succ.
    rewrite Z.pow_succ_r by lia. lia.
Qed.

(** [shl_align] keeps the number and lowers its exponent to [ex'] when
    that is below [ex]. *)
Lemma shl_align_spec mx ex ex' :
  let e := Z.min ex ex' in
  shl_align mx ex ex' = (Z.to_pos (Zpos mx * 2 ^ (ex - e)), e)
  /\ 0 < Zpos mx * 2 ^ (ex - e).
Proof.
  intros e. subst e. unfold shl_align.
  destruct (ex' - ex) as [|d|d] eqn:E.
  - replace (Z.min ex ex') with ex by lia.
    rewrite Z.sub_diag, Z.mul_1_r. simpl. done.
  - replace (Z.min ex ex') with ex by lia.
    rewrite Z.sub_diag, Z.mul_1_r. simpl. done.
  - replace (Z.min ex ex') with ex' by lia.
    replace (ex - ex') with (Zpos d) by lia.
    rewrite <- iter_xO_pow2. simpl. done.
Qed.

Lemma binary_round_valid sx mx ex :
  valid (binary_round prec emax sx mx ex) = true.
Proof.
  unfold binary_round.
  set (D := Z.pos (digits2_pos mx) + ex).
  destruct (shl_align_spec mx ex (fexp D)) as [-> Hpos].
  set (mz := Z.pos mx * 2 ^ (ex - Z.min ex (fexp D))) in *.
  rewrite Z2Pos.id by done.
  apply binary_round_aux_valid; [lia|].
  unfold mz. rewrite Zdigits2_mul_pow2 by lia.
  change (Zdigits2 (Z.pos mx)) with (Z.pos (digits2_pos mx)).
  replace (Z.pos (digits2_pos mx) + (ex - Z.min ex (fexp D))
           + Z.min ex (fexp D)) with D by lia.
  lia.
Qed.


Lemma binary_round_finite sx mx ex :
  Zdigits2 (Zpos mx) + ex < emax ->
  is_finite (binary_round prec emax sx mx ex) = true
  /\ sign (binary_round prec emax sx mx ex) = sx.
Proof.
  intros Hd. unfold binary_round.
  set (D := Z.pos (digits2_pos mx) + ex).
  destruct (shl_align_spec mx ex (fexp D)) as [-> Hpos].
  set (mz := Z.pos mx * 2 ^ (ex - Z.min ex (fexp D))) in *.
  rewrite Z2Pos.id by done.
  assert (Zdigits2 mz + Z.min ex (fexp D) = D) as HD.
  { unfold mz. rewrite Zdigits2_mul_pow2 by lia.
    change (Zdigits2 (Z.pos mx)) with (Z.pos (digits2_pos mx)). lia. }
  change (Zdigits2 (Z.pos mx)) with (Z.pos (digits2_pos mx)) in Hd.
  fold D in Hd.
  split; [|apply binary_round_aux_sign; lia].
  apply binary_round_aux_finite; [lia| |lia].
  rewrite fexp_eq. unfold emax, prec in *. lia.
Qed.

(** A canonical exponent is at least the smallest one, and a canonical
    mantissa has at most 53 digits. *)
Lemma valid_finite_inv s m e :
  valid (S754_finite s m e) = true ->
  e = fexp (Zdigits2 (Zpos m) + e) /\ e <= emax - prec
  /\ Zdigits2 (Zpos m) <= prec /\ emin prec emax <= e.
Proof.
  unfold valid, valid_binary, bounded, canonical_mantissa.
  intros [Hc Hb%Z.leb_le]%andb_prop. apply Z.eqb_eq in Hc.
  change (Z.pos (digits2_pos m)) with (Zdigits2 (Z.pos m)) in Hc.
  rewrite fexp_eq in *. unfold emax, prec, emin in *. lia.
Qed.

Lemma round_result_nonneg m e : 0 <= m -> nonneg (round_result false m e) = true.
Proof.
  intros Hm. destruct m as [|p|p]; simpl; [done| |lia].
  by destruct (e <=? emax - prec).
Qed.

Lemma binary_round_aux_nonneg m e l :
  0 <= m -> nonneg (binary_round_aux prec emax false m e l) = true.
Proof.
  intros Hm.
  destruct (binary_round_aux_spec false m e l Hm) as (m1 & Hb & _ & ->).
  set (e1 := Z.max e (fexp (Zdigits2 m + e))) in *.
  assert (0 < 2 ^ (e1 - e)) by (apply Z.pow_pos_nonneg; lia).
  assert (0 <= m / 2 ^ (e1 - e)) by (apply Z.div_pos; lia).
  apply round_result_nonneg.
  apply Z.div_pos; [lia|]. apply Z.pow_pos_nonneg; lia.
Qed.

Lemma Zdigits2_mul_le a b :
  0 <= a -> 0 <= b -> Zdigits2 (a * b) <= Zdigits2 a + Zdigits2 b.
Proof.
  intros Ha Hb.
  destruct (Z.eq_dec a 0) as [->|]; [simpl; apply Zdigits2_nonneg|].
  destruct (Z.eq_dec b 0) as [->|].
  { rewrite Z.mul_0_r. simpl. pose proof (Zdigits2_nonneg a). lia. }
  pose proof (Zdigits2_bounds a ltac:(lia)) as [_ Ha'].
  pose proof (Zdigits2_bounds b ltac:(lia)) as [_ Hb'].
  pose proof (Zdigits2_nonneg a). pose proof (Zdigits2_nonneg b).
  apply Zdigits2_lt_pow; [|lia].
  rewrite Z.pow_add_r by lia. nia.
Qed.

Lemma of_int_1 : of_int 1 = S754_finite false 4503599627370496 (-52).
Proof. by vm_compute. Qed.

(** The product of a duration below one second and a constant. *)
Lemma mul_finite d mc ec :
  valid d = true -> is_finite d = true -> nonneg d = true ->
  ltb d (of_int 1) = true ->
  Zdigits2 (Zpos mc) + ec < emax - prec ->
  is_finite (mul d (S754_finite false mc ec)) = true
  /\ nonneg (mul d (S754_finite false mc ec)) = true.
Proof.
  intros Hv Hf Hn Hlt Hc.
  destruct d as [s| | |s m e]; try done.
  destruct s; [done|].
  apply valid_finite_inv in Hv as (Hcan & Hle & Hdig & Hmin).
  assert (e <= -52) as He.
  { revert Hlt. rewrite of_int_1. unfold ltb, SFltb, SFcompare.
    destruct (Z.compare_spec e (-52)); [lia|lia|done]. }
  unfold mul, SFmul. simpl xorb.
  rewrite Pos2Z.inj_mul.
  pose proof (Zdigits2_mul_le (Zpos m) (Zpos mc) ltac:(lia) ltac:(lia)).
  assert (0 <= Z.pos m * Z.pos mc) by lia.
  pose proof (Zdigits2_nonneg (Zpos mc)).
  unfold emax, prec in *.
  split; [apply binary_round_aux_finite|apply binary_round_aux_nonneg];
    unfold emax, prec; lia.
Qed.

Lemma SFdiv_core_binary_spec m1 e1 m2 e2 :
  0 < m1 -> 0 < m2 ->
  let e' := Z.min (fexp (Zdigits2 m1 + e1 - (Zdigits2 m2 + e2))) (e1 - e2) in
  exists l,
    SFdiv_core_binary prec emax m1 e1 m2 e2
    = (m1 * 2 ^ (e1 - e2 - e') / m2, e', l).
Proof.
  intros H1 H2 e'. unfold SFdiv_core_binary. fold e'.
  assert (0 <= e1 - e2 - e') as Hs by lia.
  set (m' := match e1 - e2 - e' with
             | 0 => m1
             | Z.pos _ => Z.shiftl m1 (e1 - e2 - e')
             | Z.neg _ => 0
             end).
  assert (m' = m1 * 2 ^ (e1 - e2 - e')) as Hm'.
  { unfold m'. destruct (e1 - e2 - e') as [|p|p] eqn:E; [simpl; lia| |lia].
    by rewrite Z.shiftl_mul_pow2 by lia. }
  rewrite <- Hm'. unfold Z.div.
  destruct (Z.div_eucl m' m2) as [q r]. by eexists.
Qed.

(** The quotient of a duration by a constant between 1 and [2^53]. *)
Lemma div_finite d mc ec :
  valid d = true -> is_finite d = true -> nonneg d = true ->
  Zdigits2 (Zpos mc) = prec -> - 47 <= ec <= 0 ->
  is_finite (div d (S754_finite false mc ec)) = true
  /\ nonneg (div d (S754_finite false mc ec)) = true.
Proof.
  intros Hv Hf Hn Hc Hec.
  destruct d as [s| | |s m e]; try done.
  destruct s; [by cbv in Hn|].
  apply valid_finite_inv in Hv as (Hcan & Hle & Hdig & Hmin).
  unfold div, SFdiv. simpl xorb.
  destruct (SFdiv_core_binary_spec (Zpos m) e (Zpos mc) ec) as [l ->]; [lia..|].
  set (e' := Z.min _ _).
  set (q := Z.pos m * 2 ^ (e - ec - e') / Z.pos mc).
  assert (0 <= e - ec - e') as Hs by lia.
  assert (0 < 2 ^ (e - ec - e')) by (apply Z.pow_pos_nonneg; lia).
  assert (0 <= q) as Hq by (apply Z.div_pos; nia).
  split; [|by apply binary_round_aux_nonneg].
  assert (e' <= emax - prec - 1) as He'.
  { unfold e'. rewrite fexp_eq. unfold emax, prec in *. lia. }
  apply binary_round_aux_finite; [done|lia|].
  assert (Zdigits2 q <= Z.max 0 (Zdigits2 (Zpos m) + (e - ec - e') - 52)).
  { destruct (Z.eq_dec q 0) as [->|]; [simpl; lia|].
    apply Zdigits2_lt_pow; [|lia]. split; [done|].
    pose proof (Zdigits2_bounds (Zpos mc) ltac:(lia)) as [Hlo _].
    rewrite Hc in Hlo. unfold prec in Hlo. simpl in Hlo.
    pose proof (Zdigits2_bounds (Zpos m) ltac:(lia)) as [_ Hhi].
    pose proof (Zdigits2_pos (Zpos m) ltac:(lia)).
    destruct (Z.le_gt_cases 52 (Zdigits2 (Z.pos m) + (e - ec - e'))) as [Hge|Hlt].
    - replace (Z.max 0 (Zdigits2 (Z.pos m) + (e - ec - e') - 52))
        with (Zdigits2 (Z.pos m) + (e - ec - e') - 52) by lia.
      apply Z.div_lt_upper_bound; [lia|].
      assert (Z.pos m * 2 ^ (e - ec - e')
              < 2 ^ (Zdigits2 (Z.pos m) + (e - ec - e'))).
      { rewrite Z.pow_add_r by lia. nia. }
      assert (2 ^ 52 * 2 ^ (Zdigits2 (Z.pos m) + (e - ec - e') - 52)
              = 2 ^ (Zdigits2 (Z.pos m) + (e - ec - e'))) as Hsplit.
      { rewrite <- Z.pow_add_r by lia. f_equal. lia. }
      assert (2 ^ 52 * 2 ^ (Zdigits2 (Z.pos m) + (e - ec - e') - 52)
              <= Z.pos mc * 2 ^ (Zdigits2 (Z.pos m) + (e - ec - e') - 52)).
      { apply Z.mul_le_mono_nonneg_r; [|done]. apply Z.pow_nonneg. lia. }
      lia.
    - exfalso. assert (q = 0); [|lia].
      apply Z.div_small. split; [nia|].
      assert (Z.pos m * 2 ^ (e - ec - e')
              < 2 ^ (Zdigits2 (Z.pos m) + (e - ec - e'))).
      { rewrite Z.pow_add_r by lia. nia. }
      assert (2 ^ (Zdigits2 (Z.pos m) + (e - ec - e')) <= 2 ^ 52).
      { apply Z.pow_le_mono_r; lia. }
      simpl in *. lia. }
  unfold emax, prec in *. lia.
Qed.






Lemma sign_false_nonneg x :
  is_finite x = true -> sign x = false -> nonneg x = true.
Proof. by destruct x as [[]|[]| |[] m e]. Qed.

(** The remainder by a positive constant is exact, non-negative and
    finite, and Python's [%] returns it unchanged. *)
Lemma rem_finite d mc ec :
  valid d = true -> is_finite d = true -> sign d = false ->
  Zdigits2 (Zpos mc) + ec < emax ->
  let c := S754_finite false mc ec in
  rem d c = Ok (fmod d c)
  /\ valid (fmod d c) = true /\ is_finite (fmod d c) = true
  /\ sign (fmod d c) = false.
Proof.
  intros Hv Hf Hs Hc c.
  destruct d as [s| | |s m e]; try done; simpl in Hs; subst s; [done|].
  unfold rem, fmod, c. simpl is_zero. cbv iota.
  set (e' := Z.min e ec).
  set (Y := Z.pos mc * 2 ^ (ec - e')).
  assert (0 < 2 ^ (ec - e')) by (apply Z.pow_pos_nonneg; lia).
  assert (0 < Y) as HY by (unfold Y; lia).
  pose proof (Z.mod_pos_bound (Z.pos m * 2 ^ (e - e')) Y HY) as Hr.
  destruct (_ mod Y) as [|p|p] eqn:Er; [done| |lia].
  unfold cond_Zopp, binary_normalize.
  assert (Zdigits2 (Zpos p) + e' < emax) as Hd.
  { pose proof (Zdigits2_mono (Zpos p) Y ltac:(lia)) as Hle.
    unfold Y in Hle. rewrite Zdigits2_mul_pow2 in Hle by lia. lia. }
  destruct (binary_round_finite false p e' Hd) as [HRf HRs].
  pose proof (binary_round_valid false p e') as HRv.
  destruct (binary_round prec emax false p e') as [[]|[]| |[] m' e''];
    done.
Qed.

End FloatFacts.

(** ** The duration formatter *)

Section Duration.
Import Float.
#[local] Abbreviation fexp := (SpecFloat.fexp prec emax).

Lemma of_int_1000 : of_int 1000 = S754_finite false 8796093022208000 (-43).
Proof. by vm_compute. Qed.

Lemma of_int_3600 : of_int 3600 = S754_finite false 7916483719987200 (-41).
Proof. by vm_compute. Qed.

Lemma of_int_60 : of_int 60 = S754_finite false 8444249301319680 (-47).
Proof. by vm_compute. Qed.

Lemma floor_finite x :
  is_finite x = true -> floor x = Ok (int_floor x).
Proof. by destruct x. Qed.

Lemma round_finite x :
  is_finite x = true -> round x = Ok (nearest x).
Proof. by destruct x. Qed.

Lemma int_floor_nonneg x : nonneg x = true -> 0 <= int_floor x.
Proof.
  destruct x as [s|s| |[] m e]; simpl; try done.
  intros _. apply Z.shiftl_nonneg. lia.
Qed.

Lemma round_half_even_nonneg m e : 0 <= m -> 0 <= round_half_even m e.
Proof.
  intros Hm. unfold round_half_even.
  destruct (Z.leb_spec 0 e) as [He|He].
  - apply Z.mul_nonneg_nonneg; [done|]. by apply Z.pow_nonneg.
  - assert (0 < 2 ^ (- e)) by (apply Z.pow_pos_nonneg; lia).
    assert (0 <= m / 2 ^ (- e)) by (apply Z.div_pos; lia).
    destruct (_ ?= _); [destruct (Z.even _)|..]; lia.
Qed.

Lemma nearest_nonneg x : nonneg x = true -> 0 <= nearest x.
Proof.
  destruct x as [s|s| |[] m e]; simpl; try done.
  intros _. apply round_half_even_nonneg. lia.
Qed.

Lemma format_02d_nonneg z : 0 <= z -> format_02d z = zero_padded z.
Proof.
  intros Hz. unfold format_02d.
  destruct (Z.ltb_spec z 0); [lia|done].
Qed.

(** A non-negative finite float that is not below one is a positive
    finite float. *)
Lemma not_below_one d :
  is_finite d = true -> nonneg d = true -> ltb d (of_int 1) = false ->
  sign d = false.
Proof. by destruct d as [[]|[]| |[] m e]. Qed.

(** [int_floor] is the floor of the number a finite float denotes. *)
Lemma int_floor_spec s m e :
  let v := cond_Zopp s (Zpos m) in
  let n := int_floor (S754_finite s m e) in
  if 0 <=? e then n = v * 2 ^ e
  else n * 2 ^ (- e) <= v < (n + 1) * 2 ^ (- e).
Proof.
  intros v n. unfold n, int_floor. fold v.
  destruct (Z.leb_spec 0 e) as [He|He].
  - by rewrite Z.shiftl_mul_pow2.
  - rewrite Z.shiftl_div_pow2 by lia.
    assert (0 < 2 ^ (- e)) as Hp by (apply Z.pow_pos_nonneg; lia).
    pose proof (Z.div_mod v (2 ^ (- e)) ltac:(lia)).
    pose proof (Z.mod_pos_bound v (2 ^ (- e)) Hp). nia.
Qed.

(** [round_half_even m e] is an integer nearest to [m * 2^e], and the
    even one of the two when [m * 2^e] lies halfway. *)
Lemma round_half_even_spec m e :
  0 <= m -> e < 0 ->
  let n := round_half_even m e in
  Z.abs (2 * (n * 2 ^ (- e) - m)) <= 2 ^ (- e)
  /\ (Z.abs (2 * (n * 2 ^ (- e) - m)) = 2 ^ (- e) -> Z.even n = true).
Proof.
  intros Hm He n. unfold n, round_half_even.
  destruct (Z.leb_spec 0 e); [lia|].
  assert (0 < 2 ^ (- e)) as Hp by (apply Z.pow_pos_nonneg; lia).
  pose proof (Z.div_mod m (2 ^ (- e)) ltac:(lia)) as Hdm.
  pose proof (Z.mod_pos_bound m (2 ^ (- e)) Hp) as Hr.
  set (q := m / 2 ^ (- e)) in *. set (r := m mod 2 ^ (- e)) in *.
  destruct (Z.compare_spec (2 * r) (2 ^ (- e))) as [Heq|Hlt|Hgt].
  - destruct (Z.even q) eqn:Hev.
    + split; [nia|done].
    + split; [nia|]. intros _. rewrite Z.even_add, Hev. done.
  - split; nia.
  - split; nia.
Qed.

(** The remainder is exact: [fmod] returns the float that denotes the
    remainder of the two numbers at their common exponent. *)
Lemma fmod_exact mx ex my ey :
  valid (S754_finite false mx ex) = true ->
  valid (S754_finite false my ey) = true ->
  let e := Z.min ex ey in
  let r := (Zpos mx * 2 ^ (ex - e)) mod (Zpos my * 2 ^ (ey - e)) in
  if r =? 0
  then fmod (S754_finite false mx ex) (S754_finite false my ey)
       = S754_zero false
  else exists m' e',
      fmod (S754_finite false mx ex) (S754_finite false my ey)
      = S754_finite false m' e'
      /\ e' <= e /\ Zpos m' = r * 2 ^ (e - e').
Proof.
  intros (Hcx & Hlx & Hdx & Hmx)%valid_finite_inv
         (Hcy & Hly & Hdy & Hmy)%valid_finite_inv e r.
  unfold fmod. fold e. fold r.
  assert (0 < 2 ^ (ex - e)) by (apply Z.pow_pos_nonneg; lia).
  assert (0 < 2 ^ (ey - e)) by (apply Z.pow_pos_nonneg; lia).
  assert (0 <= r < Zpos my * 2 ^ (ey - e)) as Hr
    by (apply Z.mod_pos_bound; lia).
  assert (r <= Zpos mx * 2 ^ (ex - e)) as Hrx
    by (apply Z.mod_le; lia).
  destruct (Z.eqb_spec r 0) as [->|Hne]; [done|].
  destruct r as [|p|p] eqn:Er; [done| |lia].
  unfold cond_Zopp, binary_normalize, binary_round.
  change (Z.pos (digits2_pos p)) with (Zdigits2 (Z.pos p)).
  set (D := Zdigits2 (Z.pos p) + e).
  assert (Zdigits2 (Zpos p) <= prec) as Hdp.
  { destruct (Z.le_ge_cases ex ey).
    - replace (ex - e) with 0 in Hrx by lia. rewrite Z.mul_1_r in Hrx.
      pose proof (Zdigits2_mono (Zpos p) (Zpos mx) ltac:(lia)). lia.
    - replace (ey - e) with 0 in Hr by lia. rewrite Z.mul_1_r in Hr.
      pose proof (Zdigits2_mono (Zpos p) (Zpos my) ltac:(lia)). lia. }
  assert (fexp D <= e) as HfD.
  { unfold D. rewrite fexp_eq. unfold prec, emax, emin in *. lia. }
  destruct (shl_align_spec p e (fexp D)) as [-> Hpos].
  replace (Z.min e (fexp D)) with (fexp D) in * by lia.
  set (mz := Z.pos p * 2 ^ (e - fexp D)) in *.
  destruct mz as [|pz|pz] eqn:Emz; try lia. simpl Z.to_pos.
  assert (Zdigits2 (Zpos pz) + fexp D = D) as HD.
  { rewrite <- Emz. unfold mz. rewrite Zdigits2_mul_pow2 by lia.
    unfold D. lia. }
  rewrite binary_round_aux_exact.
  - exists pz, (fexp D). split; [done|]. split; [done|]. lia.
  - rewrite HD. lia.
  - unfold prec, emax in *. lia.
Qed.

(** C1. For every elapsed duration [d >= 0] (a finite binary64 number)
    the duration formatter returns, and never fails: below one second
    the text is the rounded number of milliseconds followed by [" ms"];
    from one second on it is [HH:MM:SS], zero-padded, with hours
    [floor(d/3600)], minutes [floor((d mod 3600)/60)] and seconds
    [round(d mod 3600 mod 60)]. In particular 3661.4 gives ["01:01:01"]. *)
Theorem format_duration_spec :
  (forall d : spec_float,
      Float.valid d = true -> Float.is_finite d = true ->
      Float.nonneg d = true ->
      _format_duration d = Ok (spec_format_duration d))
  /\ _format_duration (Float.of_ratio 36614 10) = Ok (py "01:01:01").
Proof.
  split; [|by vm_compute].
  intros d Hv Hf Hn. unfold _format_duration, spec_format_duration.
  destruct (ltb d (of_int 1)) eqn:Hlt.
  - rewrite of_int_1000.
    destruct (mul_finite d 8796093022208000 (-43) Hv Hf Hn Hlt) as [Hmf _].
    { by vm_compute. }
    rewrite round_finite by done. reflexivity.
  - pose proof (not_below_one d Hf Hn Hlt) as Hs.
    rewrite of_int_3600, of_int_60.
    destruct (div_finite d 7916483719987200 (-41) Hv Hf Hn) as [Hhf Hhn];
      [by vm_compute|lia|].
    rewrite floor_finite by done. cbn [mbind result_bind].
    destruct (rem_finite d 7916483719987200 (-41) Hv Hf Hs)
      as (-> & Hrv & Hrf & Hrs); [by vm_compute|].
    cbn [mbind result_bind].
    set (rest := fmod d _) in *.
    pose proof (sign_false_nonneg rest Hrf Hrs) as Hrn.
    destruct (div_finite rest 8444249301319680 (-47) Hrv Hrf Hrn)
      as [Hmf Hmn]; [by vm_compute|lia|].
    rewrite floor_finite by done. cbn [mbind result_bind].
    destruct (rem_finite rest 8444249301319680 (-47) Hrv Hrf Hrs)
      as (-> & Hsv & Hsf & Hss); [by vm_compute|].
    cbn [mbind result_bind].
    set (secs := fmod rest _) in *.
    pose proof (sign_false_nonneg secs Hsf Hss) as Hsn.
    rewrite round_finite by done. cbn [mbind result_bind].
    rewrite !format_02d_nonneg
      by (apply int_floor_nonneg || apply nearest_nonneg; done).
    reflexivity.
Qed.

Lemma format_duration_spec_witness :
  Float.valid (Float.of_ratio 36614 10) = true
  /\ Float.is_finite (Float.of_ratio 36614 10) = true
  /\ Float.nonneg (Float.of_ratio 36614 10) = true
  /\ _format_duration (Float.of_ratio 36614 10)
     = Ok (spec_format_duration (Float.of_ratio 36614 10)).
Proof.
  split; [by vm_compute|]. split; [by vm_compute|]. split; [by vm_compute|].
  apply (proj1 format_duration_spec); by vm_compute.
Defined.

(** The doubles that the literals [3661.4] and [59.7] denote. *)
Example literal_3661_4 :
  Float.of_ratio 36614 10 = S754_finite false 8051503747878093 (-41).
Proof. by vm_compute. Qed.

Example literal_59_7 :
  Float.of_ratio 597 10 = S754_finite false 8402028054813082 (-47).
Proof. by vm_compute. Qed.

Example format_duration_half_second :
  _format_duration (Float.of_ratio 5 10) = Ok (py "500 ms").
Proof. by vm_compute. Qed.

Example format_duration_65_seconds :
  _format_duration (Float.of_int 65) = Ok (py "00:01:05").
Proof. by vm_compute. Qed.

Example format_duration_100_hours :
  _format_duration (Float.of_int 360000) = Ok (py "100:00:00").
Proof. by vm_compute. Qed.

(** Outside the durations: the infinite one makes [math.floor] fail. *)
Example format_duration_infinity :
  _format_duration (S754_infinity false) = Raise OverflowError.
Proof. by vm_compute. Qed.

(** C9. There are durations between one second and one hour whose last
    remainder rounds up to 60: for 59.7 the minutes stay at 0, the
    seconds field is 60 and the text is ["00:00:60"]; the rounding of the
    seconds is not carried into the minutes. *)
Theorem format_duration_seconds_sixty :
  Float.leb (Float.of_int 1) (Float.of_ratio 597 10) = true
  /\ Float.ltb (Float.of_ratio 597 10) (Float.of_int 3600) = true
  /\ Float.ltb
       (Float.fmod (Float.fmod (Float.of_ratio 597 10) (Float.of_int 3600))
          (Float.of_int 60))
       (Float.of_int 60) = true
  /\ Float.nearest
       (Float.fmod (Float.fmod (Float.of_ratio 597 10) (Float.of_int 3600))
          (Float.of_int 60)) = 60
  /\ Float.int_floor
       (Float.div (Float.fmod (Float.of_ratio 597 10) (Float.of_int 3600))
          (Float.of_int 60)) = 0
  /\ _format_duration (Float.of_ratio 597 10) = Ok (py "00:00:60").
Proof. by vm_compute. Qed.

Example format_duration_minutes_sixty :
  _format_duration (Float.of_ratio 35995 10) = Ok (py "00:59:60").
Proof. by vm_compute. Qed.

End Duration.

(** ** The outcome classifier *)

(** Decide every proposition the goal tests. *)
Ltac decide_tests :=
  repeat match goal with
    | |- context [bool_decide ?P] =>
        destruct (decide P);
        [rewrite (bool_decide_eq_true_2 P) by assumption
        |rewrite (bool_decide_eq_false_2 P) by assumption]
    end.

Lemma is_error_spec (report : Report.t) :
  _is_error report
  = bool_decide ((Report.when report = py "setup"
                  \/ Report.when report = py "teardown")
                 /\ Report.outcome report = py "failed").
Proof.
  unfold _is_error, str_eqb.
  decide_tests; simpl; first [reflexivity | exfalso; tauto].
Qed.

(** C2, amended. The classifier applies its rules in order: a failed
    setup or teardown is ["Error"]; else with an xfail marker a passed or
    failed outcome is ["XPassed"] and a skipped one ["XFailed"]; else the
    label is [outcome.capitalize()], the outcome with its first letter
    upper-cased and its other letters lower-cased. *)
Theorem process_outcome_rules (report : Report.t) :
  _process_outcome report = amended_process_outcome report.
Proof.
  unfold _process_outcome, amended_process_outcome, outcome_rules.
  rewrite is_error_spec. unfold str_eqb.
  decide_tests; simpl; first [reflexivity | exfalso; tauto].
Qed.

(** C2 as stated fails: the letters after the first are not kept,
    they are lower-cased. *)
Lemma process_outcome_not_first_letter :
  _process_outcome Plain.not_run_report = py "Notrun"
  /\ spec_process_outcome Plain.not_run_report = py "NotRun"
  /\ _process_outcome Plain.not_run_report
     <> spec_process_outcome Plain.not_run_report.
Proof. by vm_compute. Qed.

(** On an outcome whose letters after the first are lower-case already,
    as the outcomes of the runner are, both readings agree. *)
Lemma capitalize_lower_tail (c : N) (rest : list N) :
  Forall (fun x => ascii_lower x = x) rest ->
  capitalize (c :: rest) = first_letter_capitalized (c :: rest).
Proof.
  intros Hl. simpl. f_equal.
  induction Hl as [|x l Hx _ IH]; [done|]. rewrite fmap_cons. by rewrite Hx, IH.
Qed.

Example process_outcome_examples :
  _process_outcome (Plain.phase_report "setup" "failed" None) = py "Error"
  /\ _process_outcome (Plain.phase_report "teardown" "failed" (Some [])) = py "Error"
  /\ _process_outcome (Plain.phase_report "call" "passed" (Some [])) = py "XPassed"
  /\ _process_outcome (Plain.phase_report "call" "failed" (Some [])) = py "XPassed"
  /\ _process_outcome (Plain.phase_report "call" "skipped" (Some [])) = py "XFailed"
  /\ _process_outcome (Plain.phase_report "call" "rerun" (Some [])) = py "Rerun"
  /\ _process_outcome (Plain.phase_report "call" "passed" None) = py "Passed"
  /\ _process_outcome (Plain.phase_report "call" "rerun" None) = py "Rerun".
Proof. by vm_compute. Qed.

(** ** The log processor *)

(** Replacing a one-character pattern works character by character. *)
Lemma replace_char (a : N) (new s : list N) :
  replace [a] new s = flat_map (fun c => if (c =? a)%N then new else [c]) s.
Proof.
  unfold replace. induction s as [|c s IH]; [done|].
  cbn [replace_from startswith flat_map length Nat.sub].
  rewrite andb_true_r, N.eqb_sym. rewrite IH.
  by destruct (c =? a)%N.
Qed.

Lemma flat_map_flat_map {A B C : Type} (f : A -> list B) (g : B -> list C)
    (l : list A) :
  flat_map g (flat_map f l) = flat_map (fun x => flat_map g (f x)) l.
Proof.
  induction l as [|x l IH]; [done|]. simpl. by rewrite flat_map_app, IH.
Qed.

Lemma escape_replace (s : list N) :
  replace (py ">") (py "&gt;") (replace (py "<") (py "&lt;") s)
  = html_escaped s.
Proof.
  change (py ">") with [62%N]. change (py "<") with [60%N].
  rewrite !replace_char, flat_map_flat_map. unfold html_escaped.
  apply flat_map_ext. intros c.
  destruct (N.eqb_spec c 60) as [->|H60]; [done|].
  simpl. rewrite app_nil_r. done.
Qed.

Lemma foldl_append {A B : Type} (f : B -> list A) (l : list B) (acc : list A) :
  foldl (fun log x => log ++ f x) acc l = acc ++ flat_map f l.
Proof.
  revert acc. induction l as [|x l IH]; intros acc; simpl.
  - by rewrite app_nil_r.
  - by rewrite IH, app_assoc.
Qed.

Lemma placeholder_if_empty {A : Type} `{EqDecision A} (log : list A) (p : A) :
  (if bool_decide (log = []) then log ++ [p] else log)
  = match log with [] => [p] | _ :: _ => log end.
Proof. by destruct log. Qed.

(** C5, amended. The log starts with the escaped traceback followed by a
    newline when there is a traceback; then, unless the outcome is
    ["rerun"], each section gives one entry, its banner, a newline and
    its content, and after it one empty entry when the header contains
    ["log"] and a second one when it contains ["call"] as well; a log that
    is still empty gets the placeholder as its only entry. *)
Theorem process_logs_entries (report : Report.t) :
  _process_logs report = amended_process_logs report.
Proof.
  unfold _process_logs, amended_process_logs, log_entries.
  rewrite escape_replace, foldl_append, placeholder_if_empty. unfold str_eqb.
  destruct (bool_decide (Report.longreprtext report <> []));
    destruct (bool_decide (Report.outcome report = py "rerun"));
    cbn [negb app]; by rewrite ?app_nil_r.
Qed.

(** C5 as stated fails: the first entry is not the escaped
    traceback itself, a newline follows it. *)
Lemma process_logs_traceback_newline :
  _process_logs Plain.traceback_report = [py "assert 1 &lt; 0" ++ nl]
  /\ spec_process_logs Plain.traceback_report = [py "assert 1 &lt; 0"]
  /\ _process_logs Plain.traceback_report
     <> spec_process_logs Plain.traceback_report.
Proof. by vm_compute. Qed.

(** The banner is at least 80 columns wide and holds the header between
    two runs of dashes that differ by at most one dash. *)
Lemma format_center_length (fill : N) (width : nat) (s : list N) :
  length (format_center fill width s) = max width (length s).
Proof.
  unfold format_center. rewrite !length_app, !length_replicate.
  pose proof (Nat.div_mod (width - length s) 2 ltac:(lia)).
  pose proof (Nat.mod_upper_bound (width - length s) 2 ltac:(lia)). lia.
Qed.

Lemma format_center_shape (fill : N) (width : nat) (s : list N) :
  exists left right,
    format_center fill width s
    = replicate left fill ++ s ++ replicate right fill
    /\ (left <= right <= left + 1)%nat.
Proof.
  unfold format_center. eexists _, _. split; [done|].
  pose proof (Nat.div_mod (width - length s) 2 ltac:(lia)).
  pose proof (Nat.mod_upper_bound (width - length s) 2 ltac:(lia)). lia.
Qed.

Example process_logs_sections :
  _process_logs
    (Report.mk (py "test_a.py::test_b") (py "call") (py "passed")
       (S754_zero false) []
       [(py "Captured log call", py "x"); (py "Captured stdout", py "y");
        (py "Captured log setup", py "z")]
       None None None None)
  = [replicate 30 45%N ++ py " Captured log call " ++ replicate 31 45%N
       ++ nl ++ py "x"; []; [];
     replicate 31 45%N ++ py " Captured stdout " ++ replicate 32 45%N
       ++ nl ++ py "y";
     replicate 30 45%N ++ py " Captured log setup " ++ replicate 30 45%N
       ++ nl ++ py "z"; []].
Proof. by vm_compute. Qed.

Example process_logs_rerun :
  _process_logs
    (Report.mk (py "test_a.py::test_b") (py "call") (py "rerun")
       (S754_zero false) [] [(py "Captured stdout", py "y")]
       None None None None)
  = [py "No log output captured."].
Proof. by vm_compute. Qed.

(** ** The asset file name *)

(** C10. A report whose [rerun] attribute is -1 gets the test index 0, as
    a report without the attribute does: [rerun + 1] is 0 and counts as
    false in the and/or chain; for [rerun >= 0] the index is
    [rerun + 1]. *)
Theorem test_index_rerun (report : Report.t) (rerun : Z) :
  (Report.rerun report = None -> test_index report = 0)
  /\ (Report.rerun report = Some (-1) -> test_index report = 0)
  /\ (Report.rerun report = Some rerun -> 0 <= rerun ->
      test_index report = rerun + 1).
Proof.
  unfold test_index. repeat split.
  - by intros ->.
  - by intros ->.
  - intros -> Hr. destruct (Z.eqb_spec (rerun + 1) 0); lia.
Qed.

Lemma test_index_rerun_witness :
  Report.rerun Plain.rerun_report = Some 2 /\ 0 <= 2
  /\ test_index Plain.rerun_report = 2 + 1.
Proof.
  split; [reflexivity|]. split; [lia|].
  apply (test_index_rerun Plain.rerun_report 2); [reflexivity|lia].
Defined.

Section AssetFilename.
Context `{PyLib}.

Lemma slice_from_trailing (n : Z) (s : list N) :
  1 <= n -> slice_from (- n) s = trailing n s.
Proof.
  intros Hn. unfold slice_from, trailing.
  destruct (Z.ltb_spec (- n) 0); [|lia]. f_equal. lia.
Qed.

Lemma slice_from_zero (s : list N) : slice_from (- 0) s = s.
Proof. unfold slice_from. simpl Z.opp. simpl. by rewrite Z.min_l by lia. Qed.

Lemma trailing_length (n : Z) (s : list N) :
  0 <= n -> length (trailing n s) = min (Z.to_nat n) (length s).
Proof. intros Hn. unfold trailing. rewrite length_drop. lia. Qed.

Lemma trailing_suffix (n : Z) (s : list N) : trailing n s `suffix_of` s.
Proof. apply suffix_drop. Qed.

(** For a maximum length of at least one the name is the full name cut
    down to its trailing characters. *)
Lemma asset_filename_trailing (config : Config) (test_id : list N)
    (extra_index test_index : Z) (file_extension : list N) :
  1 <= max_asset_filename_length config ->
  _asset_filename config test_id extra_index test_index (Some file_extension)
  = spec_asset_filename config test_id extra_index test_index file_extension.
Proof.
  intros Hn. unfold _asset_filename, spec_asset_filename.
  by rewrite slice_from_trailing.
Qed.

(** With a maximum length of zero nothing is cut off. *)
Lemma asset_filename_untruncated (config : Config) (test_id : list N)
    (extra_index test_index : Z) (file_extension : list N) :
  max_asset_filename_length config = 0 ->
  _asset_filename config test_id extra_index test_index (Some file_extension)
  = sanitize test_id ++ py "_" ++ str_of_int extra_index ++ py "_"
      ++ str_of_int test_index ++ py "." ++ file_extension.
Proof.
  intros Hn. unfold _asset_filename. rewrite Hn. apply slice_from_zero.
Qed.

Lemma sanitize_length (test_id : list N) :
  length (sanitize test_id) = length test_id.
Proof. unfold sanitize. by rewrite length_fmap. Qed.

Lemma sanitize_chars (test_id : list N) :
  Forall2 (fun c c' => if is_word c || (c =? 46)%N then c' = c else c' = 95%N)
    test_id (sanitize test_id).
Proof.
  unfold sanitize. induction test_id as [|c s IH]; [constructor|].
  rewrite fmap_cons. constructor; [|done]. by destruct (_ || _).
Qed.

End AssetFilename.

Section AssetFilenameExamples.
Import Plain.

(** C4, at a maximum length of zero. The slice [[-0:]] keeps the whole
    name, where the specification keeps its trailing zero characters. *)
Theorem asset_filename_zero_length :
  _asset_filename zero_length_config (py "a") 0 0 (Some (py "png"))
  = py "a_0_0.png"
  /\ spec_asset_filename zero_length_config (py "a") 0 0 (py "png") = []
  /\ _asset_filename zero_length_config (py "a") 0 0 (Some (py "png"))
     <> spec_asset_filename zero_length_config (py "a") 0 0 (py "png").
Proof. by vm_compute. Qed.

(** A negative maximum length drops leading characters instead. *)
Example asset_filename_negative_length :
  _asset_filename (mkConfig (-2) [] ∅) (py "a") 0 0 (Some (py "png"))
  = py "0_0.png".
Proof. by vm_compute. Qed.

Example asset_filename_spec_example :
  _asset_filename (mkConfig 255 [] ∅) (py "tests/test_x.py::test_y[a/b]")
    0 0 (Some (py "png"))
  = py "tests_test_x.py__test_y_a_b__0_0.png".
Proof. by vm_compute. Qed.

Example asset_filename_truncated :
  _asset_filename (mkConfig 12 [] ∅) (py "tests/test_x.py::test_y[a/b]")
    0 0 (Some (py "png"))
  = py "a_b__0_0.png".
Proof. by vm_compute. Qed.

End AssetFilenameExamples.

(** ** Regular expressions *)

Lemma matches_void_inv s : ~ matches Void s.
Proof. inversion 1. Qed.

Lemma matches_eps_inv s : matches Eps s -> s = [].
Proof. by inversion 1. Qed.

Lemma matches_chr_inv c s : matches (Chr c) s -> s = [c].
Proof. by inversion 1. Qed.

Lemma matches_dot_inv s : matches Dot s -> exists c, s = [c] /\ c <> 10%N.
Proof. inversion 1; subst. by eexists. Qed.

Lemma matches_alt_inv r1 r2 s :
  matches (Alt r1 r2) s -> matches r1 s \/ matches r2 s.
Proof. inversion 1; subst; [by left|by right]. Qed.

Lemma matches_seq_inv r1 r2 s :
  matches (Seq r1 r2) s ->
  exists s1 s2, s = s1 ++ s2 /\ matches r1 s1 /\ matches r2 s2.
Proof. inversion 1; subst. by eexists _, _. Qed.

Lemma nullable_spec r : nullable r = true <-> matches r [].
Proof.
  induction r as [| |c| |r1 IH1 r2 IH2|r1 IH1 r2 IH2|r IH]; simpl.
  - split; [done|]. by intros ?%matches_void_inv.
  - split; [constructor|done].
  - split; [done|]. by intros ?%matches_chr_inv.
  - split; [done|]. by intros (c & ? & _)%matches_dot_inv.
  - rewrite orb_true_iff, IH1, IH2. split.
    + intros [?|?]; [by apply matches_alt_l|by apply matches_alt_r].
    + apply matches_alt_inv.
  - rewrite andb_true_iff, IH1, IH2. split.
    + intros [? ?]. by apply (matches_seq r1 r2 [] []).
    + intros (s1 & s2 & Hs & ? & ?)%matches_seq_inv.
      symmetry in Hs. apply app_eq_nil in Hs as [-> ->]. done.
  - split; [constructor|done].
Qed.

(** A non-empty match of a star starts with a non-empty match of its
    body. *)
Lemma matches_star_cons_inv r c s :
  matches (Star r) (c :: s) ->
  exists s1 s2, s = s1 ++ s2 /\ matches r (c :: s1) /\ matches (Star r) s2.
Proof.
  intros Hm. remember (Star r) as r' eqn:Er. remember (c :: s) as s' eqn:Es.
  revert s Er Es.
  induction Hm as [| | | | | | |r0 s1 s2 H1 _ H2 IH2];
    intros t Er Es; try discriminate.
  injection Er as ->.
  destruct s1 as [|c1 s1]; simpl in Es.
  - by apply IH2.
  - injection Es as -> <-. by exists s1, s2.
Qed.

Lemma deriv_spec c r s : matches (deriv c r) s <-> matches r (c :: s).
Proof.
  revert s.
  induction r as [| |c'| |r1 IH1 r2 IH2|r1 IH1 r2 IH2|r IH]; intros s; simpl.
  - split; by intros ?%matches_void_inv.
  - split; [by intros ?%matches_void_inv|by intros ?%matches_eps_inv].
  - destruct (N.eqb_spec c c') as [->|Hne].
    + split; [intros ->%matches_eps_inv; constructor|].
      intros [= ->]%matches_chr_inv. constructor.
    + split; [by intros ?%matches_void_inv|].
      by intros [= ?]%matches_chr_inv.
  - destruct (N.eqb_spec c 10) as [->|Hne].
    + split; [by intros ?%matches_void_inv|].
      by intros (c' & [= <- _] & ?)%matches_dot_inv.
    + split; [intros ->%matches_eps_inv; by constructor|].
      intros (c' & [= <- ->] & _)%matches_dot_inv. constructor.
  - split.
    + intros [?%IH1|?%IH2]%matches_alt_inv;
        [by apply matches_alt_l|by apply matches_alt_r].
    + intros [?%IH1|?%IH2]%matches_alt_inv;
        [by apply matches_alt_l|by apply matches_alt_r].
  - assert (forall s, matches (Seq (deriv c r1) r2) s ->
                      matches (Seq r1 r2) (c :: s)) as Hfwd.
    { intros s' (s1 & s2 & -> & ?%IH1 & ?)%matches_seq_inv.
      by apply (matches_seq r1 r2 (c :: s1) s2). }
    destruct (nullable r1) eqn:Hn.
    + split.
      * intros [?|?%IH2]%matches_alt_inv; [by apply Hfwd|].
        apply (matches_seq r1 r2 [] (c :: s)); [by apply nullable_spec|done].
      * intros (s1 & s2 & Hs & H1 & H2)%matches_seq_inv.
        destruct s1 as [|c1 s1]; simpl in Hs.
        -- subst s2. apply matches_alt_r. by apply IH2.
        -- injection Hs as -> ->. apply matches_alt_l.
           apply matches_seq; [by apply IH1|done].
    + split; [apply Hfwd|].
      intros (s1 & s2 & Hs & H1 & H2)%matches_seq_inv.
      destruct s1 as [|c1 s1]; simpl in Hs.
      * apply nullable_spec in H1. congruence.
      * injection Hs as -> ->. apply matches_seq; [by apply IH1|done].
  - split.
    + intros (s1 & s2 & -> & ?%IH & ?)%matches_seq_inv.
      by apply (matches_star_cons r (c :: s1) s2).
    + intros (s1 & s2 & -> & ? & ?)%matches_star_cons_inv.
      apply matches_seq; [by apply IH|done].
Qed.

(** [re.match] succeeds exactly when the pattern matches a prefix of the
    string: the match is anchored at the start and need not reach the
    end. *)
Lemma re_match_spec r s : re_match r s = true <-> matches_at_start r s.
Proof.
  unfold matches_at_start. revert r.
  induction s as [|c s IH]; intros r; simpl.
  - rewrite orb_false_r, nullable_spec. split.
    + intros ?. by exists [], [].
    + intros (p & q & Hs & ?). symmetry in Hs.
      apply app_eq_nil in Hs as [-> _]. done.
  - rewrite orb_true_iff, nullable_spec, IH. split.
    + intros [?|(p & q & -> & ?%deriv_spec)].
      * by exists [], (c :: s).
      * by exists (c :: p), q.
    + intros (p & q & Hs & Hm). destruct p as [|c' p]; [by left|].
      injection Hs as <- ->. right. exists p, q. by rewrite deriv_spec.
Qed.

Lemma literal_matches s : matches (literal s) s.
Proof.
  induction s as [|c s IH]; simpl; [constructor|].
  apply (matches_seq (Chr c) (literal s) [c] s); [constructor|done].
Qed.

(** ** The environment redactor *)

Lemma any_match_spec regexes key :
  any_match regexes key = true
  <-> Exists (fun r => matches_at_start r key) regexes.
Proof.
  induction regexes as [|r regexes IH]; simpl.
  - split; [done|]. by intros ?%Exists_nil.
  - rewrite Exists_cons, <- IH, <- re_match_spec.
    destruct (re_match r key).
    + split; [by left|done].
    + split; [by right|]. by intros [?|?].
Qed.

Lemma mask_replicate (s : list N) :
  (fun _ => black_box_ascii_value) <$> s
  = replicate (length s) black_box_ascii_value.
Proof. induction s as [|c s IH]; [done|]. simpl. by rewrite <- IH. Qed.

Section Redactor.
Variable config : Config.

(** What the loop of [_generate_environment] does for one key. *)
Let step (metadata : gmap (list N) value) (key : list N) :=
  match metadata !! key with
  | Some value =>
      if _is_redactable_environment_variable config key
      then <[key := VStr ((fun _ => black_box_ascii_value) <$> py_str value)]>
             metadata
      else metadata
  | None => metadata
  end.

Let redact (key : list N) (v : value) : value :=
  if _is_redactable_environment_variable config key then masked v else v.

Lemma step_lookup metadata key k :
  step metadata key !! k
  = if decide (k = key) then redact key <$> metadata !! key
    else metadata !! k.
Proof.
  unfold step, redact, masked.
  destruct (metadata !! key) as [v|] eqn:Hv.
  - destruct (_is_redactable_environment_variable config key).
    + destruct (decide (k = key)) as [->|Hne].
      * by rewrite lookup_insert_eq, mask_replicate.
      * by rewrite lookup_insert_ne.
    + destruct (decide (k = key)) as [->|Hne]; [by rewrite Hv|done].
  - destruct (decide (k = key)) as [->|Hne]; [by rewrite Hv|done].
Qed.

Lemma foldl_step_lookup keys metadata k :
  NoDup keys ->
  foldl step metadata keys !! k
  = if decide (k ∈ keys) then redact k <$> metadata !! k else metadata !! k.
Proof.
  intros Hnd. revert metadata.
  induction Hnd as [|key keys Hnotin Hnd IH]; intros metadata; simpl.
  - destruct (decide (k ∈ [])) as [Hin|]; [|done].
    by apply elem_of_nil in Hin.
  - rewrite IH, step_lookup.
    destruct (decide (k = key)) as [->|Hne].
    + destruct (decide (key ∈ keys)); [done|].
      destruct (decide (key ∈ key :: keys)) as [|Hnin]; [done|].
      destruct Hnin. apply list_elem_of_here.
    + destruct (decide (k ∈ keys)) as [Hin|Hnin];
        destruct (decide (k ∈ key :: keys)) as [Hin'|Hnin']; try done.
      * destruct Hnin'. by apply list_elem_of_further.
      * by apply elem_of_cons in Hin' as [?|?].
Qed.

Lemma generate_environment_lookup k :
  _generate_environment config !! k
  = redact k <$> stash_metadata config !! k.
Proof.
  unfold _generate_environment. fold step.
  rewrite foldl_step_lookup by apply NoDup_fst_map_to_list.
  destruct (decide (k ∈ (map_to_list (stash_metadata config)).*1))
    as [Hin|Hnin]; [done|].
  destruct (stash_metadata config !! k) as [v|] eqn:Hv; [|done].
  exfalso. apply Hnin. apply list_elem_of_fmap.
  exists (k, v). split; [done|]. by apply elem_of_map_to_list.
Qed.

End Redactor.

(** C3. The environment redactor replaces the value of every key that
    some redaction pattern matches, anchored at the start of the key, by
    the masking glyph repeated once per character of the value's string
    form, so that the length is kept; the value of a key that no pattern
    matches stays as it is. *)
Theorem generate_environment_redacts (config : Config) (key : list N) :
  (Exists (fun r => matches_at_start r key)
     (environment_table_redact_list config) ->
   _generate_environment config !! key
   = masked <$> stash_metadata config !! key)
  /\ (Forall (fun r => ~ matches_at_start r key)
        (environment_table_redact_list config) ->
      _generate_environment config !! key = stash_metadata config !! key)
  /\ (forall v,
         py_str (masked v)
         = replicate (length (py_str v)) black_box_ascii_value
         /\ length (py_str (masked v)) = length (py_str v)).
Proof.
  rewrite generate_environment_lookup.
  unfold _is_redactable_environment_variable.
  repeat split.
  - intros Hex%any_match_spec. by rewrite Hex.
  - intros Hall. destruct (any_match _ key) eqn:Hany.
    + apply any_match_spec, Exists_exists in Hany as (r & Hin & Hm).
      rewrite Forall_forall in Hall. by destruct (Hall r Hin).
    + by destruct (stash_metadata config !! key).
  - simpl. by rewrite length_replicate.
Qed.

Lemma generate_environment_redacts_witness :
  Exists (fun r => matches_at_start r (py "SECRET_KEY"))
    (environment_table_redact_list Plain.secret_config)
  /\ _generate_environment Plain.secret_config !! py "SECRET_KEY"
     = masked <$> stash_metadata Plain.secret_config !! py "SECRET_KEY".
Proof.
  assert (Exists (fun r => matches_at_start r (py "SECRET_KEY"))
            (environment_table_redact_list Plain.secret_config)) as Hex.
  { apply any_match_spec. vm_compute. reflexivity. }
  split; [exact Hex|].
  exact (proj1 (generate_environment_redacts Plain.secret_config (py "SECRET_KEY")) Hex).
Defined.

Example generate_environment_secret :
  _generate_environment Plain.secret_config !! py "SECRET_KEY"
  = Some (VStr (replicate 6 black_box_ascii_value))
  /\ _generate_environment Plain.secret_config !! py "PATH"
     = Some (VObj (py "/usr/bin")).
Proof. by vm_compute. Qed.

Example re_match_is_anchored :
  re_match (literal (py "SECRET")) (py "SECRET_KEY") = true
  /\ re_match (literal (py "SECRET")) (py "MY_SECRET") = false
  /\ re_match (Seq (literal (py "SECRET")) (Star Dot)) (py "SECRET_KEY") = true.
Proof. by vm_compute. Qed.

(** ** Handlers *)

Lemma with_trace_id (w : World) : with_trace (trace w) w = w.
Proof. by destruct w. Qed.

Lemma warns_only_refl w : warns_only w w.
Proof. exists []. simpl. by rewrite app_nil_r, with_trace_id. Qed.

Lemma warns_only_trans w1 w2 w3 :
  warns_only w1 w2 -> warns_only w2 w3 -> warns_only w1 w3.
Proof.
  intros [m1 ->] [m2 ->]. exists (m1 ++ m2).
  simpl. by rewrite fmap_app, app_assoc.
Qed.

Lemma fix_py_cell_spec (html : cell) (w : World) :
  exists out, (_fix_py_cell html w).1 = Ok out
              /\ warns_only w (_fix_py_cell html w).2.
Proof.
  destruct html as [html|module_name text];
    unfold _fix_py_cell, mbind, M_bind, mret, M_ret.
  - eexists. split; [reflexivity|apply warns_only_refl].
  - destruct (startswith (py "py.") module_name).
    + eexists. split; [reflexivity|]. by eexists [_].
    + eexists. split; [reflexivity|apply warns_only_refl].
Qed.

(** [_fix_py] returns, and only warns. *)
Lemma fix_py_spec (cells : list cell) (w : World) :
  exists out, (_fix_py cells w).1 = Ok out /\ warns_only w (_fix_py cells w).2.
Proof.
  revert w. induction cells as [|html cells IH]; intros w;
    cbn [_fix_py]; unfold mbind, M_bind, mret, M_ret.
  - eexists. split; [reflexivity|apply warns_only_refl].
  - destruct (fix_py_cell_spec html w) as (out1 & Ho1 & Hw1).
    destruct (_fix_py_cell html w) as [r1 w1]. simpl in Ho1, Hw1. subst r1.
    destruct (IH w1) as (out2 & Ho2 & Hw2).
    destruct (_fix_py cells w1) as [r2 w2]. simpl in Ho2, Hw2. subst r2.
    simpl. eexists. split; [reflexivity|]. by eapply warns_only_trans.
Qed.

(** Follow a handler through the calls that can raise. *)
Ltac case_lifts :=
  repeat (cbn [fst snd data trace with_trace with_data
                 totalDuration_total set_totalDuration_total
                 set_totalDuration_formatted];
          match goal with
          | |- context [_format_duration ?d] => destruct (_format_duration d)
          | |- context [_process_extras ?c ?r ?t] =>
              destruct (_process_extras c r t)
          end).

Section Handlers.
Context `{PyLib} `{Sinks} `{Hooks} `{DataModel} `{Template}.

Lemma logreport_cells_frame (report : Report.t) (w : World) :
  totals_and_warnings w (logreport_cells report w).2.
Proof.
  unfold totals_and_warnings, logreport_cells, mbind, M_bind, mret, M_ret,
    lift, update_data, get_data, get_config, warn, emit.
  destruct (Report.duration_formatter report); case_lifts;
    cbn; repeat split;
    first [by eexists [_] | exists []; by rewrite app_nil_r].
Qed.

(** The total after the handler: the duration has been added, unless
    formatting it raised. *)
Lemma logreport_cells_total (report : Report.t) (w : World) :
  totalDuration_total (data (logreport_cells report w).2)
  = match _format_duration (Report.duration report) with
    | Ok _ => Float.add (totalDuration_total (data w))
                (Report.duration report)
    | Raise _ => totalDuration_total (data w)
    end.
Proof.
  unfold logreport_cells, mbind, M_bind, mret, M_ret,
    lift, update_data, get_data, get_config, warn, emit.
  destruct (Report.duration_formatter report); case_lifts; reflexivity.
Qed.

(** And the text of the total is the new total, formatted. *)
Lemma logreport_cells_formatted (report : Report.t) (w : World)
    (duration formatted : list N) :
  _format_duration (Report.duration report) = Ok duration ->
  _format_duration
    (Float.add (totalDuration_total (data w)) (Report.duration report))
  = Ok formatted ->
  totalDuration_formatted (data (logreport_cells report w).2) = formatted.
Proof.
  intros Hd Hf.
  unfold logreport_cells, mbind, M_bind, mret, M_ret,
    lift, update_data, get_data, get_config, warn, emit.
  destruct (Report.duration_formatter report);
    cbn [fst snd data trace with_trace with_data
           totalDuration_total set_totalDuration_total];
    rewrite Hd; cbn [fst snd data trace with_trace with_data
                       totalDuration_total set_totalDuration_total];
    rewrite Hf; case_lifts; reflexivity.
Qed.

(** C6. When the row hook clears the cells of a per-test report, the
    handler returns at once: it adds no row to the report data, renders
    nothing and leaves the report file as it is; it has issued nothing
    but warnings. *)
Theorem row_suppressed (report report' : Report.t) (row : RowData.t)
    (cells : list cell) (w w1 : World) :
  logreport_cells report w = (Ok (report', row, cells), w1) ->
  pytest_html_results_table_row report' cells = [] ->
  pytest_runtest_logreport report w = (Ok tt, w1)
  /\ tests (data w1) = tests (data w)
  /\ report_file w1 = report_file w
  /\ exists messages, trace w1 = trace w ++ (Warned <$> messages).
Proof.
  intros Hcells Hhook.
  pose proof (logreport_cells_frame report w) as Hframe.
  rewrite Hcells in Hframe.
  destruct Hframe as (_ & _ & Hfile & _ & Htests & _ & _ & Htrace).
  split; [|done].
  unfold pytest_runtest_logreport, mbind, M_bind, mret, M_ret.
  by rewrite Hcells, Hhook.
Qed.

(** After the row hook the handler changes the rows of the report data
    and nothing else of it. *)
Lemma logreport_data (report : Report.t) (w : World) :
  exists rows,
    data (pytest_runtest_logreport report w).2
    = set_tests rows (data (logreport_cells report w).2).
Proof.
  assert (forall d, set_tests (tests d) d = d) as Hid by (by intros []).
  unfold pytest_runtest_logreport, mbind, M_bind, mret, M_ret.
  destruct (logreport_cells report w) as [[[[report' row] cells]|e] w1];
    cbn [snd]; [|by exists (tests (data w1))].
  destruct (pytest_html_results_table_row report' cells) as [|c cells'];
    [by exists (tests (data w1))|].
  destruct (fix_py_spec (c :: cells') w1) as (fixed & Hfixed & [messages Hw]).
  destruct (_fix_py (c :: cells') w1) as [r w2].
  cbn [fst snd] in Hfixed, Hw. subst r w2.
  unfold get_data, update_data, emit, _generate_report, datetime_now,
    _write_report, mbind, M_bind.
  cbn [fst snd data trace with_trace with_data].
  destruct (add_test _ _ _ _) as [[] rows]; cbn; by exists rows.
Qed.

Lemma sessionstart_data (w : World) :
  exists metadata title' header,
    data (pytest_sessionstart w).2
    = set_runningState Started
        (set_resultsTableHeader header
           (set_title title' (set_environment metadata (data w)))).
Proof.
  unfold pytest_sessionstart, mbind, M_bind, mret, M_ret,
    get_config, get_data, update_data.
  cbn [fst snd data trace with_trace with_data with_config].
  set (w' := with_data _ (with_data _ (with_config _ w))).
  destruct (fix_py_spec
              (pytest_html_results_table_header
                 (CellStr <$> resultsTableHeader (data w'))) w')
    as (fixed & Hfixed & [messages Hw]).
  destruct (_fix_py _ w') as [r w2].
  cbn [fst snd] in Hfixed, Hw. subst r w2.
  unfold _generate_report, datetime_now, get_data, emit, _write_report,
    mbind, M_bind.
  cbn. by eexists _, _, _.
Qed.

Lemma sessionfinish_data (w : World) :
  exists summary,
    data (pytest_sessionfinish w).2
    = set_runningState Finished (set_additionalSummary summary (data w)).
Proof.
  unfold pytest_sessionfinish, _generate_report, datetime_now, get_data,
    update_data, emit, _write_report, mbind, M_bind.
  cbn. by eexists.
Qed.

(** *** The running state *)

Lemma deliver_running_state (now : Z) (ev : Event) (w : World) :
  runningState (data (deliver now ev w))
  = match ev with
    | SessionStart => Started
    | SessionFinish => Finished
    | _ => runningState (data w)
    end.
Proof.
  unfold deliver. destruct ev as [|items|report| |]; cbn [handle].
  - by destruct (sessionstart_data (with_clock now w)) as (? & ? & ? & ->).
  - done.
  - destruct (logreport_data report (with_clock now w)) as [rows ->].
    cbn [runningState set_tests].
    by destruct (logreport_cells_frame report (with_clock now w))
      as (_ & _ & _ & _ & _ & -> & _).
  - by destruct (sessionfinish_data (with_clock now w)) as (? & ->).
  - done.
Qed.

Lemma run_app (events1 events2 : list (Z * Event)) (w : World) :
  run (events1 ++ events2) w
  = run events1 w ++ run events2 (run_final events1 w).
Proof.
  revert w. induction events1 as [|[now ev] events1 IH]; intros w; [done|].
  cbn [app run run_final foldl fst snd]. by rewrite IH.
Qed.

(** Events that leave the running state alone leave it alone together. *)
Lemma run_running_state_const (events : list (Z * Event)) (w : World) :
  Forall (fun ev => ev.2 <> SessionStart /\ ev.2 <> SessionFinish) events ->
  (fun w' => runningState (data w')) <$> run events w
  = replicate (length events) (runningState (data w))
  /\ runningState (data (run_final events w)) = runningState (data w).
Proof.
  intros Hall. revert w.
  induction Hall as [|[now ev] events [Hs Hf] _ IH]; intros w; [done|].
  cbn [run run_final foldl fst snd length replicate]. rewrite fmap_cons.
  assert (runningState (data (deliver now ev w)) = runningState (data w))
    as Hstep.
  { rewrite deliver_running_state. simpl in Hs, Hf. by destruct ev. }
  destruct (IH (deliver now ev w)) as [-> Hlast].
  unfold run_final in Hlast. by rewrite Hlast, Hstep.
Qed.

(** C8. Under the order of the lifecycle, session start, then the
    events of the tests, then session finish, the running state goes
    from [NotStarted] to [Started] at session start, stays there during
    the tests, goes to [Finished] at session finish and stays there:
    these are its only two transitions, each taken once. *)
Theorem running_state_lifecycle (events middle tail : list (Z * Event))
    (w : World) :
  lifecycle events middle tail ->
  runningState (data w) = NotStarted ->
  (fun w' => runningState (data w')) <$> run events w
  = Started :: replicate (length middle) Started
      ++ Finished :: replicate (length tail) Finished.
Proof.
  intros (start & finish & -> & Hmiddle & Htail) Hw.
  cbn [run]. rewrite fmap_cons, deliver_running_state. f_equal.
  rewrite run_app, fmap_app. cbn [run]. rewrite fmap_cons.
  set (w1 := deliver start SessionStart w).
  assert (runningState (data w1) = Started) as Hw1
    by apply deliver_running_state.
  destruct (run_running_state_const middle w1) as [-> Hlast].
  { eapply Forall_impl; [exact Hmiddle|].
    intros [now ev]; simpl. by destruct ev. }
  rewrite Hw1. f_equal.
  set (w2 := deliver finish SessionFinish (run_final middle w1)).
  assert (runningState (data w2) = Finished) as Hw2
    by apply deliver_running_state.
  rewrite Hw2. f_equal.
  destruct (run_running_state_const tail w2) as [-> _].
  { eapply Forall_impl; [exact Htail|].
    intros [now ev]; simpl. by intros ->. }
  by rewrite Hw2.
Qed.

(** Outside that order nothing keeps the state from going back: a
    session start always sets it to [Started]. *)
Lemma running_state_restart (now : Z) (w : World) :
  runningState (data w) = Finished ->
  runningState (data (deliver now SessionStart w)) = Started.
Proof. intros _. apply deliver_running_state. Qed.

(** *** The total duration *)





End Handlers.

Lemma ok_inv {A : Type} (m : M A) (w : World) :
  is_ok (m w).1 = true -> exists a, m w = (Ok a, (m w).2).
Proof. destruct (m w) as [[a|e] w']; [by exists a|done]. Qed.

(** ** A session without plugins *)

Section Session.
Import Plain.

Lemma row_suppressed_witness :
  is_ok (logreport_cells half_second_report initial_world).1 = true
  /\ @pytest_runtest_logreport pylib sinks clearing_hooks data_model template
       half_second_report initial_world
     = (Ok tt, (logreport_cells half_second_report initial_world).2)
  /\ tests (data (logreport_cells half_second_report initial_world).2)
     = tests (data initial_world)
  /\ report_file (logreport_cells half_second_report initial_world).2
     = report_file initial_world
  /\ exists messages,
      trace (logreport_cells half_second_report initial_world).2
      = trace initial_world ++ (Warned <$> messages).
Proof.
  assert (is_ok (logreport_cells half_second_report initial_world).1 = true)
    as Hok by (by vm_compute).
  split; [exact Hok|].
  destruct (ok_inv _ _ Hok) as [[[report' row] cells] Hcells].
  exact (@row_suppressed pylib sinks clearing_hooks data_model template
           half_second_report report' row cells initial_world _ Hcells eq_refl).
Defined.

(** Without the clearing hook the same report adds a row and the report
    is rendered and written. *)
Example row_reported :
  length (tests (data (pytest_runtest_logreport half_second_report
                         initial_world).2)) = 1%nat
  /\ exists html,
      report_file (pytest_runtest_logreport half_second_report
                     initial_world).2 = Some html
      /\ trace (pytest_runtest_logreport half_second_report initial_world).2
         = [TestAdded true; Rendered html; Written html].
Proof. split; [by vm_compute|]. eexists. by vm_compute. Qed.


Lemma running_state_lifecycle_witness :
  lifecycle two_tests (take 3 (drop 1 two_tests)) (drop 5 two_tests)
  /\ runningState (data initial_world) = NotStarted
  /\ (fun w' => runningState (data w')) <$> run two_tests initial_world
     = [Started; Started; Started; Started; Finished; Finished].
Proof.
  assert (lifecycle two_tests (take 3 (drop 1 two_tests)) (drop 5 two_tests))
    as Hlife.
  { exists 0, 4. split; [reflexivity|]. split.
    - repeat (constructor; [exact I|]). constructor.
    - repeat (constructor; [reflexivity|]). constructor. }
  split; [exact Hlife|]. split; [reflexivity|].
  exact (running_state_lifecycle two_tests _ _ initial_world Hlife eq_refl).
Defined.

(** The session of the specification: two rows, the first passed in
    500 ms, the second failed after 00:01:05 and links to its attached
    text; the total is 65.5 s. *)
Example session_two_tests :
  (fun row => (RowData.result (row_data row), RowData.duration (row_data row)))
    <$> tests (data (run_final two_tests initial_world))
  = [(py "Passed", py "500 ms"); (py "Failed", py "00:01:05")]
  /\ (fun row => RowData.resultsTableRow (row_data row) !! 3%nat)
       <$> tests (data (run_final two_tests initial_world))
     = [Some (py "<td class=" ++ dq ++ py "col-links" ++ dq ++ py "></td>");
        Some (py "<td class=" ++ dq ++ py "col-links" ++ dq ++ py ">"
                ++ py "<a target=" ++ dq ++ py "_blank" ++ dq ++ py " href="
                ++ dq ++ py "assets/test_a.py__test_fail_0_0.txt" ++ dq
                ++ py " class=" ++ dq ++ py "col-links__extra text" ++ dq
                ++ py ">log.txt</a></td>")]
  /\ totalDuration_formatted (data (run_final two_tests initial_world))
     = py "00:01:06"
  /\ runningState (data (run_final two_tests initial_world)) = Finished
  /\ collectedItems (data (run_final two_tests initial_world)) = 2.
Proof. by vm_compute. Qed.

End Session.

(** * Edge cases and invariants

    What the code does at the borders of its input, what it keeps, and
    how its operations compose. *)

(** ** The duration formatter, field by field *)

Section DurationFields.
Import Float.
#[local] Abbreviation fexp := (SpecFloat.fexp prec emax).

Lemma pow2_pos n : 0 <= n -> 0 < 2 ^ n.
Proof. intros. by apply Z.pow_pos_nonneg. Qed.

Lemma pow2_split a b : 0 <= a -> 0 <= b -> 2 ^ (a + b) = 2 ^ a * 2 ^ b.
Proof. intros. by rewrite Z.pow_add_r. Qed.

(** X1. A duration that is not finite makes the formatter fail: an
    infinite one, of either sign, with [OverflowError], and NaN with
    [ValueError], as [round] and [math.floor] do. *)
Theorem format_duration_not_finite (d : spec_float) :
  is_finite d = false ->
  _format_duration d
  = Raise (match d with S754_nan => ValueError | _ => OverflowError end).
Proof.
  destruct d as [s|[]| |s m e]; [discriminate| | | |discriminate];
    intros _; by vm_compute.
Qed.

Lemma format_duration_not_finite_witness :
  is_finite (S754_infinity true) = false
  /\ _format_duration (S754_infinity true) = Raise OverflowError.
Proof.
  split; [reflexivity|].
  exact (format_duration_not_finite (S754_infinity true) eq_refl).
Defined.

Lemma of_int_minus_2_1000 :
  of_int (- 2 ^ 1000) = S754_finite true 4503599627370496 948.
Proof. by vm_compute. Qed.

(** X2. A negative duration never reaches the [HH:MM:SS] branch: it is
    below one, so that it is printed as its rounded number of
    milliseconds, which is negative or zero, whatever its size (here
    down to [-2^1000], where the product by 1000 is still finite). *)
Theorem format_duration_negative (d : spec_float) :
  valid d = true -> is_finite d = true -> sign d = true ->
  leb (of_int (- 2 ^ 1000)) d = true ->
  _format_duration d
  = Ok (str_of_int (nearest (mul d (of_int 1000))) ++ py " ms")
  /\ nearest (mul d (of_int 1000)) <= 0.
Proof.
  intros Hv Hf Hs Hlo. unfold _format_duration.
  set (one := of_int 1). rewrite of_int_1000. subst one. rewrite of_int_1.
  destruct d as [s|s| |s m e]; [|discriminate Hf..|]; simpl in Hs; subst s.
  { split; [by vm_compute|done]. }
  assert (ltb (S754_finite true m e)
            (S754_finite false 4503599627370496 (-52)) = true) as -> by done.
  apply valid_finite_inv in Hv as (Hcan & Hle & Hdig & Hmin).
  assert (e <= 948) as He.
  { revert Hlo. rewrite of_int_minus_2_1000. unfold leb, SFleb, SFcompare.
    destruct (Z.compare_spec 948 e); [lia| |lia]. done. }
  assert (is_finite (mul (S754_finite true m e)
                       (S754_finite false 8796093022208000 (-43))) = true
          /\ sign (mul (S754_finite true m e)
                     (S754_finite false 8796093022208000 (-43))) = true)
    as [Hmf Hms].
  { unfold mul, SFmul. simpl xorb. rewrite Pos2Z.inj_mul.
    pose proof (Zdigits2_mul_le (Zpos m) 8796093022208000
                  ltac:(lia) ltac:(lia)) as Hd.
    change (Zdigits2 8796093022208000) with 53 in Hd.
    unfold emax, prec in *.
    split; [apply binary_round_aux_finite|apply binary_round_aux_sign];
      unfold emax, prec; lia. }
  rewrite round_finite by done. split; [reflexivity|].
  destruct (mul _ _) as [[]|[]| |[] m' e'];
    try discriminate Hmf; try discriminate Hms; [done|].
  simpl. pose proof (round_half_even_nonneg (Zpos m') e' ltac:(lia)). lia.
Qed.

Lemma format_duration_negative_witness :
  valid (of_ratio (-5) 10) = true /\ is_finite (of_ratio (-5) 10) = true
  /\ sign (of_ratio (-5) 10) = true
  /\ leb (of_int (- 2 ^ 1000)) (of_ratio (-5) 10) = true
  /\ _format_duration (of_ratio (-5) 10)
     = Ok (str_of_int (nearest (mul (of_ratio (-5) 10) (of_int 1000)))
             ++ py " ms").
Proof.
  split; [by vm_compute|]. split; [by vm_compute|]. split; [by vm_compute|].
  split; [by vm_compute|].
  apply (format_duration_negative (of_ratio (-5) 10)); by vm_compute.
Defined.

Example format_duration_negative_examples :
  _format_duration (of_ratio (-5) 10) = Ok (py "-500 ms")
  /\ _format_duration (of_ratio (-36614) 10) = Ok (py "-3661400 ms").
Proof. by vm_compute. Qed.

(** A float below one: its mantissa is below the power of two that its
    exponent divides by. *)
Lemma below_one_mantissa m e :
  valid (S754_finite false m e) = true ->
  ltb (S754_finite false m e) (of_int 1) = true ->
  e <= -52 /\ Zpos m < 2 ^ (- e).
Proof.
  intros (Hcan & Hle & Hdig & Hmin)%valid_finite_inv.
  rewrite of_int_1. unfold ltb, SFltb, SFcompare.
  pose proof (Zdigits2_bounds (Zpos m) ltac:(lia)) as [_ Hm].
  destruct (Z.compare_spec e (-52)) as [->|Hlt|Hgt]; [| |done].
  - destruct (Pos.compare_cont Eq m 4503599627370496) eqn:Hc;
      [discriminate|intros _|discriminate].
    split; [clear; lia|].
    change (2 ^ (- (-52))) with 4503599627370496. exact Hc.
  - intros _. split; [lia|].
    assert (2 ^ Zdigits2 (Zpos m) <= 2 ^ (- e))
      by (apply Z.pow_le_mono_r; unfold prec in *; lia).
    lia.
Qed.

(** A thousand times a float below one rounds to at most 1000. *)
Lemma mul_1000_nearest m e :
  e <= -52 -> Zpos m < 2 ^ (- e) ->
  nearest (mul (S754_finite false m e)
             (S754_finite false 8796093022208000 (-43))) <= 1000.
Proof.
  intros He Hm. unfold mul, SFmul. simpl xorb. rewrite Pos2Z.inj_mul.
  set (q := Z.pos m * 8796093022208000).
  set (E := e + -43).
  assert (0 < 2 ^ (- e)) as HP by (apply pow2_pos; lia).
  assert (0 <= q) as Hq0 by (unfold q; lia).
  assert (q < 1000 * 2 ^ (- E)) as Hq.
  { unfold q, E. replace (- (e + -43)) with (43 + - e) by lia.
    rewrite pow2_split by lia. change (2 ^ 43) with 8796093022208. nia. }
  destruct (binary_round_aux_spec false q E loc_Exact Hq0)
    as (m1 & Hb & _ & ->).
  rewrite !fexp_eq in *.
  set (e1 := Z.max E (Z.max (Zdigits2 q + E - 53) (-1074))) in *.
  assert (Zdigits2 q + E <= 10) as Hdq.
  { assert (Zdigits2 q <= 10 - E); [|lia].
    apply Zdigits2_lt_pow; [|unfold E; lia]. split; [done|].
    replace (10 - E) with (10 + - E) by lia.
    rewrite pow2_split by (unfold E; lia).
    change (2 ^ 10) with 1024.
    assert (0 < 2 ^ (- E)) by (apply pow2_pos; unfold E; lia). lia. }
  assert (E <= e1 <= -43) as He1 by (unfold e1, E in *; lia).
  set (t := e1 - E) in *. assert (0 <= t) as Ht by (unfold t; lia).
  assert (0 < 2 ^ t) as HT by (by apply pow2_pos).
  set (W := 2 ^ (- e1)).
  assert (0 < W) as HW by (apply pow2_pos; lia).
  assert (2 ^ (- E) = W * 2 ^ t) as HEW.
  { unfold W. rewrite <- pow2_split by lia. f_equal. unfold t. lia. }
  assert (0 <= q / 2 ^ t) as Hqt by (apply Z.div_pos; lia).
  assert (m1 <= 1000 * W) as Hm1.
  { assert (q / 2 ^ t < 1000 * W); [|lia].
    apply Z.div_lt_upper_bound; [done|]. rewrite HEW in Hq. nia. }
  set (e2 := Z.max e1 (Z.max (Zdigits2 m1 + e1 - 53) (-1074))).
  assert (e1 <= e2 <= -43) as He2.
  { assert (Zdigits2 m1 <= 10 - e1); [|unfold e2; lia].
    apply Zdigits2_lt_pow; [|lia]. split; [lia|].
    replace (10 - e1) with (10 + - e1) by lia.
    rewrite pow2_split by lia. fold W. change (2 ^ 10) with 1024. lia. }
  set (u := e2 - e1) in *. assert (0 <= u) as Hu by (unfold u; lia).
  assert (0 < 2 ^ u) as HU by (by apply pow2_pos).
  assert (2 ^ u * (m1 / 2 ^ u) <= m1) as HM by (apply Z.mul_div_le; lia).
  assert (0 <= m1 / 2 ^ u) as HM0 by (apply Z.div_pos; lia).
  destruct (m1 / 2 ^ u) as [|pM|pM] eqn:EM; simpl; [lia| |lia].
  destruct (Z.leb_spec e2 (emax - prec)); [|simpl; lia].
  unfold nearest, cond_Zopp.
  destruct (round_half_even_spec (Zpos pM) e2 ltac:(lia) ltac:(lia))
    as [Hn _].
  set (n := round_half_even (Z.pos pM) e2) in *.
  set (W2 := 2 ^ (- e2)) in *.
  assert (0 < W2) as HW2 by (apply pow2_pos; lia).
  assert (W = W2 * 2 ^ u) as HWW.
  { unfold W, W2. rewrite <- pow2_split by lia. f_equal. unfold u. lia. }
  rewrite HWW in Hm1.
  assert (Z.pos pM <= 1000 * W2) as HpM by nia.
  destruct (Z.le_gt_cases n 1000) as [|Hgt]; [done|exfalso].
  assert (1001 * W2 <= n * W2) by nia. lia.
Qed.

(** X3. Below one second the text is a number of milliseconds between 0
    and 1000: the product by 1000 is rounded twice, as a float and to an
    integer, and neither rounding takes it above 1000. *)
Theorem format_duration_milliseconds (d : spec_float) :
  valid d = true -> is_finite d = true -> nonneg d = true ->
  ltb d (of_int 1) = true ->
  _format_duration d
  = Ok (str_of_int (nearest (mul d (of_int 1000))) ++ py " ms")
  /\ 0 <= nearest (mul d (of_int 1000)) <= 1000.
Proof.
  intros Hv Hf Hn Hlt. unfold _format_duration. rewrite Hlt.
  rewrite of_int_1000.
  destruct (mul_finite d 8796093022208000 (-43) Hv Hf Hn Hlt) as [Hmf Hmn].
  { by vm_compute. }
  rewrite round_finite by done. split; [reflexivity|].
  split; [by apply nearest_nonneg|].
  destruct d as [s|s| |s m e];
    [by destruct s; vm_compute|discriminate Hf..|].
  destruct s; [discriminate Hn|].
  destruct (below_one_mantissa m e Hv Hlt). by apply mul_1000_nearest.
Qed.

Lemma format_duration_milliseconds_witness :
  valid (of_ratio 5 10) = true /\ is_finite (of_ratio 5 10) = true
  /\ nonneg (of_ratio 5 10) = true
  /\ ltb (of_ratio 5 10) (of_int 1) = true
  /\ _format_duration (of_ratio 5 10)
     = Ok (str_of_int (nearest (mul (of_ratio 5 10) (of_int 1000)))
             ++ py " ms").
Proof.
  split; [by vm_compute|]. split; [by vm_compute|]. split; [by vm_compute|].
  split; [by vm_compute|].
  apply (format_duration_milliseconds (of_ratio 5 10)); by vm_compute.
Defined.

(** The upper end is reached: a duration just below one second is
    printed as a thousand milliseconds. *)
Example format_duration_thousand_milliseconds :
  ltb (of_ratio 9999999 10000000) (of_int 1) = true
  /\ _format_duration (of_ratio 9999999 10000000) = Ok (py "1000 ms").
Proof. by vm_compute. Qed.

(** The remainder by a positive float lies below it. *)
Lemma fmod_below mx ex my ey :
  valid (S754_finite false mx ex) = true ->
  valid (S754_finite false my ey) = true ->
  fmod (S754_finite false mx ex) (S754_finite false my ey) = S754_zero false
  \/ exists m' e',
      fmod (S754_finite false mx ex) (S754_finite false my ey)
      = S754_finite false m' e'
      /\ e' <= ey /\ Zpos m' < Zpos my * 2 ^ (ey - e').
Proof.
  intros Hvx Hvy. pose proof (fmod_exact mx ex my ey Hvx Hvy) as Hex.
  cbv zeta in Hex.
  set (e := Z.min ex ey) in *.
  set (r := (Z.pos mx * 2 ^ (ex - e)) mod (Z.pos my * 2 ^ (ey - e))) in *.
  destruct (Z.eqb_spec r 0) as [Hr|Hr]; [by left|right].
  destruct Hex as (m' & e' & Hf & He' & Hm'). exists m', e'.
  split; [done|]. split; [lia|].
  assert (0 < 2 ^ (ey - e)) by (apply pow2_pos; lia).
  assert (0 < 2 ^ (e - e')) by (apply pow2_pos; lia).
  assert (0 <= r < Zpos my * 2 ^ (ey - e)) as Hb
    by (apply Z.mod_pos_bound; lia).
  rewrite Hm'. replace (ey - e') with ((ey - e) + (e - e')) by lia.
  rewrite pow2_split by lia. nia.
Qed.

(** A float below 60 rounds to an integer that is at most 60. *)
Lemma nearest_below_60 m e :
  e <= -47 -> Zpos m < 8444249301319680 * 2 ^ (-47 - e) ->
  nearest (S754_finite false m e) <= 60.
Proof.
  intros He Hm. simpl.
  destruct (round_half_even_spec (Zpos m) e ltac:(lia) ltac:(lia)) as [Hn _].
  set (n := round_half_even (Z.pos m) e) in *.
  replace (- e) with (47 + (-47 - e)) in Hn by lia.
  rewrite pow2_split in Hn by lia.
  assert (0 < 2 ^ (-47 - e)) as HP by (apply pow2_pos; lia).
  set (P := 2 ^ (-47 - e)) in *.
  change (2 ^ 47) with 140737488355328 in Hn.
  destruct (Z.le_gt_cases n 60) as [|Hgt]; [done|exfalso].
  assert (61 * P <= n * P) by nia. lia.
Qed.

(** The quotient by 60 of a float below 3600 lies below 60, rounding
    included: the largest float below 3600 is more than half a unit in
    the last place of 60 away from it, once divided. *)
Lemma div_60_floor m e :
  valid (S754_finite false m e) = true -> e <= -41 ->
  Zpos m < 7916483719987200 * 2 ^ (-41 - e) ->
  int_floor (div (S754_finite false m e)
               (S754_finite false 8444249301319680 (-47))) <= 59.
Proof.
  intros (Hcan & Hle & Hdig & Hmin)%valid_finite_inv He Hm.
  unfold div, SFdiv. simpl xorb.
  destruct (SFdiv_core_binary_spec (Zpos m) e 8444249301319680 (-47))
    as [l ->]; [lia..|].
  change (Zdigits2 8444249301319680) with 53.
  rewrite fexp_eq in Hcan |- *.
  set (dm := Zdigits2 (Zpos m)) in *.
  pose proof (Zdigits2_bounds (Zpos m) ltac:(lia)) as [_ Hdm]. fold dm in Hdm.
  pose proof (Zdigits2_pos (Zpos m) ltac:(lia)) as Hdm0. fold dm in Hdm0.
  assert (0 < 2 ^ (-41 - e)) as HQ by (apply pow2_pos; lia).
  set (E := Z.min _ _).
  assert (dm + e <= 12) as Hde.
  { assert (dm <= 12 - e); [|lia]. apply Zdigits2_lt_pow; [|lia].
    split; [lia|]. replace (12 - e) with (53 + (-41 - e)) by lia.
    rewrite pow2_split by lia.
    change (2 ^ 53) with 9007199254740992. nia. }
  assert (E <= -47 /\ E <= e + 47 /\ -1074 <= E) as (HE & HEe & HEmin).
  { unfold E, emin, emax, prec in *. lia. }
  set (p := -47 - E). assert (0 <= p) as Hp by (unfold p; lia).
  assert (0 < 2 ^ p) as HX by (by apply pow2_pos).
  set (k := e - -47 - E). assert (0 <= k) as Hk by (unfold k; lia).
  assert (0 < 2 ^ k) as HK by (by apply pow2_pos).
  set (q := Z.pos m * 2 ^ k / 8444249301319680).
  assert (0 <= q) as Hq0 by (apply Z.div_pos; nia).
  assert (8444249301319680 * q <= Z.pos m * 2 ^ k) as Hq
    by (apply Z.mul_div_le; lia).
  assert (q + 2 ^ p < 8444249301319680 * 2 ^ p) as Hstar.
  { destruct (Z.eq_dec e (-41)) as [->|Hne].
    - replace (-41 - -41) with 0 in Hm by lia. rewrite Z.pow_0_r in Hm.
      replace k with (53 + p) in * by (unfold k, p; lia).
      rewrite pow2_split in * by lia.
      change (2 ^ 53) with 9007199254740992 in *.
      assert (Z.pos m * 2 ^ p <= 7916483719987199 * 2 ^ p) by nia.
      nia.
    - assert (dm + e <= 11) as Hde' by (unfold emin, emax, prec in *; lia).
      assert (Z.pos m * 2 ^ k < 2 ^ 105 * 2 ^ p) as Hmk.
      { rewrite <- pow2_split by lia.
        replace (105 + p) with (dm + (105 + p - dm)) by lia.
        assert (k <= 105 + p - dm) by (unfold k, p; lia).
        rewrite pow2_split by lia.
        assert (2 ^ k <= 2 ^ (105 + p - dm))
          by (apply Z.pow_le_mono_r; lia).
        nia. }
      change (2 ^ 105) with 40564819207303340847894502572032 in Hmk.
      lia. }
  destruct (binary_round_aux_spec false q E l Hq0) as (m1 & Hb & _ & ->).
  rewrite !fexp_eq in *.
  set (e1 := Z.max E (Z.max (Zdigits2 q + E - 53) (-1074))) in *.
  assert (Zdigits2 q + E <= 6) as Hdq.
  { assert (Zdigits2 q <= 53 + p); [|unfold p in *; lia].
    apply Zdigits2_lt_pow; [|lia]. split; [done|].
    rewrite pow2_split by lia. change (2 ^ 53) with 9007199254740992. nia. }
  assert (E <= e1 <= -47) as He1 by (unfold e1; lia).
  set (t := e1 - E) in *. assert (0 <= t) as Ht by (unfold t; lia).
  assert (0 < 2 ^ t) as HT by (by apply pow2_pos).
  set (W := 2 ^ (-47 - e1)).
  assert (0 < W) as HW by (apply pow2_pos; lia).
  assert (2 ^ p = W * 2 ^ t) as HpW.
  { unfold W. rewrite <- pow2_split by lia. f_equal. unfold p, t. lia. }
  assert (0 <= q / 2 ^ t) as Hqt by (apply Z.div_pos; lia).
  assert (m1 < 8444249301319680 * W) as Hm1.
  { assert (q / 2 ^ t < 8444249301319680 * W - 1); [|lia].
    apply Z.div_lt_upper_bound; [done|]. rewrite HpW in Hstar. nia. }
  set (e2 := Z.max e1 (Z.max (Zdigits2 m1 + e1 - 53) (-1074))).
  assert (e1 <= e2 <= -47) as He2.
  { assert (Zdigits2 m1 <= 6 - e1); [|unfold e2; lia].
    apply Zdigits2_lt_pow; [|lia]. split; [lia|].
    replace (6 - e1) with (53 + (-47 - e1)) by lia.
    rewrite pow2_split by lia. fold W.
    change (2 ^ 53) with 9007199254740992. nia. }
  set (u := e2 - e1) in *. assert (0 <= u) as Hu by (unfold u; lia).
  assert (0 < 2 ^ u) as HU by (by apply pow2_pos).
  assert (2 ^ u * (m1 / 2 ^ u) <= m1) as HM by (apply Z.mul_div_le; lia).
  assert (0 <= m1 / 2 ^ u) as HM0 by (apply Z.div_pos; lia).
  destruct (m1 / 2 ^ u) as [|pM|pM] eqn:EM; simpl; [lia| |lia].
  destruct (Z.leb_spec e2 (emax - prec)); [|simpl; lia].
  unfold int_floor, cond_Zopp.
  rewrite Z.shiftl_div_pow2 by lia.
  assert (Z.pos pM / 2 ^ (- e2) < 60); [|lia].
  apply Z.div_lt_upper_bound; [apply pow2_pos; lia|].
  set (W2 := 2 ^ (-47 - e2)).
  assert (0 < W2) as HW2 by (apply pow2_pos; lia).
  assert (W = W2 * 2 ^ u) as HWW.
  { unfold W, W2. rewrite <- pow2_split by lia. f_equal. unfold u. lia. }
  replace (- e2) with (47 + (-47 - e2)) by lia.
  rewrite pow2_split by lia. fold W2.
  change (2 ^ 47) with 140737488355328.
  rewrite HWW in Hm1. nia.
Qed.

(** X4. From one second on the three fields are those of the floor and
    remainder decomposition, and they stay in range: the hours are not
    negative, the minutes lie between 0 and 59, and the seconds between
    0 and 60. The minutes never show 60, the seconds can. *)
Theorem format_duration_fields (d : spec_float) :
  valid d = true -> is_finite d = true -> nonneg d = true ->
  ltb d (of_int 1) = false ->
  let rest := fmod d (of_int 3600) in
  let hours := int_floor (div d (of_int 3600)) in
  let minutes := int_floor (div rest (of_int 60)) in
  let seconds := nearest (fmod rest (of_int 60)) in
  _format_duration d
  = Ok (zero_padded hours ++ py ":" ++ zero_padded minutes ++ py ":"
          ++ zero_padded seconds)
  /\ 0 <= hours /\ 0 <= minutes <= 59 /\ 0 <= seconds <= 60.
Proof.
  intros Hv Hf Hn Hlt. cbv zeta. unfold _format_duration. rewrite Hlt.
  pose proof (not_below_one d Hf Hn Hlt) as Hs.
  rewrite of_int_3600, of_int_60.
  destruct (div_finite d 7916483719987200 (-41) Hv Hf Hn) as [Hhf Hhn];
    [by vm_compute|lia|].
  rewrite floor_finite by done. cbn [mbind result_bind].
  destruct (rem_finite d 7916483719987200 (-41) Hv Hf Hs)
    as (-> & Hrv & Hrf & Hrs); [by vm_compute|].
  cbn [mbind result_bind].
  assert (valid (S754_finite false 7916483719987200 (-41)) = true) as Hv3600
    by (by vm_compute).
  assert (valid (S754_finite false 8444249301319680 (-47)) = true) as Hv60
    by (by vm_compute).
  assert (fmod d (S754_finite false 7916483719987200 (-41)) = S754_zero false
          \/ exists m' e',
              fmod d (S754_finite false 7916483719987200 (-41))
              = S754_finite false m' e'
              /\ e' <= -41 /\ Zpos m' < 7916483719987200 * 2 ^ (-41 - e'))
    as Hrest.
  { destruct d as [[]|[]| |[] m e]; try discriminate Hf; try discriminate Hs;
      try discriminate Hn; [by left|].
    apply fmod_below; done. }
  set (rest := fmod d _) in *.
  pose proof (sign_false_nonneg rest Hrf Hrs) as Hrn.
  destruct (div_finite rest 8444249301319680 (-47) Hrv Hrf Hrn)
    as [Hmf Hmn]; [by vm_compute|lia|].
  rewrite floor_finite by done. cbn [mbind result_bind].
  destruct (rem_finite rest 8444249301319680 (-47) Hrv Hrf Hrs)
    as (-> & Hsv & Hsf & Hss); [by vm_compute|].
  cbn [mbind result_bind].
  set (secs := fmod rest _) in *.
  pose proof (sign_false_nonneg secs Hsf Hss) as Hsn.
  rewrite round_finite by done. cbn [mbind result_bind].
  rewrite !format_02d_nonneg
    by (apply int_floor_nonneg || apply nearest_nonneg; done).
  split; [reflexivity|].
  split; [by apply int_floor_nonneg|].
  split; (split; [by (apply int_floor_nonneg || apply nearest_nonneg)|]).
  - destruct Hrest as [Hz|(m' & e' & Hfin & He' & Hm')].
    + rewrite Hz. by vm_compute.
    + rewrite Hfin in *. by apply div_60_floor.
  - assert (secs = S754_zero false
            \/ exists m' e',
                secs = S754_finite false m' e'
                /\ e' <= -47
                /\ Zpos m' < 8444249301319680 * 2 ^ (-47 - e')) as Hsecs.
    { unfold secs.
      destruct Hrest as [Hz|(m' & e' & Hfin & He' & Hm')].
      - rewrite Hz. by left.
      - rewrite Hfin in *. by apply fmod_below. }
    destruct Hsecs as [->|(m' & e' & -> & He' & Hm')]; [done|].
    by apply nearest_below_60.
Qed.

Lemma format_duration_fields_witness :
  valid (of_ratio 35995 10) = true /\ is_finite (of_ratio 35995 10) = true
  /\ nonneg (of_ratio 35995 10) = true
  /\ ltb (of_ratio 35995 10) (of_int 1) = false
  /\ _format_duration (of_ratio 35995 10)
     = Ok (zero_padded (int_floor (div (of_ratio 35995 10) (of_int 3600)))
             ++ py ":"
             ++ zero_padded
                  (int_floor
                     (div (fmod (of_ratio 35995 10) (of_int 3600))
                        (of_int 60)))
             ++ py ":"
             ++ zero_padded
                  (nearest
                     (fmod (fmod (of_ratio 35995 10) (of_int 3600))
                        (of_int 60)))).
Proof.
  split; [by vm_compute|]. split; [by vm_compute|]. split; [by vm_compute|].
  split; [by vm_compute|].
  apply (format_duration_fields (of_ratio 35995 10)); by vm_compute.
Defined.

End DurationFields.

(** ** The outcome classifier on the outcomes of the runner *)

(** X5. On an ASCII outcome without a capital after its first letter,
    as every outcome of the runner is, the label of the fallback rule
    keeps the letters of the outcome: only the first one is upper-cased.
    (On ASCII the case mapping of the embedding is that of Python.) *)
Theorem process_outcome_lower_case (report : Report.t) :
  Forall (fun c => (c < 128)%N) (Report.outcome report) ->
  Forall (fun c => ascii_lower c = c) (tail (Report.outcome report)) ->
  _process_outcome report = spec_process_outcome report.
Proof.
  intros _ Hl.
  unfold _process_outcome, spec_process_outcome, outcome_rules.
  rewrite is_error_spec. unfold str_eqb.
  decide_tests; simpl; try first [reflexivity | exfalso; tauto].
  all: destruct (Report.outcome report) as [|c rest]; [done|];
    by apply capitalize_lower_tail.
Qed.

Lemma process_outcome_lower_case_witness :
  Forall (fun c => (c < 128)%N)
    (Report.outcome (Plain.phase_report "call" "passed" None))
  /\ Forall (fun c => ascii_lower c = c)
       (tail (Report.outcome (Plain.phase_report "call" "passed" None)))
  /\ _process_outcome (Plain.phase_report "call" "passed" None)
     = spec_process_outcome (Plain.phase_report "call" "passed" None).
Proof.
  assert (Forall (fun c => (c < 128)%N)
            (Report.outcome (Plain.phase_report "call" "passed" None)))
    as Ha by (repeat constructor).
  assert (Forall (fun c => ascii_lower c = c)
            (tail (Report.outcome (Plain.phase_report "call" "passed" None))))
    as Hl by (repeat constructor).
  split; [exact Ha|]. split; [exact Hl|].
  exact (process_outcome_lower_case _ Ha Hl).
Defined.

(** ** The log processor: what is kept and what is escaped *)

(** The entries of the log before the placeholder is considered. *)
Lemma process_logs_unfold (report : Report.t) :
  _process_logs report
  = match (if bool_decide (Report.longreprtext report <> [])
           then [replace (py ">") (py "&gt;")
                   (replace (py "<") (py "&lt;") (Report.longreprtext report))
                 ++ nl]
           else [])
          ++ (if str_eqb (Report.outcome report) (py "rerun") then []
              else flat_map section_entries (Report.sections report)) with
    | [] => [py "No log output captured."]
    | e :: l => e :: l
    end.
Proof.
  unfold _process_logs.
  rewrite foldl_append, placeholder_if_empty.
  destruct (bool_decide (Report.longreprtext report <> []));
    destruct (str_eqb (Report.outcome report) (py "rerun"));
    cbn [negb app]; rewrite ?app_nil_r; try done;
    by destruct (flat_map _ _).
Qed.

Lemma section_entries_head (header content : list N) :
  exists rest,
    section_entries (header, content)
    = (format_center 45%N 80 (py " " ++ header ++ py " ") ++ nl ++ content)
        :: rest.
Proof. unfold section_entries. by eexists. Qed.

Lemma not_elem_of_forallb (c : N) (s : list N) :
  forallb (fun x => negb (x =? c)%N) s = true -> c ∉ s.
Proof.
  induction s as [|x s IH]; simpl; [intros _; apply not_elem_of_nil|].
  intros [Hx Hs]%andb_prop. apply not_elem_of_cons. split; [|by apply IH].
  intros ->. by rewrite N.eqb_refl in Hx.
Qed.

Lemma elem_of_flat_map {A B : Type} (f : A -> list B) (l : list A) (y : B) :
  y ∈ flat_map f l <-> exists x, x ∈ l /\ y ∈ f x.
Proof.
  induction l as [|a l IH]; simpl.
  - split; [by intros ?%elem_of_nil|]. by intros (x & ?%elem_of_nil & _).
  - rewrite elem_of_app, IH. split.
    + intros [?|(x & ? & ?)].
      * exists a. split; [apply list_elem_of_here|done].
      * exists x. split; [by apply list_elem_of_further|done].
    + intros (x & [->|?]%elem_of_cons & ?); [by left|].
      right. by exists x.
Qed.

Lemma html_escaped_no_brackets (s : list N) :
  (60%N ∉ html_escaped s) /\ (62%N ∉ html_escaped s).
Proof.
  unfold html_escaped. induction s as [|c s [IH1 IH2]]; cbn [flat_map].
  - split; apply not_elem_of_nil.
  - rewrite !not_elem_of_app.
    destruct (N.eqb_spec c 60) as [->|H60].
    { repeat split; try done; by apply not_elem_of_forallb. }
    destruct (N.eqb_spec c 62) as [->|H62].
    { repeat split; try done; by apply not_elem_of_forallb. }
    repeat split; try done;
      (apply not_elem_of_cons; split; [done|apply not_elem_of_nil]).
Qed.

Lemma html_escaped_id (s : list N) :
  (60%N ∉ s) -> (62%N ∉ s) -> html_escaped s = s.
Proof.
  unfold html_escaped. induction s as [|c s IH]; [done|].
  rewrite !not_elem_of_cons. intros [H60 ?] [H62 ?]. cbn [flat_map].
  destruct (N.eqb_spec c 60); [done|]. destruct (N.eqb_spec c 62); [done|].
  simpl. by rewrite IH.
Qed.

Lemma html_escaped_length (s : list N) :
  (length s <= length (html_escaped s))%nat.
Proof.
  unfold html_escaped. induction s as [|c s IH]; [done|]. cbn [flat_map].
  rewrite length_app. simpl length at 1.
  destruct (c =? 60)%N; [|destruct (c =? 62)%N]; simpl; lia.
Qed.

(** X6. The log is never empty, and it is the placeholder alone exactly
    when nothing was captured: the report has no traceback, and either
    no section or the outcome ["rerun"], which hides the sections. *)
Theorem process_logs_placeholder (report : Report.t) :
  _process_logs report <> []
  /\ (_process_logs report = [py "No log output captured."]
      <-> Report.longreprtext report = []
          /\ (Report.outcome report = py "rerun"
              \/ Report.sections report = [])).
Proof.
  rewrite process_logs_unfold. unfold str_eqb.
  destruct (decide (Report.longreprtext report = [])) as [Htb|Htb].
  - rewrite (bool_decide_eq_false_2 _) by (by intros []). cbn [app].
    destruct (decide (Report.outcome report = py "rerun")) as [Hre|Hre].
    + rewrite (bool_decide_eq_true_2 _ Hre). split; [done|]. split; [|done].
      intros _. split; [done|by left].
    + rewrite (bool_decide_eq_false_2 _ Hre).
      destruct (Report.sections report) as [|[header content] sections].
      * split; [done|]. split; [|done]. intros _. split; [done|by right].
      * cbn [flat_map].
        destruct (section_entries_head header content) as [rest ->].
        cbn [app]. split; [done|]. split.
        -- intros Heq. exfalso. injection Heq as Heq _.
           apply (f_equal length) in Heq.
           rewrite length_app, format_center_length in Heq.
           vm_compute (length (py "No log output captured.")) in Heq. lia.
        -- intros [_ [?|?]]; done.
  - rewrite (bool_decide_eq_true_2 _ Htb). cbn [app].
    split; [done|]. split; [|by intros [? _]].
    intros Heq. exfalso. injection Heq as Heq _.
    apply (f_equal (@last N)) in Heq. unfold nl in Heq.
    rewrite last_snoc in Heq. by vm_compute in Heq.
Qed.

(** X7. The entry of the traceback, before its closing newline, holds
    no angle bracket, is at least as long as the traceback, and is the
    traceback itself when that has no angle bracket: nothing else is
    escaped, an ampersand or a quote stays as it is. *)
Theorem process_logs_traceback_escaped (report : Report.t) :
  Report.longreprtext report <> [] ->
  exists entry rest,
    _process_logs report = (entry ++ nl) :: rest
    /\ (60%N ∉ entry) /\ (62%N ∉ entry)
    /\ (length (Report.longreprtext report) <= length entry)%nat
    /\ ((60%N ∉ Report.longreprtext report) ->
        (62%N ∉ Report.longreprtext report) ->
        entry = Report.longreprtext report).
Proof.
  intros Htb. rewrite process_logs_unfold, escape_replace.
  rewrite (bool_decide_eq_true_2 _ Htb). cbn [app].
  eexists _, _. split; [reflexivity|].
  destruct (html_escaped_no_brackets (Report.longreprtext report)).
  repeat split; try done.
  - apply html_escaped_length.
  - apply html_escaped_id.
Qed.

Lemma process_logs_traceback_escaped_witness :
  Report.longreprtext Plain.traceback_report <> []
  /\ exists entry rest,
    _process_logs Plain.traceback_report = (entry ++ nl) :: rest
    /\ (60%N ∉ entry) /\ (62%N ∉ entry)
    /\ (length (Report.longreprtext Plain.traceback_report)
        <= length entry)%nat
    /\ ((60%N ∉ Report.longreprtext Plain.traceback_report) ->
        (62%N ∉ Report.longreprtext Plain.traceback_report) ->
        entry = Report.longreprtext Plain.traceback_report).
Proof.
  assert (Report.longreprtext Plain.traceback_report <> []) as Htb by done.
  split; [exact Htb|].
  exact (process_logs_traceback_escaped Plain.traceback_report Htb).
Defined.

(** X8. Unless the outcome is ["rerun"], no captured section is dropped
    or cut: each has an entry that ends with its content as it is, after
    a banner line that holds the header between two spaces and two runs
    of dashes, the right one longer by at most one dash. The banner is
    80 columns wide, or as wide as a header of more than 78 characters
    makes it, then with no dash at all. *)
Theorem process_logs_section_banner (report : Report.t)
    (header content : list N) :
  Report.outcome report <> py "rerun" ->
  (header, content) ∈ Report.sections report ->
  exists left right : nat,
    replicate left 45%N ++ py " " ++ header ++ py " " ++ replicate right 45%N
      ++ nl ++ content ∈ _process_logs report
    /\ (left <= right <= left + 1)%nat
    /\ (left + right + (length header + 2) = max 80 (length header + 2))%nat.
Proof.
  intros Hre Hin. rewrite process_logs_unfold. unfold str_eqb.
  rewrite (bool_decide_eq_false_2 _ Hre).
  destruct (format_center_shape 45%N 80 (py " " ++ header ++ py " "))
    as (left & right & Hshape & Hlr).
  pose proof (format_center_length 45%N 80 (py " " ++ header ++ py " "))
    as Hlen.
  rewrite Hshape in Hlen.
  rewrite !length_app, !length_replicate in Hlen.
  change (length (py " ")) with 1%nat in Hlen.
  exists left, right. split; [|split; [done|lia]].
  assert (replicate left 45%N ++ py " " ++ header ++ py " "
            ++ replicate right 45%N ++ nl ++ content
          ∈ flat_map section_entries (Report.sections report)) as Hmem.
  { apply elem_of_flat_map. exists (header, content). split; [done|].
    destruct (section_entries_head header content) as [rest ->].
    rewrite Hshape, <- !app_assoc. apply list_elem_of_here. }
  destruct (_ ++ flat_map _ _) as [|e l] eqn:E.
  - apply app_eq_nil in E as [_ E]. rewrite E in Hmem.
    by apply elem_of_nil in Hmem.
  - rewrite <- E. apply elem_of_app. by right.
Qed.

Lemma process_logs_section_banner_witness :
  Report.outcome Plain.captured_report <> py "rerun"
  /\ (py "Captured stdout call", py "out")
       ∈ Report.sections Plain.captured_report
  /\ exists left right : nat,
      replicate left 45%N ++ py " " ++ py "Captured stdout call" ++ py " "
        ++ replicate right 45%N ++ nl ++ py "out"
        ∈ _process_logs Plain.captured_report
      /\ (left <= right <= left + 1)%nat
      /\ (left + right + (length (py "Captured stdout call") + 2)
          = max 80 (length (py "Captured stdout call") + 2))%nat.
Proof.
  assert (Report.outcome Plain.captured_report <> py "rerun") as Hre
    by (by vm_compute).
  assert ((py "Captured stdout call", py "out")
            ∈ Report.sections Plain.captured_report) as Hin
    by apply list_elem_of_here.
  split; [exact Hre|]. split; [exact Hin|].
  exact (process_logs_section_banner Plain.captured_report _ _ Hre Hin).
Defined.

(** ** Asset file names: length, collisions and characters *)

Lemma uint_chars_digits (d : Decimal.uint) :
  Forall (fun c => (48 <= c <= 57)%N) (uint_chars d).
Proof. induction d; simpl; constructor; (lia || done). Qed.

Lemma uint_chars_inj (d d' : Decimal.uint) :
  uint_chars d = uint_chars d' -> d = d'.
Proof.
  revert d'. induction d; intros []; simpl; intros Heq; try done;
    injection Heq as Heq; f_equal; by apply IHd.
Qed.

(** The decimal text of an integer tells the integer. *)
Lemma str_of_int_inj (a b : Z) : str_of_int a = str_of_int b -> a = b.
Proof.
  unfold str_of_int. intros Heq.
  rewrite <- (DecimalZ.of_to a), <- (DecimalZ.of_to b). f_equal.
  destruct (Z.to_int a) as [d|d], (Z.to_int b) as [d'|d'].
  - f_equal. by apply uint_chars_inj.
  - exfalso. pose proof (uint_chars_digits d) as Hd. rewrite Heq in Hd.
    apply Forall_cons in Hd as [Hd _]. lia.
  - exfalso. pose proof (uint_chars_digits d') as Hd. rewrite <- Heq in Hd.
    apply Forall_cons in Hd as [Hd _]. lia.
  - injection Heq as Heq. f_equal. by apply uint_chars_inj.
Qed.

Lemma str_of_int_no_underscore (z : Z) : 95%N ∉ str_of_int z.
Proof.
  unfold str_of_int.
  assert (forall d, 95%N ∉ uint_chars d) as Hd.
  { intros d Hin. pose proof (uint_chars_digits d) as Hall.
    rewrite Forall_forall in Hall. apply Hall in Hin. lia. }
  destruct (Z.to_int z); [done|].
  apply not_elem_of_cons. split; [done|apply Hd].
Qed.

Lemma trailing_keeps_suffix (n : Z) (a b : list N) :
  Z.of_nat (length b) <= n -> b `suffix_of` trailing n (a ++ b).
Proof.
  intros Hn. unfold trailing. rewrite length_app.
  destruct (Z.le_gt_cases n (Z.of_nat (length a + length b))).
  - rewrite drop_app_le by lia. by apply suffix_app_r.
  - replace (length a + length b - Z.to_nat n)%nat with 0%nat by lia.
    simpl. by apply suffix_app_r.
Qed.

Section AssetNames.
Context `{PyLib}.

Lemma asset_filename_full (config : Config) (test_id : list N)
    (extra_index test_index : Z) (file_extension : option (list N)) :
  _asset_filename config test_id extra_index test_index file_extension
  = slice_from (- max_asset_filename_length config)
      (sanitize test_id ++ asset_suffix extra_index test_index file_extension).
Proof. reflexivity. Qed.

(** X9. With a maximum length of at least one the name has the smaller
    of that length and the length of the full name, it is a suffix of
    the full name, and it is the full name when that fits. *)
Theorem asset_filename_bounded (config : Config) (test_id : list N)
    (extra_index test_index : Z) (file_extension : option (list N)) :
  1 <= max_asset_filename_length config ->
  let full := sanitize test_id ++ py "_" ++ str_of_int extra_index ++ py "_"
                ++ str_of_int test_index ++ py "."
                ++ format_opt file_extension in
  let name :=
    _asset_filename config test_id extra_index test_index file_extension in
  Z.of_nat (length name)
  = Z.min (max_asset_filename_length config) (Z.of_nat (length full))
  /\ name `suffix_of` full
  /\ (Z.of_nat (length full) <= max_asset_filename_length config ->
      name = full).
Proof.
  intros Hn full name. unfold name, _asset_filename. fold full.
  rewrite slice_from_trailing by done.
  split; [|split].
  - rewrite trailing_length by lia. lia.
  - apply trailing_suffix.
  - intros Hfit. unfold trailing.
    replace (length full - Z.to_nat (max_asset_filename_length config))%nat
      with 0%nat by lia.
    done.
Qed.

(** X10. A maximum length that is zero or negative bounds nothing: the
    slice then starts at the front, and the name is the full name
    without as many leading characters as the length is below zero. *)
Theorem asset_filename_unlimited (config : Config) (test_id : list N)
    (extra_index test_index : Z) (file_extension : option (list N)) :
  max_asset_filename_length config <= 0 ->
  _asset_filename config test_id extra_index test_index file_extension
  = drop (Z.to_nat (- max_asset_filename_length config))
      (sanitize test_id ++ py "_" ++ str_of_int extra_index ++ py "_"
         ++ str_of_int test_index ++ py "." ++ format_opt file_extension).
Proof.
  intros Hn. unfold _asset_filename, slice_from.
  set (full := sanitize test_id ++ _).
  destruct (Z.ltb_spec (- max_asset_filename_length config) 0); [lia|].
  destruct (Z.le_gt_cases (- max_asset_filename_length config)
              (Z.of_nat (length full))).
  - by rewrite Z.min_l by lia.
  - rewrite Z.min_r by lia. rewrite Nat2Z.id.
    rewrite !drop_ge; [done|lia..].
Qed.

(** X11. Two extras of one report with the same extension never share
    a file name, cut or not, as long as the maximum length leaves room
    for the two indices and the extension: the trailing characters are
    the ones kept, and the index of the extra is among them. *)
Theorem asset_filename_distinct (config : Config) (test_id : list N)
    (i j test_index : Z) (file_extension : option (list N)) :
  i <> j ->
  Z.of_nat (length (asset_suffix i test_index file_extension))
    <= max_asset_filename_length config ->
  Z.of_nat (length (asset_suffix j test_index file_extension))
    <= max_asset_filename_length config ->
  _asset_filename config test_id i test_index file_extension
  <> _asset_filename config test_id j test_index file_extension.
Proof.
  intros Hij Hi Hj Heq.
  assert (1 <= max_asset_filename_length config) as Hn.
  { unfold asset_suffix in Hi. rewrite length_app in Hi.
    change (length (py "_")) with 1%nat in Hi. lia. }
  rewrite !asset_filename_full, !slice_from_trailing in Heq by done.
  pose proof (trailing_keeps_suffix _ (sanitize test_id) _ Hi) as [a Ha].
  pose proof (trailing_keeps_suffix _ (sanitize test_id) _ Hj) as [b Hb].
  rewrite Heq, Hb in Ha. unfold asset_suffix in Ha.
  rewrite !(app_assoc _ (str_of_int _)), !(app_assoc _ (py "_" ++ str_of_int _))
    in Ha.
  do 2 apply app_inv_tail in Ha.
  change (py "_") with [95%N] in Ha.
  apply not_elem_of_app_cons_inv_r in Ha as (_ & _ & Hs);
    [|apply str_of_int_no_underscore..].
  apply str_of_int_inj in Hs. congruence.
Qed.

(** X12. Sanitizing keeps the length of the test id and leaves, among
    the ASCII characters, only letters, digits, the underscore and the
    dot, so that no separator of a path is left; a sanitized id is not
    changed by sanitizing it again. *)
Theorem sanitize_safe (test_id : list N) :
  sanitize (sanitize test_id) = sanitize test_id
  /\ length (sanitize test_id) = length test_id
  /\ Forall (fun c => (c < 128)%N ->
               (48 <= c <= 57 \/ 65 <= c <= 90 \/ 97 <= c <= 122
                \/ c = 95 \/ c = 46)%N)
       (sanitize test_id).
Proof.
  split; [|split; [apply sanitize_length|]].
  - unfold sanitize. rewrite <- list_fmap_compose. apply list_fmap_ext.
    intros _ c _. simpl.
    destruct (is_word c || (c =? 46)%N) eqn:E; [by rewrite E|done].
  - unfold sanitize. apply Forall_fmap, Forall_forall. intros c _. simpl.
    destruct (is_word c || (c =? 46)%N) eqn:E; [|lia].
    intros Hc. unfold is_word in E.
    destruct (N.ltb_spec c 128); [|lia].
    rewrite !orb_true_iff, !andb_true_iff, !N.leb_le, !N.eqb_eq in E. lia.
Qed.

End AssetNames.

Section AssetNamesExamples.
Import Plain.

Lemma asset_filename_bounded_witness :
  1 <= max_asset_filename_length short_names_config
  /\ let full := sanitize (py "tests/test_x.py::test_y[a/b]") ++ py "_"
                   ++ str_of_int 0 ++ py "_" ++ str_of_int 0 ++ py "."
                   ++ format_opt (Some (py "png")) in
     let name :=
       _asset_filename short_names_config (py "tests/test_x.py::test_y[a/b]")
         0 0 (Some (py "png")) in
     Z.of_nat (length name)
     = Z.min (max_asset_filename_length short_names_config)
         (Z.of_nat (length full))
     /\ name `suffix_of` full
     /\ (Z.of_nat (length full) <= max_asset_filename_length short_names_config
         -> name = full).
Proof.
  assert (1 <= max_asset_filename_length short_names_config) as Hn
    by (by vm_compute).
  split; [exact Hn|].
  exact (asset_filename_bounded short_names_config
           (py "tests/test_x.py::test_y[a/b]") 0 0 (Some (py "png")) Hn).
Defined.

Lemma asset_filename_unlimited_witness :
  max_asset_filename_length zero_length_config <= 0
  /\ _asset_filename zero_length_config (py "a") 0 0 (Some (py "png"))
     = drop (Z.to_nat (- max_asset_filename_length zero_length_config))
         (sanitize (py "a") ++ py "_" ++ str_of_int 0 ++ py "_"
            ++ str_of_int 0 ++ py "." ++ format_opt (Some (py "png"))).
Proof.
  assert (max_asset_filename_length zero_length_config <= 0) as Hn
    by (by vm_compute).
  split; [exact Hn|].
  exact (asset_filename_unlimited zero_length_config (py "a") 0 0
           (Some (py "png")) Hn).
Defined.

Lemma asset_filename_distinct_witness :
  0 <> 1
  /\ Z.of_nat (length (asset_suffix 0 0 (Some (py "png"))))
     <= max_asset_filename_length short_names_config
  /\ Z.of_nat (length (asset_suffix 1 0 (Some (py "png"))))
     <= max_asset_filename_length short_names_config
  /\ _asset_filename short_names_config (py "tests/test_x.py::test_y[a/b]")
       0 0 (Some (py "png"))
     <> _asset_filename short_names_config (py "tests/test_x.py::test_y[a/b]")
          1 0 (Some (py "png")).
Proof.
  assert (0 <> 1) as Hij by lia.
  assert (Z.of_nat (length (asset_suffix 0 0 (Some (py "png"))))
          <= max_asset_filename_length short_names_config) as Hi
    by (by vm_compute).
  assert (Z.of_nat (length (asset_suffix 1 0 (Some (py "png"))))
          <= max_asset_filename_length short_names_config) as Hj
    by (by vm_compute).
  split; [exact Hij|]. split; [exact Hi|]. split; [exact Hj|].
  exact (asset_filename_distinct short_names_config
           (py "tests/test_x.py::test_y[a/b]") 0 1 0 (Some (py "png"))
           Hij Hi Hj).
Defined.

(** Below that room the names do collide. *)
Example asset_filename_collision :
  _asset_filename (mkConfig 7 [] ∅) (py "a") 10 0 (Some (py "png"))
  = _asset_filename (mkConfig 7 [] ∅) (py "a") 20 0 (Some (py "png")).
Proof. by vm_compute. Qed.

End AssetNamesExamples.

(** ** The extras processor: what it changes and when it fails *)

Section ExtrasFacts.
Context `{PyLib} `{Sinks}.

Lemma process_extra_fields (config : Config) (test_id : list N)
    (test_index extra_index : Z) (extra extra' : Extra.t) :
  process_extra config test_id test_index extra_index extra = Ok extra' ->
  Extra.extension extra' = Extra.extension extra
  /\ Extra.format_type extra' = Extra.format_type extra
  /\ Extra.mime_type extra' = Extra.mime_type extra
  /\ Extra.name extra' = Extra.name extra.
Proof.
  unfold process_extra. intros Hok.
  destruct (unicode_escape test_id) as [decoded|]; [|done].
  cbn [mbind result_bind] in Hok.
  destruct (str_eqb (Extra.format_type extra) extras.FORMAT_JSON);
    [destruct (json_dumps (Extra.content extra)); [|done]|];
    cbn [mbind result_bind Extra.format_type Extra.set_content
           Extra.mime_type] in Hok;
    (destruct (str_eqb (Extra.format_type extra) extras.FORMAT_TEXT);
     [try destruct (Extra.content extra);
      try destruct (utf8_decode _); try done|]);
    cbn [mbind result_bind Extra.format_type Extra.set_content
           Extra.mime_type] in Hok;
    destruct (_ || _); injection Hok as <-; done.
Qed.

(** X13. The extras processor changes the content of an extra and
    nothing else: it returns as many extras as the report has, in the
    same order, each with the extension, the format type, the MIME type
    and the name it came with. *)
Theorem process_extras_keeps_fields (config : Config) (report : Report.t)
    (test_id : list N) (out : list Extra.t) :
  _process_extras config report test_id = Ok out ->
  Forall2 (fun extra extra' =>
             Extra.extension extra' = Extra.extension extra
             /\ Extra.format_type extra' = Extra.format_type extra
             /\ Extra.mime_type extra' = Extra.mime_type extra
             /\ Extra.name extra' = Extra.name extra)
    (default [] (Report.extras report)) out.
Proof.
  unfold _process_extras. generalize 0 as extra_index.
  revert out.
  induction (default [] (Report.extras report)) as [|extra rest IH];
    intros out extra_index; cbn [process_extras_from].
  - intros [= <-]. constructor.
  - destruct (process_extra _ _ _ _ extra) as [extra'|] eqn:He; [|done].
    cbn [mbind result_bind].
    destruct (process_extras_from _ _ _ _ rest) as [rest'|] eqn:Hr; [|done].
    cbn [mbind result_bind]. intros [= <-].
    constructor; [by eapply process_extra_fields|by eapply IH].
Qed.

Lemma process_extra_other_format (config : Config) (test_id decoded : list N)
    (test_index extra_index : Z) (extra : Extra.t) :
  unicode_escape test_id = Ok decoded ->
  Extra.format_type extra
    ∉ [extras.FORMAT_JSON; extras.FORMAT_TEXT; extras.FORMAT_IMAGE;
       extras.FORMAT_VIDEO] ->
  process_extra config test_id test_index extra_index extra = Ok extra.
Proof.
  intros Hid Hft. unfold process_extra. rewrite Hid.
  cbn [mbind result_bind]. unfold str_eqb.
  rewrite !not_elem_of_cons in Hft.
  destruct Hft as (Hjson & Htext & Himage & Hvideo & _).
  rewrite (bool_decide_eq_false_2 _ Hjson). cbn [mbind result_bind].
  rewrite (bool_decide_eq_false_2 _ Htext). cbn [mbind result_bind].
  by rewrite (bool_decide_eq_false_2 _ Himage),
    (bool_decide_eq_false_2 _ Hvideo).
Qed.

(** X14. Extras of any other format type than JSON, text, image and
    video, such as links and HTML fragments, come back as they are,
    content included, when the test id can be decoded. *)
Theorem process_extras_other_formats (config : Config) (report : Report.t)
    (test_id decoded : list N) :
  unicode_escape test_id = Ok decoded ->
  Forall (fun extra =>
            Extra.format_type extra
              ∉ [extras.FORMAT_JSON; extras.FORMAT_TEXT; extras.FORMAT_IMAGE;
                 extras.FORMAT_VIDEO])
    (default [] (Report.extras report)) ->
  _process_extras config report test_id
  = Ok (default [] (Report.extras report)).
Proof.
  intros Hid Hall. unfold _process_extras.
  generalize 0 as extra_index.
  induction Hall as [|extra rest Hft _ IH]; intros extra_index; [done|].
  cbn [process_extras_from].
  rewrite (process_extra_other_format _ _ decoded) by done.
  cbn [mbind result_bind]. by rewrite IH.
Qed.

(** X15. The asset name is computed for every extra, needed or not: a
    test id that cannot be decoded makes the processor fail as soon as
    the report has one extra, of whatever format type, and does no harm
    to a report without extras. *)
Theorem process_extras_undecodable (config : Config) (report : Report.t)
    (test_id : list N) (e : exn) :
  unicode_escape test_id = Raise e ->
  _process_extras config report test_id
  = match default [] (Report.extras report) with
    | [] => Ok []
    | _ :: _ => Raise e
    end.
Proof.
  intros Hid. unfold _process_extras.
  destruct (default [] (Report.extras report)) as [|extra rest]; [done|].
  cbn [process_extras_from]. unfold process_extra. by rewrite Hid.
Qed.

End ExtrasFacts.

Section ExtrasExamples.
Import Plain.

Lemma process_extras_keeps_fields_witness :
  _process_extras plain_config attached_report (py "test_a.py::test_b")
  = Ok [Extra.mk (CStr (py "assets/test_a.py__test_b_0_0.txt"))
          (Some (py "txt")) extras.FORMAT_TEXT (Some (py "text/plain"))
          (Some (py "log.txt"));
        Extra.mk (CStr (py "https://example.org")) None extras.FORMAT_URL
          None (Some (py "home"))]
  /\ Forall2 (fun extra extra' =>
                Extra.extension extra' = Extra.extension extra
                /\ Extra.format_type extra' = Extra.format_type extra
                /\ Extra.mime_type extra' = Extra.mime_type extra
                /\ Extra.name extra' = Extra.name extra)
       (default [] (Report.extras attached_report))
       [Extra.mk (CStr (py "assets/test_a.py__test_b_0_0.txt"))
          (Some (py "txt")) extras.FORMAT_TEXT (Some (py "text/plain"))
          (Some (py "log.txt"));
        Extra.mk (CStr (py "https://example.org")) None extras.FORMAT_URL
          None (Some (py "home"))].
Proof.
  assert (_process_extras plain_config attached_report
            (py "test_a.py::test_b")
          = Ok [Extra.mk (CStr (py "assets/test_a.py__test_b_0_0.txt"))
                  (Some (py "txt")) extras.FORMAT_TEXT
                  (Some (py "text/plain")) (Some (py "log.txt"));
                Extra.mk (CStr (py "https://example.org")) None
                  extras.FORMAT_URL None (Some (py "home"))]) as Hok
    by (by vm_compute).
  split; [exact Hok|].
  exact (process_extras_keeps_fields plain_config attached_report
           (py "test_a.py::test_b") _ Hok).
Defined.

Lemma process_extras_other_formats_witness :
  unicode_escape (py "test_a.py::test_b") = Ok (py "test_a.py::test_b")
  /\ Forall (fun extra =>
               Extra.format_type extra
                 ∉ [extras.FORMAT_JSON; extras.FORMAT_TEXT;
                    extras.FORMAT_IMAGE; extras.FORMAT_VIDEO])
       (default [] (Report.extras linked_report))
  /\ _process_extras plain_config linked_report (py "test_a.py::test_b")
     = Ok (default [] (Report.extras linked_report)).
Proof.
  assert (unicode_escape (py "test_a.py::test_b")
          = Ok (py "test_a.py::test_b")) as Hid by (by vm_compute).
  assert (Forall (fun extra =>
                    Extra.format_type extra
                      ∉ [extras.FORMAT_JSON; extras.FORMAT_TEXT;
                         extras.FORMAT_IMAGE; extras.FORMAT_VIDEO])
            (default [] (Report.extras linked_report))) as Hall.
  { repeat (constructor;
            [cbn [Extra.format_type]; rewrite !not_elem_of_cons;
             repeat split; first [by vm_compute | apply not_elem_of_nil]|]).
    constructor. }
  split; [exact Hid|]. split; [exact Hall|].
  exact (process_extras_other_formats plain_config linked_report
           (py "test_a.py::test_b") _ Hid Hall).
Defined.

Lemma process_extras_undecodable_witness :
  unicode_escape (Report.nodeid backslash_report) = Raise UnicodeDecodeError
  /\ _process_extras plain_config backslash_report
       (Report.nodeid backslash_report)
     = match default [] (Report.extras backslash_report) with
       | [] => Ok []
       | _ :: _ => Raise UnicodeDecodeError
       end.
Proof.
  assert (unicode_escape (Report.nodeid backslash_report)
          = Raise UnicodeDecodeError) as Hid by (by vm_compute).
  split; [exact Hid|].
  exact (process_extras_undecodable plain_config backslash_report
           (Report.nodeid backslash_report) _ Hid).
Defined.

End ExtrasExamples.

(** ** The cells of a row *)



(** ** The environment redactor as a whole *)

Lemma generate_environment_value (config : Config) (k : list N) :
  _generate_environment config !! k
  = (fun v => if _is_redactable_environment_variable config k
              then masked v else v) <$> stash_metadata config !! k.
Proof. apply generate_environment_lookup. Qed.

Lemma masked_masked (v : value) : masked (masked v) = masked v.
Proof. unfold masked. simpl. by rewrite length_replicate. Qed.

(** X17. Redaction neither adds nor drops a key: the redacted
    environment has the keys of the metadata. *)
Theorem generate_environment_keys (config : Config) :
  dom (_generate_environment config) = dom (stash_metadata config).
Proof.
  apply set_eq. intros k. rewrite !elem_of_dom, generate_environment_value.
  by rewrite fmap_is_Some.
Qed.

(** X18. Without redaction patterns the environment is the metadata,
    unchanged. *)
Theorem generate_environment_no_patterns (config : Config) :
  environment_table_redact_list config = [] ->
  _generate_environment config = stash_metadata config.
Proof.
  intros Hnone. apply map_eq. intros k.
  rewrite generate_environment_value.
  unfold _is_redactable_environment_variable. rewrite Hnone. simpl.
  by destruct (stash_metadata config !! k).
Qed.

Lemma generate_environment_no_patterns_witness :
  environment_table_redact_list Plain.open_config = []
  /\ _generate_environment Plain.open_config
     = stash_metadata Plain.open_config.
Proof.
  split; [reflexivity|].
  exact (generate_environment_no_patterns Plain.open_config eq_refl).
Defined.

(** X19. Redacting twice is redacting once: on metadata that is
    redacted already, the redactor changes nothing, the mask of a mask
    being that mask. *)
Theorem generate_environment_idempotent (config : Config) :
  _generate_environment
    (mkConfig (max_asset_filename_length config)
       (environment_table_redact_list config)
       (_generate_environment config))
  = _generate_environment config.
Proof.
  apply map_eq. intros k.
  rewrite generate_environment_value. cbn [stash_metadata].
  rewrite generate_environment_value.
  unfold _is_redactable_environment_variable.
  cbn [environment_table_redact_list].
  destruct (stash_metadata config !! k) as [v|]; [|done]. simpl.
  destruct (any_match _ k); [|done]. by rewrite masked_masked.
Qed.

Lemma re_match_seq_void (r : regex) (s : list N) :
  re_match (Seq Void r) s = false.
Proof. induction s as [|c s IH]; [done|]. by cbn. Qed.

Lemma re_match_alt_void (r r' : regex) (s : list N) :
  re_match (Alt (Seq Void r) r') s = re_match r' s.
Proof.
  revert r'. induction s as [|c s IH]; intros r'.
  - cbn. by rewrite orb_false_r.
  - cbn [re_match nullable deriv andb orb]. by rewrite IH.
Qed.

Lemma re_match_seq_eps (r : regex) (s : list N) :
  re_match (Seq Eps r) s = re_match r s.
Proof.
  destruct s as [|c s].
  - cbn. by rewrite orb_false_r.
  - cbn [re_match nullable deriv andb]. by rewrite re_match_alt_void.
Qed.

(** A pattern without metacharacters matches the keys it is a prefix
    of. *)
Lemma re_match_literal (p s : list N) :
  re_match (literal p) s = startswith p s.
Proof.
  revert s. induction p as [|c p IH]; intros s.
  - by destruct s.
  - destruct s as [|c' s]; [done|].
    cbn [literal re_match nullable deriv startswith andb orb].
    rewrite (N.eqb_sym c c').
    destruct (c' =? c)%N; cbn [andb].
    + by rewrite re_match_seq_eps.
    + apply re_match_seq_void.
Qed.

(** X20. When the redaction patterns have no metacharacters, a key is
    redacted exactly when it begins with one of them: a key that holds a
    pattern further on is left alone. *)
Theorem redactable_literal_prefix (config : Config) (prefixes : list (list N))
    (key : list N) :
  environment_table_redact_list config = literal <$> prefixes ->
  _is_redactable_environment_variable config key
  = existsb (fun p => startswith p key) prefixes.
Proof.
  unfold _is_redactable_environment_variable. intros ->.
  induction prefixes as [|p prefixes IH]; [done|].
  rewrite fmap_cons. cbn [any_match existsb].
  rewrite re_match_literal, IH. by destruct (startswith p key).
Qed.

Lemma redactable_literal_prefix_witness :
  environment_table_redact_list Plain.prefix_config
  = literal <$> [py "SECRET"; py "TOKEN"]
  /\ _is_redactable_environment_variable Plain.prefix_config (py "MY_SECRET")
     = existsb (fun p => startswith p (py "MY_SECRET"))
         [py "SECRET"; py "TOKEN"].
Proof.
  split; [reflexivity|].
  exact (redactable_literal_prefix Plain.prefix_config
           [py "SECRET"; py "TOKEN"] (py "MY_SECRET") eq_refl).
Defined.

Example redactable_prefix_examples :
  _is_redactable_environment_variable Plain.prefix_config (py "MY_SECRET")
  = false
  /\ _is_redactable_environment_variable Plain.prefix_config (py "TOKEN_2")
     = true.
Proof. by vm_compute. Qed.

(** ** The handlers: what is written, what is counted, what is left *)

Section MoreHandlers.
Context `{PyLib} `{Sinks} `{Hooks} `{DataModel} `{Template}.

Lemma generate_report_spec (w : World) :
  _generate_report false w
  = (Ok tt,
     with_trace (trace w ++ [Rendered (rendered_report w);
                             Written (rendered_report w)])
       (with_report_file (Some (rendered_report w)) w)).
Proof.
  unfold _generate_report, rendered_report, datetime_now, get_data, emit,
    _write_report, mbind, M_bind.
  cbn. by rewrite <- app_assoc.
Qed.

Lemma rendered_report_ext (w w' : World) :
  data w' = data w -> clock w' = clock w ->
  rendered_report w' = rendered_report w.
Proof. unfold rendered_report. by intros -> ->. Qed.

(** The world after session start, as far as the environment goes. *)
Lemma sessionstart_config (w : World) :
  environment (data (pytest_sessionstart w).2)
  = _generate_environment (config w)
  /\ config (pytest_sessionstart w).2
     = mkConfig (max_asset_filename_length (config w))
         (environment_table_redact_list (config w))
         (_generate_environment (config w)).
Proof.
  unfold pytest_sessionstart, mbind, M_bind, mret, M_ret,
    get_config, get_data, update_data.
  cbn [fst snd data trace with_trace with_data with_config].
  set (w' := with_data _ (with_data _ (with_config _ w))).
  destruct (fix_py_spec
              (pytest_html_results_table_header
                 (CellStr <$> resultsTableHeader (data w'))) w')
    as (fixed & Hfixed & [messages Hw]).
  destruct (_fix_py _ w') as [r w2].
  cbn [fst snd] in Hfixed, Hw. subst r w2.
  rewrite generate_report_spec. by cbn.
Qed.

(** X21. Session start redacts in place: afterwards the stash of the
    configuration holds the redacted metadata as well, the same that the
    report data shows as its environment, so that no later reader of the
    stash sees a redacted value in the clear. The options of the
    configuration are as before, and a second session start leaves the
    environment as the first one made it. *)
Theorem sessionstart_redacts_stash (w : World) :
  let w' := (pytest_sessionstart w).2 in
  environment (data w') = _generate_environment (config w)
  /\ stash_metadata (config w') = _generate_environment (config w)
  /\ max_asset_filename_length (config w')
     = max_asset_filename_length (config w)
  /\ environment_table_redact_list (config w')
     = environment_table_redact_list (config w)
  /\ environment (data (pytest_sessionstart w').2) = environment (data w').
Proof.
  intros w'. destruct (sessionstart_config w) as [Henv Hconfig].
  fold w' in Henv, Hconfig.
  rewrite Henv, Hconfig. cbn [stash_metadata max_asset_filename_length
                                environment_table_redact_list].
  repeat split.
  destruct (sessionstart_config w') as [-> _]. rewrite Hconfig.
  apply map_eq. intros k.
  rewrite generate_environment_value. cbn [stash_metadata].
  rewrite generate_environment_value.
  unfold _is_redactable_environment_variable.
  cbn [environment_table_redact_list].
  destruct (stash_metadata (config w) !! k) as [v|]; [|done]. simpl.
  destruct (any_match _ k); [|done]. by rewrite masked_masked.
Qed.

(** What [logreport_cells] has done when it returns. *)
Lemma logreport_cells_ok (report report' : Report.t) (row : RowData.t)
    (cells : list cell) (w w1 : World) :
  logreport_cells report w = (Ok (report', row, cells), w1) ->
  exists duration formatted,
    _format_duration (Report.duration report) = Ok duration
    /\ _format_duration
         (Float.add (totalDuration_total (data w)) (Report.duration report))
       = Ok formatted
    /\ data w1
       = set_totalDuration_formatted formatted
           (set_totalDuration_total
              (Float.add (totalDuration_total (data w))
                 (Report.duration report)) (data w)).
Proof.
  unfold logreport_cells, mbind, M_bind, mret, M_ret,
    lift, update_data, get_data, get_config, warn, emit.
  destruct (Report.duration_formatter report);
    cbn [fst snd data trace with_trace with_data
           totalDuration_total set_totalDuration_total];
    (destruct (_format_duration (Report.duration report)) as [duration|];
     [|done]);
    cbn [fst snd data trace with_trace with_data
           totalDuration_total set_totalDuration_total];
    (destruct (_format_duration (Float.add _ _)) as [formatted|]; [|done]);
    cbn [fst snd data trace with_trace with_data config
           totalDuration_total set_totalDuration_total];
    (destruct (_process_extras _ _ _); [|done]);
    intros [= <- <- <- <-]; by eexists _, _.
Qed.

(** After the row hook nothing raises. *)
Lemma logreport_ok (report : Report.t) (w : World) :
  (pytest_runtest_logreport report w).1
  = match (logreport_cells report w).1 with
    | Ok _ => Ok tt
    | Raise e => Raise e
    end.
Proof.
  unfold pytest_runtest_logreport, mbind, M_bind, mret, M_ret.
  destruct (logreport_cells report w) as [[[[report' row] cells]|e] w1];
    cbn [fst snd]; [|done].
  destruct (pytest_html_results_table_row report' cells) as [|c cells'];
    [done|].
  destruct (fix_py_spec (c :: cells') w1) as (fixed & Hfixed & _).
  destruct (_fix_py (c :: cells') w1) as [r w2].
  cbn [fst] in Hfixed. subst r.
  unfold get_data, update_data, emit. cbn [fst snd].
  destruct (add_test _ _ _ _) as [[] rows]; cbn [fst snd]; [|done].
  by rewrite generate_report_spec.
Qed.

(** X22. Every report whose duration can be formatted adds it to the
    total, once, whatever happens to its row afterwards: the row hook
    may hide it, the report data may decline it, the processing of its
    extras may fail. A report whose duration cannot be formatted adds
    nothing. *)
Theorem logreport_counts_duration (report : Report.t) (w : World) :
  totalDuration_total (data (pytest_runtest_logreport report w).2)
  = match _format_duration (Report.duration report) with
    | Ok _ => Float.add (totalDuration_total (data w))
                (Report.duration report)
    | Raise _ => totalDuration_total (data w)
    end.
Proof.
  destruct (logreport_data report w) as [rows ->].
  cbn [totalDuration_total set_tests]. apply logreport_cells_total.
Qed.

(** X23. Whenever the handler of a report returns, the text of the
    total is the total, formatted: the two are never out of step. *)
Theorem logreport_total_text (report : Report.t) (w : World) :
  (pytest_runtest_logreport report w).1 = Ok tt ->
  _format_duration
    (totalDuration_total (data (pytest_runtest_logreport report w).2))
  = Ok (totalDuration_formatted (data (pytest_runtest_logreport report w).2)).
Proof.
  rewrite logreport_ok. intros Hok.
  destruct (logreport_data report w) as [rows ->].
  destruct (logreport_cells report w) as [[[[report' row] cells]|e] w1] eqn:E;
    [|done].
  cbn [snd].
  destruct (logreport_cells_ok _ _ _ _ _ _ E)
    as (duration & formatted & _ & Hf & ->).
  by cbn.
Qed.

(** X24. The handler is not atomic: when the processing of the extras
    fails, it fails with the same error, having added the duration to
    the total and renewed the text of the total already; no row is
    added and the report file is not written. *)
Theorem logreport_extras_failure (report : Report.t) (w : World) (e : exn)
    (duration formatted : list N) :
  _format_duration (Report.duration report) = Ok duration ->
  _format_duration
    (Float.add (totalDuration_total (data w)) (Report.duration report))
  = Ok formatted ->
  _process_extras (config w) report
    (if negb (str_eqb (Report.when report) (py "call"))
     then Report.nodeid report ++ py "::" ++ Report.when report
     else Report.nodeid report) = Raise e ->
  let w' := (pytest_runtest_logreport report w).2 in
  (pytest_runtest_logreport report w).1 = Raise e
  /\ totalDuration_total (data w')
     = Float.add (totalDuration_total (data w)) (Report.duration report)
  /\ totalDuration_formatted (data w') = formatted
  /\ tests (data w') = tests (data w)
  /\ report_file w' = report_file w.
Proof.
  intros Hd Hf He w'. subst w'.
  unfold pytest_runtest_logreport, logreport_cells, mbind, M_bind, mret, M_ret,
    lift, update_data, get_data, get_config, warn, emit.
  destruct (Report.duration_formatter report);
    cbn [fst snd data trace with_trace with_data
           totalDuration_total set_totalDuration_total];
    rewrite Hd;
    cbn [fst snd data trace with_trace with_data
           totalDuration_total set_totalDuration_total];
    rewrite Hf;
    cbn [fst snd data trace with_trace with_data config
           totalDuration_total set_totalDuration_total];
    rewrite He; by cbn.
Qed.

(** After session finish the file is the rendering of the data. *)
Lemma sessionfinish_file (now : Z) (w : World) :
  report_file (deliver now SessionFinish w)
  = Some (rendered_report (deliver now SessionFinish w))
  /\ clock (deliver now SessionFinish w) = now.
Proof.
  unfold deliver. cbn [handle].
  unfold pytest_sessionfinish, mbind, M_bind, get_data, update_data.
  cbn [fst snd]. rewrite generate_report_spec.
  cbn [snd report_file with_trace with_report_file]. split; [|done].
  f_equal; by apply rendered_report_ext.
Qed.

(** X25. The report file is never left half way: session start and
    session finish always write it, and it then shows the report data as
    they are after the event, at the time of the event; a per-test
    report either leaves the file alone or writes it in the same way;
    the end of the collection and the terminal summary never write
    it. *)
Theorem deliver_report_file (now : Z) (ev : Event) (w : World) :
  let w' := deliver now ev w in
  match ev with
  | SessionStart | SessionFinish =>
      report_file w' = Some (rendered_report w')
  | RuntestLogreport _ =>
      report_file w' = report_file w
      \/ report_file w' = Some (rendered_report w')
  | CollectionFinish _ | TerminalSummary => report_file w' = report_file w
  end.
Proof.
  destruct ev as [|items|report| |]; cbv zeta;
    [| | |apply (proj1 (sessionfinish_file now w))|];
    unfold deliver; cbn [handle].
  - unfold pytest_sessionstart, mbind, M_bind, mret, M_ret,
      get_config, get_data, update_data.
    cbn [fst snd data trace with_trace with_data with_config].
    set (w' := with_data _ (with_data _ (with_config _ _))).
    destruct (fix_py_spec
                (pytest_html_results_table_header
                   (CellStr <$> resultsTableHeader (data w'))) w')
      as (fixed & Hfixed & [messages Hw]).
    destruct (_fix_py _ w') as [r w2].
    cbn [fst snd] in Hfixed, Hw. subst r w2.
    rewrite generate_report_spec. cbn [snd report_file with_trace
                                          with_report_file].
    f_equal; by apply rendered_report_ext.
  - done.
  - unfold pytest_runtest_logreport, mbind, M_bind, mret, M_ret.
    pose proof (logreport_cells_frame report (with_clock now w)) as Hframe.
    destruct (logreport_cells report (with_clock now w))
      as [[[[report' row] cells]|e] w1]; cbn [snd] in Hframe |- *;
      destruct Hframe as (_ & _ & Hfile & _); [|by left].
    destruct (pytest_html_results_table_row report' cells) as [|c cells'];
      [by left|].
    destruct (fix_py_spec (c :: cells') w1) as (fixed & Hfixed & [messages Hw]).
    destruct (_fix_py (c :: cells') w1) as [r w2].
    cbn [fst snd] in Hfixed, Hw. subst r w2.
    unfold get_data, update_data, emit. cbn [fst snd].
    destruct (add_test _ _ _ _) as [[] rows]; cbn [fst snd]; [|by left].
    right. rewrite generate_report_spec.
    cbn [snd report_file with_trace with_report_file].
    f_equal; by apply rendered_report_ext.
  - done.
Qed.

(** X26. No handler sets the running state back to [NotStarted]: once
    a session has started, the state is [Started] or [Finished] after
    every event, in whatever order the events come. *)
Theorem running_state_never_reset (events : list (Z * Event)) (w : World) :
  runningState (data w) <> NotStarted ->
  Forall (fun w' => runningState (data w') <> NotStarted) (run events w).
Proof.
  revert w. induction events as [|[now ev] events IH]; intros w Hw;
    cbn [run]; constructor.
  - rewrite deliver_running_state. by destruct ev.
  - apply IH. rewrite deliver_running_state. by destruct ev.
Qed.

Lemma run_final_app (events1 events2 : list (Z * Event)) (w : World) :
  run_final (events1 ++ events2) w = run_final events2 (run_final events1 w).
Proof. unfold run_final. by rewrite foldl_app. Qed.

(** The terminal summary writes its line and touches nothing else but
    the clock. *)
Lemma run_final_summaries (tail : list (Z * Event)) (w : World) :
  Forall (fun ev => ev.2 = TerminalSummary) tail ->
  data (run_final tail w) = data w
  /\ report_file (run_final tail w) = report_file w.
Proof.
  intros Hall. revert w.
  induction Hall as [|[now ev] tail Hev _ IH]; intros w; [done|].
  simpl in Hev. subst ev. unfold run_final. cbn [foldl fst snd].
  fold (run_final tail (deliver now TerminalSummary w)).
  destruct (IH (deliver now TerminalSummary w)) as [-> ->]. done.
Qed.

(** X27. Once the session has finished, the report file is the complete
    report: after a run that ends with session finish and the terminal
    summaries, whatever came before, the file holds the rendering, at
    the time of session finish, of the report data as they are at the
    end, and the running state is [Finished]. *)
Theorem report_file_after_finish (events tail : list (Z * Event))
    (finish : Z) (w : World) :
  Forall (fun ev => ev.2 = TerminalSummary) tail ->
  let w' := run_final (events ++ (finish, SessionFinish) :: tail) w in
  report_file w' = Some (rendered_report (with_clock finish w'))
  /\ runningState (data w') = Finished.
Proof.
  intros Htail w'. subst w'.
  rewrite run_final_app.
  set (w1 := run_final events w).
  change (run_final ((finish, SessionFinish) :: tail) w1)
    with (run_final tail (deliver finish SessionFinish w1)).
  destruct (sessionfinish_file finish w1) as [Hw2 Hclock].
  set (w2 := deliver finish SessionFinish w1) in *.
  destruct (run_final_summaries tail w2 Htail) as [Hdata Hfile].
  split.
  - rewrite Hfile, Hw2. f_equal. symmetry. by apply rendered_report_ext.
  - rewrite Hdata. apply deliver_running_state.
Qed.

(** The report data when [logreport_cells] is through, or has raised. *)
Lemma logreport_cells_data (report : Report.t) (w : World) :
  exists total formatted,
    data (logreport_cells report w).2
    = set_totalDuration_formatted formatted
        (set_totalDuration_total total (data w)).
Proof.
  assert (forall d, set_totalDuration_formatted (totalDuration_formatted d)
                      (set_totalDuration_total (totalDuration_total d) d) = d)
    as Hid by (by intros []).
  assert (forall t d, set_totalDuration_formatted (totalDuration_formatted d)
                      (set_totalDuration_total t d)
                    = set_totalDuration_total t d)
    as Hid' by (by intros ? []).
  unfold logreport_cells, mbind, M_bind, mret, M_ret,
    lift, update_data, get_data, get_config, warn, emit.
  destruct (Report.duration_formatter report);
    cbn [fst snd data trace with_trace with_data
           totalDuration_total set_totalDuration_total];
    (destruct (_format_duration (Report.duration report)) as [duration|];
     [|cbn; eexists _, _; by rewrite Hid]);
    cbn [fst snd data trace with_trace with_data
           totalDuration_total set_totalDuration_total];
    (destruct (_format_duration (Float.add _ _)) as [formatted|];
     [|cbn; eexists _, _; by rewrite Hid']);
    cbn [fst snd data trace with_trace with_data config
           totalDuration_total set_totalDuration_total];
    destruct (_process_extras _ _ _); cbn; by eexists _, _.
Qed.

(** X28. What each handler changes in the report data, and what it
    leaves: session start sets the environment, the title, the header
    cells and the running state; the end of the collection the number
    of collected items; a per-test report the total duration, its text
    and the rows; session finish the summary fragments and the running
    state; the terminal summary nothing. Here the title hook gives the
    title, the summary hook the fragments and the report data the rows,
    as the embedding reads them. *)
Theorem deliver_data_frame (now : Z) (ev : Event) (w : World) :
  let d := data w in
  let d' := data (deliver now ev w) in
  match ev with
  | SessionStart =>
      exists metadata title' header,
        d' = set_runningState Started
               (set_resultsTableHeader header
                  (set_title title' (set_environment metadata d)))
  | CollectionFinish items => d' = set_collectedItems items d
  | RuntestLogreport _ =>
      exists total formatted rows,
        d' = set_tests rows
               (set_totalDuration_formatted formatted
                  (set_totalDuration_total total d))
  | SessionFinish =>
      exists summary,
        d' = set_runningState Finished (set_additionalSummary summary d)
  | TerminalSummary => d' = d
  end.
Proof.
  cbv zeta. unfold deliver. destruct ev as [|items|report| |]; cbn [handle].
  - apply (sessionstart_data (with_clock now w)).
  - done.
  - destruct (logreport_data report (with_clock now w)) as [rows ->].
    destruct (logreport_cells_data report (with_clock now w))
      as (total & formatted & ->).
    by exists total, formatted, rows.
  - apply (sessionfinish_data (with_clock now w)).
  - done.
Qed.

End MoreHandlers.

Section MoreSessions.
Import Plain.

Lemma logreport_total_text_witness :
  (pytest_runtest_logreport half_second_report initial_world).1 = Ok tt
  /\ _format_duration
       (totalDuration_total
          (data (pytest_runtest_logreport half_second_report
                   initial_world).2))
     = Ok (totalDuration_formatted
             (data (pytest_runtest_logreport half_second_report
                      initial_world).2)).
Proof.
  assert ((pytest_runtest_logreport half_second_report initial_world).1
          = Ok tt) as Hok by (by vm_compute).
  split; [exact Hok|].
  exact (logreport_total_text half_second_report initial_world Hok).
Defined.

Lemma logreport_extras_failure_witness :
  _format_duration (Report.duration backslash_report) = Ok (py "500 ms")
  /\ _format_duration
       (Float.add (totalDuration_total (data initial_world))
          (Report.duration backslash_report)) = Ok (py "500 ms")
  /\ _process_extras (config initial_world) backslash_report
       (if negb (str_eqb (Report.when backslash_report) (py "call"))
        then Report.nodeid backslash_report ++ py "::"
               ++ Report.when backslash_report
        else Report.nodeid backslash_report) = Raise UnicodeDecodeError
  /\ (pytest_runtest_logreport backslash_report initial_world).1
     = Raise UnicodeDecodeError
  /\ totalDuration_total
       (data (pytest_runtest_logreport backslash_report initial_world).2)
     = Float.add (totalDuration_total (data initial_world))
         (Report.duration backslash_report)
  /\ totalDuration_formatted
       (data (pytest_runtest_logreport backslash_report initial_world).2)
     = py "500 ms"
  /\ tests (data (pytest_runtest_logreport backslash_report initial_world).2)
     = tests (data initial_world)
  /\ report_file (pytest_runtest_logreport backslash_report initial_world).2
     = report_file initial_world.
Proof.
  assert (_format_duration (Report.duration backslash_report)
          = Ok (py "500 ms")) as Hd by (by vm_compute).
  assert (_format_duration
            (Float.add (totalDuration_total (data initial_world))
               (Report.duration backslash_report)) = Ok (py "500 ms")) as Hf
    by (by vm_compute).
  assert (_process_extras (config initial_world) backslash_report
            (if negb (str_eqb (Report.when backslash_report) (py "call"))
             then Report.nodeid backslash_report ++ py "::"
                    ++ Report.when backslash_report
             else Report.nodeid backslash_report)
          = Raise UnicodeDecodeError) as He by (by vm_compute).
  split; [exact Hd|]. split; [exact Hf|]. split; [exact He|].
  exact (logreport_extras_failure backslash_report initial_world
           UnicodeDecodeError (py "500 ms") (py "500 ms") Hd Hf He).
Defined.

Lemma running_state_never_reset_witness :
  runningState (data (deliver 0 SessionStart initial_world)) <> NotStarted
  /\ Forall (fun w' => runningState (data w') <> NotStarted)
       (run (drop 1 two_tests) (deliver 0 SessionStart initial_world)).
Proof.
  assert (runningState (data (deliver 0 SessionStart initial_world))
          <> NotStarted) as Hw by (by vm_compute).
  split; [exact Hw|].
  exact (running_state_never_reset (drop 1 two_tests)
           (deliver 0 SessionStart initial_world) Hw).
Defined.

Lemma report_file_after_finish_witness :
  Forall (fun ev : Z * Event => ev.2 = TerminalSummary) (drop 5 two_tests)
  /\ report_file
       (run_final (take 4 two_tests ++ (4, SessionFinish) :: drop 5 two_tests)
          initial_world)
     = Some (rendered_report
               (with_clock 4
                  (run_final
                     (take 4 two_tests
                        ++ (4, SessionFinish) :: drop 5 two_tests)
                     initial_world)))
  /\ runningState
       (data (run_final
                (take 4 two_tests ++ (4, SessionFinish) :: drop 5 two_tests)
                initial_world)) = Finished.
Proof.
  assert (Forall (fun ev : Z * Event => ev.2 = TerminalSummary)
            (drop 5 two_tests)) as Htail.
  { repeat (constructor; [reflexivity|]). constructor. }
  split; [exact Htail|].
  exact (report_file_after_finish (take 4 two_tests) (drop 5 two_tests) 4
           initial_world Htail).
Defined.

End MoreSessions.

(** ** The report builder on its own sinks *)

Section BaseSinks.
Context `{PyLib}.

Lemma process_extra_base_sinks (config : Config) (test_id : list N)
    (test_index extra_index : Z) (extra extra' : Extra.t) :
  @process_extra _ base_sinks config test_id test_index extra_index extra
  = Ok extra' ->
  Extra.content extra'
  = if bool_decide
         (Extra.format_type extra
            ∈ [extras.FORMAT_JSON; extras.FORMAT_TEXT; extras.FORMAT_IMAGE;
               extras.FORMAT_VIDEO])
    then CNone else Extra.content extra.
Proof.
  unfold process_extra, str_eqb. intros Hok.
  destruct (unicode_escape test_id) as [decoded|]; [|done].
  cbn [mbind result_bind] in Hok.
  destruct (bool_decide_reflect
              (Extra.format_type extra = extras.FORMAT_JSON)) as [Hj|Hj].
  { rewrite bool_decide_eq_true_2 by (rewrite Hj; apply list_elem_of_here).
    destruct (json_dumps (Extra.content extra)); [|done].
    cbn [mbind result_bind Extra.format_type Extra.set_content
           Extra.mime_type] in Hok.
    destruct (bool_decide_reflect
                (Extra.format_type extra = extras.FORMAT_TEXT));
      cbn [mbind result_bind Extra.format_type Extra.set_content
             Extra.mime_type] in Hok;
      destruct (_ || _); by injection Hok as <-. }
  cbn [mbind result_bind] in Hok.
  destruct (bool_decide_reflect
              (Extra.format_type extra = extras.FORMAT_TEXT)) as [Ht|Ht].
  { rewrite bool_decide_eq_true_2
      by (rewrite Ht; apply list_elem_of_further, list_elem_of_here).
    destruct (Extra.content extra) as [s|b|text|];
      try destruct (utf8_decode b); try done;
      cbn [mbind result_bind Extra.format_type Extra.set_content
             Extra.mime_type] in Hok;
      destruct (_ || _); by injection Hok as <-. }
  cbn [mbind result_bind] in Hok.
  destruct (bool_decide_reflect
              (Extra.format_type extra = extras.FORMAT_IMAGE)) as [Hi|Hi].
  { rewrite bool_decide_eq_true_2
      by (rewrite Hi; do 2 apply list_elem_of_further; apply list_elem_of_here).
    by injection Hok as <-. }
  destruct (bool_decide_reflect
              (Extra.format_type extra = extras.FORMAT_VIDEO)) as [Hv|Hv].
  { rewrite bool_decide_eq_true_2
      by (rewrite Hv; do 3 apply list_elem_of_further; apply list_elem_of_here).
    by injection Hok as <-. }
  rewrite bool_decide_eq_false_2.
  - by injection Hok as <-.
  - rewrite !elem_of_cons. intros [?|[?|[?|[?|?%elem_of_nil]]]]; done.
Qed.

(** X29. [BaseReport] by itself stores no content: its own
    [_data_content] and [_media_content] return [None], so that with
    them every JSON, text, image and video extra comes back with the
    content [None], and every other extra with the content it had. *)
Theorem base_report_discards_content (config : Config) (report : Report.t)
    (test_id : list N) (out : list Extra.t) :
  @_process_extras _ base_sinks config report test_id = Ok out ->
  Forall2 (fun extra extra' =>
             Extra.content extra'
             = if bool_decide
                    (Extra.format_type extra
                       ∈ [extras.FORMAT_JSON; extras.FORMAT_TEXT;
                          extras.FORMAT_IMAGE; extras.FORMAT_VIDEO])
               then CNone else Extra.content extra)
    (default [] (Report.extras report)) out.
Proof.
  unfold _process_extras. generalize 0 as extra_index.
  revert out.
  induction (default [] (Report.extras report)) as [|extra rest IH];
    intros out extra_index; cbn [process_extras_from].
  - intros [= <-]. constructor.
  - destruct (process_extra _ _ _ _ extra) as [extra'|] eqn:He; [|done].
    cbn [mbind result_bind].
    destruct (process_extras_from _ _ _ _ rest) as [rest'|] eqn:Hr; [|done].
    cbn [mbind result_bind]. intros [= <-].
    constructor; [by eapply process_extra_base_sinks|by eapply IH].
Qed.

End BaseSinks.

Section BaseSinksExample.
Import Plain.

Lemma base_report_discards_content_witness :
  @_process_extras pylib base_sinks plain_config attached_report
    (py "test_a.py::test_b")
  = Ok [Extra.mk CNone (Some (py "txt")) extras.FORMAT_TEXT
          (Some (py "text/plain")) (Some (py "log.txt"));
        Extra.mk (CStr (py "https://example.org")) None extras.FORMAT_URL
          None (Some (py "home"))]
  /\ Forall2 (fun extra extra' =>
                Extra.content extra'
                = if bool_decide
                       (Extra.format_type extra
                          ∈ [extras.FORMAT_JSON; extras.FORMAT_TEXT;
                             extras.FORMAT_IMAGE; extras.FORMAT_VIDEO])
                  then CNone else Extra.content extra)
       (default [] (Report.extras attached_report))
       [Extra.mk CNone (Some (py "txt")) extras.FORMAT_TEXT
          (Some (py "text/plain")) (Some (py "log.txt"));
        Extra.mk (CStr (py "https://example.org")) None extras.FORMAT_URL
          None (Some (py "home"))].
Proof.
  assert (@_process_extras pylib base_sinks plain_config attached_report
            (py "test_a.py::test_b")
          = Ok [Extra.mk CNone (Some (py "txt")) extras.FORMAT_TEXT
                  (Some (py "text/plain")) (Some (py "log.txt"));
                Extra.mk (CStr (py "https://example.org")) None
                  extras.FORMAT_URL None (Some (py "home"))]) as Hok
    by (by vm_compute).
  split; [exact Hok|].
  exact (@base_report_discards_content pylib plain_config attached_report
           (py "test_a.py::test_b") _ Hok).
Defined.

End BaseSinksExample.
